(** * Append-reconciliation of scraped records into monthly worksheets

    Shallow embedding of [utils/sheets.py] and of its near-duplicate
    [utils/scraping.py]: the header helpers, the sequence and identifier
    scans, and [guardar_en_hoja].

    Modelling conventions.
    - A Python [str] is a Rocq [string], i.e. its UTF-8 bytes.  The
      functions of [str] ([strip], [isdigit], [lower], [capitalize]) and
      [int] work on the characters of the string, with the character tables
      of the interpreter (Unicode 14.0, that of CPython 3.11), and [int] has
      the limit of 4300 digits of that interpreter.
    - A [dict] of an incoming record is a [gmap string value].
    - The part of pandas that the code uses is modelled by [DataFrame]:
      a set of column names and a list of rows, each one carrying its index
      label.  Assigning a [Series] to a column aligns it on the labels, as
      pandas does.  A frame keeps the cells of the records as they come:
      the change of type that pandas makes in a column of integers with a
      missing entry is left out, so the properties that speak of the text
      of the emitted fields are stated for records whose fields hold
      strings ([de_textos]), which is what the scraper builds.
    - The spreadsheet service is an in-memory grid per worksheet title; each
      call to it is recorded in a trace.  Credentials, console output and
      network failures are left out; the one failure of a call that is kept
      is the refusal of a payload that JSON cannot hold (a [NaN], or an
      integer of more digits than the interpreter writes), which is what the
      frames of this code can produce.  So the properties are about runs in
      which the service answers every call; those on how a call ends speak
      of the calls that return and of the errors that the code itself
      raises before it reaches the service. *)

From Stdlib Require Import ZArith NArith Ascii String List Lia.
From stdpp Require Import base tactics option list strings gmap pretty sorting.

Local Open Scope string_scope.
Local Open Scope list_scope.
Local Open Scope Z_scope.

(** ** Python strings

    A [str] is a sequence of code points; here it is the string of its
    UTF-8 bytes, and the functions of [str] work on the characters of that
    string.  The character tables are those of the Unicode character
    database of the interpreter (Unicode 14.0 in CPython 3.11). *)

Module Py.

Definition byte (b : ascii) : N := N_of_ascii b.

(** The bytes 0x80..0xBF, which in UTF-8 go on with the character that the
    byte before them started. *)
Definition continua (b : ascii) : bool :=
  (128 <=? byte b)%N && (byte b <=? 191)%N.

(** Whether a piece of a string goes on with the character before it. *)
Definition sigue (c : string) : bool :=
  match c with
  | String b _ => continua b
  | EmptyString => false
  end.

(** The characters of a string, each one as the string of its bytes: a
    character is a byte and the continuation bytes that follow it. *)
Fixpoint chars (s : string) : list string :=
  match s with
  | EmptyString => []
  | String b s' =>
      match chars s' with
      | c :: cs =>
          if sigue c then String b c :: cs
          else String b EmptyString :: c :: cs
      | [] => [String b EmptyString]
      end
  end.

(** ["".join(l)] *)
Fixpoint join (l : list string) : string :=
  match l with
  | [] => EmptyString
  | c :: l' => c +:+ join l'
  end.

(** [ord(c)] for a character given by its bytes; [None] for bytes that are
    not the UTF-8 form of a code point, which no [str] has. *)
Definition ord (c : string) : option N :=
  match c with
  | String a EmptyString =>
      if (byte a <? 128)%N then Some (byte a) else None
  | String a (String b EmptyString) =>
      if (194 <=? byte a)%N && (byte a <=? 223)%N && continua b
      then Some ((byte a - 192) * 64 + (byte b - 128))%N
      else None
  | String a (String b (String c EmptyString)) =>
      let n := ((byte a - 224) * 4096 + (byte b - 128) * 64
                + (byte c - 128))%N in
      if (224 <=? byte a)%N && (byte a <=? 239)%N && continua b && continua c
         && (2048 <=? n)%N && negb ((55296 <=? n)%N && (n <=? 57343)%N)
      then Some n else None
  | String a (String b (String c (String d EmptyString))) =>
      let n := ((byte a - 240) * 262144 + (byte b - 128) * 4096
                + (byte c - 128) * 64 + (byte d - 128))%N in
      if (240 <=? byte a)%N && (byte a <=? 244)%N
         && continua b && continua c && continua d
         && (65536 <=? n)%N && (n <=? 1114111)%N
      then Some n else None
  | _ => None
  end.

(** [chr(n)], as UTF-8. *)
Definition chr (n : N) : string :=
  let b (k : N) := String (ascii_of_N k) EmptyString in
  if (n <? 128)%N then b n
  else if (n <? 2048)%N then b (192 + n / 64)%N +:+ b (128 + n mod 64)%N
  else if (n <? 65536)%N
  then b (224 + n / 4096)%N +:+ b (128 + (n / 64) mod 64)%N
       +:+ b (128 + n mod 64)%N
  else b (240 + n / 262144)%N +:+ b (128 + (n / 4096) mod 64)%N
       +:+ b (128 + (n / 64) mod 64)%N +:+ b (128 + n mod 64)%N.

(** The code points that [str.isspace] accepts. *)
Definition tabla_espacios : list N :=
  [9; 10; 11; 12; 13; 28; 29; 30; 31; 32; 133; 160; 5760; 8192; 8193; 8194;
   8195; 8196; 8197; 8198; 8199; 8200; 8201; 8202; 8232; 8233; 8239; 8287;
   12288]%N.

(** The ranges of the code points that [str.isdigit] accepts: the decimal
    digits of every script and the other digits (superscripts, circled
    digits, ...). *)
Definition tabla_digitos : list (N * N) :=
  [(48, 57); (178, 179); (185, 185); (1632, 1641); (1776, 1785); (1984,
   1993); (2406, 2415); (2534, 2543); (2662, 2671); (2790, 2799); (2918,
   2927); (3046, 3055); (3174, 3183); (3302, 3311); (3430, 3439); (3558,
   3567); (3664, 3673); (3792, 3801); (3872, 3881); (4160, 4169); (4240,
   4249); (4969, 4977); (6112, 6121); (6160, 6169); (6470, 6479); (6608,
   6618); (6784, 6793); (6800, 6809); (6992, 7001); (7088, 7097); (7232,
   7241); (7248, 7257); (8304, 8304); (8308, 8313); (8320, 8329); (9312,
   9320); (9332, 9340); (9352, 9360); (9450, 9450); (9461, 9469); (9471,
   9471); (10102, 10110); (10112, 10120); (10122, 10130); (42528, 42537);
   (43216, 43225); (43264, 43273); (43472, 43481); (43504, 43513); (43600,
   43609); (44016, 44025); (65296, 65305); (66720, 66729); (68160, 68163);
   (68912, 68921); (69216, 69224); (69714, 69722); (69734, 69743); (69872,
   69881); (69942, 69951); (70096, 70105); (70384, 70393); (70736, 70745);
   (70864, 70873); (71248, 71257); (71360, 71369); (71472, 71481); (71904,
   71913); (72016, 72025); (72784, 72793); (73040, 73049); (73120, 73129);
   (92768, 92777); (92864, 92873); (93008, 93017); (120782, 120831);
   (123200, 123209); (123632, 123641); (125264, 125273); (127232, 127242);
   (130032, 130041)]%N.

(** The ranges of the decimal digits: each range is made of runs of ten,
    zero to nine. *)
Definition tabla_decimales : list (N * N) :=
  [(48, 57); (1632, 1641); (1776, 1785); (1984, 1993); (2406, 2415); (2534,
   2543); (2662, 2671); (2790, 2799); (2918, 2927); (3046, 3055); (3174,
   3183); (3302, 3311); (3430, 3439); (3558, 3567); (3664, 3673); (3792,
   3801); (3872, 3881); (4160, 4169); (4240, 4249); (6112, 6121); (6160,
   6169); (6470, 6479); (6608, 6617); (6784, 6793); (6800, 6809); (6992,
   7001); (7088, 7097); (7232, 7241); (7248, 7257); (42528, 42537); (43216,
   43225); (43264, 43273); (43472, 43481); (43504, 43513); (43600, 43609);
   (44016, 44025); (65296, 65305); (66720, 66729); (68912, 68921); (69734,
   69743); (69872, 69881); (69942, 69951); (70096, 70105); (70384, 70393);
   (70736, 70745); (70864, 70873); (71248, 71257); (71360, 71369); (71472,
   71481); (71904, 71913); (72016, 72025); (72784, 72793); (73040, 73049);
   (73120, 73129); (92768, 92777); (92864, 92873); (93008, 93017); (120782,
   120831); (123200, 123209); (123632, 123641); (125264, 125273); (130032,
   130041)]%N.

(** Lower case: a code point [c] of [(lo, hi, paso, d)] that is a multiple
    of [paso] away from [lo] maps to [d + (c - lo)]. *)
Definition tabla_lower : list (N * N * N * N) :=
  [(65, 90, 1, 97); (192, 214, 1, 224); (216, 222, 1, 248); (256, 302, 2,
   257); (306, 310, 2, 307); (313, 327, 2, 314); (330, 374, 2, 331); (376,
   376, 1, 255); (377, 381, 2, 378); (385, 385, 1, 595); (386, 388, 2, 387);
   (390, 390, 1, 596); (391, 391, 1, 392); (393, 394, 1, 598); (395, 395, 1,
   396); (398, 398, 1, 477); (399, 399, 1, 601); (400, 400, 1, 603); (401,
   401, 1, 402); (403, 403, 1, 608); (404, 404, 1, 611); (406, 406, 1, 617);
   (407, 407, 1, 616); (408, 408, 1, 409); (412, 412, 1, 623); (413, 413, 1,
   626); (415, 415, 1, 629); (416, 420, 2, 417); (422, 422, 1, 640); (423,
   423, 1, 424); (425, 425, 1, 643); (428, 428, 1, 429); (430, 430, 1, 648);
   (431, 431, 1, 432); (433, 434, 1, 650); (435, 437, 2, 436); (439, 439, 1,
   658); (440, 440, 1, 441); (444, 444, 1, 445); (452, 452, 1, 454); (453,
   453, 1, 454); (455, 455, 1, 457); (456, 456, 1, 457); (458, 458, 1, 460);
   (459, 475, 2, 460); (478, 494, 2, 479); (497, 497, 1, 499); (498, 500, 2,
   499); (502, 502, 1, 405); (503, 503, 1, 447); (504, 542, 2, 505); (544,
   544, 1, 414); (546, 562, 2, 547); (570, 570, 1, 11365); (571, 571, 1,
   572); (573, 573, 1, 410); (574, 574, 1, 11366); (577, 577, 1, 578); (579,
   579, 1, 384); (580, 580, 1, 649); (581, 581, 1, 652); (582, 590, 2, 583);
   (880, 882, 2, 881); (886, 886, 1, 887); (895, 895, 1, 1011); (902, 902,
   1, 940); (904, 906, 1, 941); (908, 908, 1, 972); (910, 911, 1, 973);
   (913, 929, 1, 945); (931, 939, 1, 963); (975, 975, 1, 983); (984, 1006,
   2, 985); (1012, 1012, 1, 952); (1015, 1015, 1, 1016); (1017, 1017, 1,
   1010); (1018, 1018, 1, 1019); (1021, 1023, 1, 891); (1024, 1039, 1,
   1104); (1040, 1071, 1, 1072); (1120, 1152, 2, 1121); (1162, 1214, 2,
   1163); (1216, 1216, 1, 1231); (1217, 1229, 2, 1218); (1232, 1326, 2,
   1233); (1329, 1366, 1, 1377); (4256, 4293, 1, 11520); (4295, 4295, 1,
   11559); (4301, 4301, 1, 11565); (5024, 5103, 1, 43888); (5104, 5109, 1,
   5112); (7312, 7354, 1, 4304); (7357, 7359, 1, 4349); (7680, 7828, 2,
   7681); (7838, 7838, 1, 223); (7840, 7934, 2, 7841); (7944, 7951, 1,
   7936); (7960, 7965, 1, 7952); (7976, 7983, 1, 7968); (7992, 7999, 1,
   7984); (8008, 8013, 1, 8000); (8025, 8031, 2, 8017); (8040, 8047, 1,
   8032); (8072, 8079, 1, 8064); (8088, 8095, 1, 8080); (8104, 8111, 1,
   8096); (8120, 8121, 1, 8112); (8122, 8123, 1, 8048); (8124, 8124, 1,
   8115); (8136, 8139, 1, 8050); (8140, 8140, 1, 8131); (8152, 8153, 1,
   8144); (8154, 8155, 1, 8054); (8168, 8169, 1, 8160); (8170, 8171, 1,
   8058); (8172, 8172, 1, 8165); (8184, 8185, 1, 8056); (8186, 8187, 1,
   8060); (8188, 8188, 1, 8179); (8486, 8486, 1, 969); (8490, 8490, 1, 107);
   (8491, 8491, 1, 229); (8498, 8498, 1, 8526); (8544, 8559, 1, 8560);
   (8579, 8579, 1, 8580); (9398, 9423, 1, 9424); (11264, 11311, 1, 11312);
   (11360, 11360, 1, 11361); (11362, 11362, 1, 619); (11363, 11363, 1,
   7549); (11364, 11364, 1, 637); (11367, 11371, 2, 11368); (11373, 11373,
   1, 593); (11374, 11374, 1, 625); (11375, 11375, 1, 592); (11376, 11376,
   1, 594); (11378, 11378, 1, 11379); (11381, 11381, 1, 11382); (11390,
   11391, 1, 575); (11392, 11490, 2, 11393); (11499, 11501, 2, 11500);
   (11506, 11506, 1, 11507); (42560, 42604, 2, 42561); (42624, 42650, 2,
   42625); (42786, 42798, 2, 42787); (42802, 42862, 2, 42803); (42873,
   42875, 2, 42874); (42877, 42877, 1, 7545); (42878, 42886, 2, 42879);
   (42891, 42891, 1, 42892); (42893, 42893, 1, 613); (42896, 42898, 2,
   42897); (42902, 42920, 2, 42903); (42922, 42922, 1, 614); (42923, 42923,
   1, 604); (42924, 42924, 1, 609); (42925, 42925, 1, 620); (42926, 42926,
   1, 618); (42928, 42928, 1, 670); (42929, 42929, 1, 647); (42930, 42930,
   1, 669); (42931, 42931, 1, 43859); (42932, 42946, 2, 42933); (42948,
   42948, 1, 42900); (42949, 42949, 1, 642); (42950, 42950, 1, 7566);
   (42951, 42953, 2, 42952); (42960, 42960, 1, 42961); (42966, 42968, 2,
   42967); (42997, 42997, 1, 42998); (65313, 65338, 1, 65345); (66560,
   66599, 1, 66600); (66736, 66771, 1, 66776); (66928, 66964, 2, 66967);
   (66929, 66937, 2, 66968); (66941, 66953, 2, 66980); (66957, 66961, 2,
   66996); (66965, 66965, 1, 67004); (68736, 68786, 1, 68800); (71840,
   71871, 1, 71872); (93760, 93791, 1, 93792); (125184, 125217, 1, 125218)]%N.

(** The one code point whose lower case is two code points. *)
Definition tabla_lower_larga : list (N * list N) :=
  [(304, [105; 775])]%N.

(** Title case, in the same layout. *)
Definition tabla_title : list (N * N * N * N) :=
  [(97, 122, 1, 65); (181, 181, 1, 924); (224, 246, 1, 192); (248, 254, 1,
   216); (255, 255, 1, 376); (257, 303, 2, 256); (305, 305, 1, 73); (307,
   311, 2, 306); (314, 328, 2, 313); (331, 375, 2, 330); (378, 382, 2, 377);
   (383, 383, 1, 83); (384, 384, 1, 579); (387, 389, 2, 386); (392, 392, 1,
   391); (396, 396, 1, 395); (402, 402, 1, 401); (405, 405, 1, 502); (409,
   409, 1, 408); (410, 410, 1, 573); (414, 414, 1, 544); (417, 421, 2, 416);
   (424, 424, 1, 423); (429, 429, 1, 428); (432, 432, 1, 431); (436, 438, 2,
   435); (441, 441, 1, 440); (445, 445, 1, 444); (447, 447, 1, 503); (452,
   452, 1, 453); (454, 454, 1, 453); (455, 455, 1, 456); (457, 457, 1, 456);
   (458, 458, 1, 459); (460, 476, 2, 459); (477, 477, 1, 398); (479, 495, 2,
   478); (497, 497, 1, 498); (499, 501, 2, 498); (505, 543, 2, 504); (547,
   563, 2, 546); (572, 572, 1, 571); (575, 576, 1, 11390); (578, 578, 1,
   577); (583, 591, 2, 582); (592, 592, 1, 11375); (593, 593, 1, 11373);
   (594, 594, 1, 11376); (595, 595, 1, 385); (596, 596, 1, 390); (598, 599,
   1, 393); (601, 601, 1, 399); (603, 603, 1, 400); (604, 604, 1, 42923);
   (608, 608, 1, 403); (609, 609, 1, 42924); (611, 611, 1, 404); (613, 613,
   1, 42893); (614, 614, 1, 42922); (616, 616, 1, 407); (617, 617, 1, 406);
   (618, 618, 1, 42926); (619, 619, 1, 11362); (620, 620, 1, 42925); (623,
   623, 1, 412); (625, 625, 1, 11374); (626, 626, 1, 413); (629, 629, 1,
   415); (637, 637, 1, 11364); (640, 640, 1, 422); (642, 642, 1, 42949);
   (643, 643, 1, 425); (647, 647, 1, 42929); (648, 648, 1, 430); (649, 649,
   1, 580); (650, 651, 1, 433); (652, 652, 1, 581); (658, 658, 1, 439);
   (669, 669, 1, 42930); (670, 670, 1, 42928); (837, 837, 1, 921); (881,
   883, 2, 880); (887, 887, 1, 886); (891, 893, 1, 1021); (940, 940, 1,
   902); (941, 943, 1, 904); (945, 961, 1, 913); (962, 962, 1, 931); (963,
   971, 1, 931); (972, 972, 1, 908); (973, 974, 1, 910); (976, 976, 1, 914);
   (977, 977, 1, 920); (981, 981, 1, 934); (982, 982, 1, 928); (983, 983, 1,
   975); (985, 1007, 2, 984); (1008, 1008, 1, 922); (1009, 1009, 1, 929);
   (1010, 1010, 1, 1017); (1011, 1011, 1, 895); (1013, 1013, 1, 917); (1016,
   1016, 1, 1015); (1019, 1019, 1, 1018); (1072, 1103, 1, 1040); (1104,
   1119, 1, 1024); (1121, 1153, 2, 1120); (1163, 1215, 2, 1162); (1218,
   1230, 2, 1217); (1231, 1231, 1, 1216); (1233, 1327, 2, 1232); (1377,
   1414, 1, 1329); (5112, 5117, 1, 5104); (7296, 7296, 1, 1042); (7297,
   7297, 1, 1044); (7298, 7298, 1, 1054); (7299, 7300, 1, 1057); (7301,
   7301, 1, 1058); (7302, 7302, 1, 1066); (7303, 7303, 1, 1122); (7304,
   7304, 1, 42570); (7545, 7545, 1, 42877); (7549, 7549, 1, 11363); (7566,
   7566, 1, 42950); (7681, 7829, 2, 7680); (7835, 7835, 1, 7776); (7841,
   7935, 2, 7840); (7936, 7943, 1, 7944); (7952, 7957, 1, 7960); (7968,
   7975, 1, 7976); (7984, 7991, 1, 7992); (8000, 8005, 1, 8008); (8017,
   8023, 2, 8025); (8032, 8039, 1, 8040); (8048, 8049, 1, 8122); (8050,
   8053, 1, 8136); (8054, 8055, 1, 8154); (8056, 8057, 1, 8184); (8058,
   8059, 1, 8170); (8060, 8061, 1, 8186); (8064, 8071, 1, 8072); (8080,
   8087, 1, 8088); (8096, 8103, 1, 8104); (8112, 8113, 1, 8120); (8115,
   8115, 1, 8124); (8126, 8126, 1, 921); (8131, 8131, 1, 8140); (8144, 8145,
   1, 8152); (8160, 8161, 1, 8168); (8165, 8165, 1, 8172); (8179, 8179, 1,
   8188); (8526, 8526, 1, 8498); (8560, 8575, 1, 8544); (8580, 8580, 1,
   8579); (9424, 9449, 1, 9398); (11312, 11359, 1, 11264); (11361, 11361, 1,
   11360); (11365, 11365, 1, 570); (11366, 11366, 1, 574); (11368, 11372, 2,
   11367); (11379, 11379, 1, 11378); (11382, 11382, 1, 11381); (11393,
   11491, 2, 11392); (11500, 11502, 2, 11499); (11507, 11507, 1, 11506);
   (11520, 11557, 1, 4256); (11559, 11559, 1, 4295); (11565, 11565, 1,
   4301); (42561, 42605, 2, 42560); (42625, 42651, 2, 42624); (42787, 42799,
   2, 42786); (42803, 42863, 2, 42802); (42874, 42876, 2, 42873); (42879,
   42887, 2, 42878); (42892, 42892, 1, 42891); (42897, 42899, 2, 42896);
   (42900, 42900, 1, 42948); (42903, 42921, 2, 42902); (42933, 42947, 2,
   42932); (42952, 42954, 2, 42951); (42961, 42961, 1, 42960); (42967,
   42969, 2, 42966); (42998, 42998, 1, 42997); (43859, 43859, 1, 42931);
   (43888, 43967, 1, 5024); (65345, 65370, 1, 65313); (66600, 66639, 1,
   66560); (66776, 66811, 1, 66736); (66967, 67003, 2, 66928); (66968,
   66976, 2, 66929); (66980, 66992, 2, 66941); (66996, 67000, 2, 66957);
   (67004, 67004, 1, 66965); (68800, 68850, 1, 68736); (71872, 71903, 1,
   71840); (93792, 93823, 1, 93760); (125218, 125251, 1, 125184)]%N.

(** The code points whose title case is more than one code point. *)
Definition tabla_title_larga : list (N * list N) :=
  [(223, [83; 115]); (329, [700; 78]); (496, [74; 780]); (912, [921; 776;
   769]); (944, [933; 776; 769]); (1415, [1333; 1410]); (7830, [72; 817]);
   (7831, [84; 776]); (7832, [87; 778]); (7833, [89; 778]); (7834, [65;
   702]); (8016, [933; 787]); (8018, [933; 787; 768]); (8020, [933; 787;
   769]); (8022, [933; 787; 834]); (8114, [8122; 837]); (8116, [902; 837]);
   (8118, [913; 834]); (8119, [913; 834; 837]); (8130, [8138; 837]); (8132,
   [905; 837]); (8134, [919; 834]); (8135, [919; 834; 837]); (8146, [921;
   776; 768]); (8147, [921; 776; 769]); (8150, [921; 834]); (8151, [921;
   776; 834]); (8162, [933; 776; 768]); (8163, [933; 776; 769]); (8164,
   [929; 787]); (8166, [933; 834]); (8167, [933; 776; 834]); (8178, [8186;
   837]); (8180, [911; 837]); (8182, [937; 834]); (8183, [937; 834; 837]);
   (64256, [70; 102]); (64257, [70; 105]); (64258, [70; 108]); (64259, [70;
   102; 105]); (64260, [70; 102; 108]); (64261, [83; 116]); (64262, [83;
   116]); (64275, [1348; 1398]); (64276, [1348; 1381]); (64277, [1348;
   1387]); (64278, [1358; 1398]); (64279, [1348; 1389])]%N.

(** The ranges of the code points that case conversion skips when it looks
    for the letters around a capital sigma (Case_Ignorable). *)
Definition tabla_ignorables : list (N * N) :=
  [(39, 39); (46, 46); (58, 58); (94, 94); (96, 96); (168, 168); (173, 173);
   (175, 175); (180, 180); (183, 184); (688, 879); (884, 885); (890, 890);
   (900, 901); (903, 903); (1155, 1161); (1369, 1369); (1375, 1375); (1425,
   1469); (1471, 1471); (1473, 1474); (1476, 1477); (1479, 1479); (1524,
   1524); (1536, 1541); (1552, 1562); (1564, 1564); (1600, 1600); (1611,
   1631); (1648, 1648); (1750, 1757); (1759, 1768); (1770, 1773); (1807,
   1807); (1809, 1809); (1840, 1866); (1958, 1968); (2027, 2037); (2042,
   2042); (2045, 2045); (2070, 2093); (2137, 2139); (2184, 2184); (2192,
   2193); (2200, 2207); (2249, 2306); (2362, 2362); (2364, 2364); (2369,
   2376); (2381, 2381); (2385, 2391); (2402, 2403); (2417, 2417); (2433,
   2433); (2492, 2492); (2497, 2500); (2509, 2509); (2530, 2531); (2558,
   2558); (2561, 2562); (2620, 2620); (2625, 2626); (2631, 2632); (2635,
   2637); (2641, 2641); (2672, 2673); (2677, 2677); (2689, 2690); (2748,
   2748); (2753, 2757); (2759, 2760); (2765, 2765); (2786, 2787); (2810,
   2815); (2817, 2817); (2876, 2876); (2879, 2879); (2881, 2884); (2893,
   2893); (2901, 2902); (2914, 2915); (2946, 2946); (3008, 3008); (3021,
   3021); (3072, 3072); (3076, 3076); (3132, 3132); (3134, 3136); (3142,
   3144); (3146, 3149); (3157, 3158); (3170, 3171); (3201, 3201); (3260,
   3260); (3263, 3263); (3270, 3270); (3276, 3277); (3298, 3299); (3328,
   3329); (3387, 3388); (3393, 3396); (3405, 3405); (3426, 3427); (3457,
   3457); (3530, 3530); (3538, 3540); (3542, 3542); (3633, 3633); (3636,
   3642); (3654, 3662); (3761, 3761); (3764, 3772); (3782, 3782); (3784,
   3789); (3864, 3865); (3893, 3893); (3895, 3895); (3897, 3897); (3953,
   3966); (3968, 3972); (3974, 3975); (3981, 3991); (3993, 4028); (4038,
   4038); (4141, 4144); (4146, 4151); (4153, 4154); (4157, 4158); (4184,
   4185); (4190, 4192); (4209, 4212); (4226, 4226); (4229, 4230); (4237,
   4237); (4253, 4253); (4348, 4348); (4957, 4959); (5906, 5908); (5938,
   5939); (5970, 5971); (6002, 6003); (6068, 6069); (6071, 6077); (6086,
   6086); (6089, 6099); (6103, 6103); (6109, 6109); (6155, 6159); (6211,
   6211); (6277, 6278); (6313, 6313); (6432, 6434); (6439, 6440); (6450,
   6450); (6457, 6459); (6679, 6680); (6683, 6683); (6742, 6742); (6744,
   6750); (6752, 6752); (6754, 6754); (6757, 6764); (6771, 6780); (6783,
   6783); (6823, 6823); (6832, 6862); (6912, 6915); (6964, 6964); (6966,
   6970); (6972, 6972); (6978, 6978); (7019, 7027); (7040, 7041); (7074,
   7077); (7080, 7081); (7083, 7085); (7142, 7142); (7144, 7145); (7149,
   7149); (7151, 7153); (7212, 7219); (7222, 7223); (7288, 7293); (7376,
   7378); (7380, 7392); (7394, 7400); (7405, 7405); (7412, 7412); (7416,
   7417); (7468, 7530); (7544, 7544); (7579, 7679); (8125, 8125); (8127,
   8129); (8141, 8143); (8157, 8159); (8173, 8175); (8189, 8190); (8203,
   8207); (8216, 8217); (8228, 8228); (8231, 8231); (8234, 8238); (8288,
   8292); (8294, 8303); (8305, 8305); (8319, 8319); (8336, 8348); (8400,
   8432); (11388, 11389); (11503, 11505); (11631, 11631); (11647, 11647);
   (11744, 11775); (11823, 11823); (12293, 12293); (12330, 12333); (12337,
   12341); (12347, 12347); (12441, 12446); (12540, 12542); (40981, 40981);
   (42232, 42237); (42508, 42508); (42607, 42610); (42612, 42621); (42623,
   42623); (42652, 42655); (42736, 42737); (42752, 42785); (42864, 42864);
   (42888, 42890); (42994, 42996); (43000, 43001); (43010, 43010); (43014,
   43014); (43019, 43019); (43045, 43046); (43052, 43052); (43204, 43205);
   (43232, 43249); (43263, 43263); (43302, 43309); (43335, 43345); (43392,
   43394); (43443, 43443); (43446, 43449); (43452, 43453); (43471, 43471);
   (43493, 43494); (43561, 43566); (43569, 43570); (43573, 43574); (43587,
   43587); (43596, 43596); (43632, 43632); (43644, 43644); (43696, 43696);
   (43698, 43700); (43703, 43704); (43710, 43711); (43713, 43713); (43741,
   43741); (43756, 43757); (43763, 43764); (43766, 43766); (43867, 43871);
   (43881, 43883); (44005, 44005); (44008, 44008); (44013, 44013); (64286,
   64286); (64434, 64450); (65024, 65039); (65043, 65043); (65056, 65071);
   (65106, 65106); (65109, 65109); (65279, 65279); (65287, 65287); (65294,
   65294); (65306, 65306); (65342, 65342); (65344, 65344); (65392, 65392);
   (65438, 65439); (65507, 65507); (65529, 65531); (66045, 66045); (66272,
   66272); (66422, 66426); (67456, 67461); (67463, 67504); (67506, 67514);
   (68097, 68099); (68101, 68102); (68108, 68111); (68152, 68154); (68159,
   68159); (68325, 68326); (68900, 68903); (69291, 69292); (69446, 69456);
   (69506, 69509); (69633, 69633); (69688, 69702); (69744, 69744); (69747,
   69748); (69759, 69761); (69811, 69814); (69817, 69818); (69821, 69821);
   (69826, 69826); (69837, 69837); (69888, 69890); (69927, 69931); (69933,
   69940); (70003, 70003); (70016, 70017); (70070, 70078); (70089, 70092);
   (70095, 70095); (70191, 70193); (70196, 70196); (70198, 70199); (70206,
   70206); (70367, 70367); (70371, 70378); (70400, 70401); (70459, 70460);
   (70464, 70464); (70502, 70508); (70512, 70516); (70712, 70719); (70722,
   70724); (70726, 70726); (70750, 70750); (70835, 70840); (70842, 70842);
   (70847, 70848); (70850, 70851); (71090, 71093); (71100, 71101); (71103,
   71104); (71132, 71133); (71219, 71226); (71229, 71229); (71231, 71232);
   (71339, 71339); (71341, 71341); (71344, 71349); (71351, 71351); (71453,
   71455); (71458, 71461); (71463, 71467); (71727, 71735); (71737, 71738);
   (71995, 71996); (71998, 71998); (72003, 72003); (72148, 72151); (72154,
   72155); (72160, 72160); (72193, 72202); (72243, 72248); (72251, 72254);
   (72263, 72263); (72273, 72278); (72281, 72283); (72330, 72342); (72344,
   72345); (72752, 72758); (72760, 72765); (72767, 72767); (72850, 72871);
   (72874, 72880); (72882, 72883); (72885, 72886); (73009, 73014); (73018,
   73018); (73020, 73021); (73023, 73029); (73031, 73031); (73104, 73105);
   (73109, 73109); (73111, 73111); (73459, 73460); (78896, 78904); (92912,
   92916); (92976, 92982); (92992, 92995); (94031, 94031); (94095, 94111);
   (94176, 94177); (94179, 94180); (110576, 110579); (110581, 110587);
   (110589, 110590); (113821, 113822); (113824, 113827); (118528, 118573);
   (118576, 118598); (119143, 119145); (119155, 119170); (119173, 119179);
   (119210, 119213); (119362, 119364); (121344, 121398); (121403, 121452);
   (121461, 121461); (121476, 121476); (121499, 121503); (121505, 121519);
   (122880, 122886); (122888, 122904); (122907, 122913); (122915, 122916);
   (122918, 122922); (123184, 123197); (123566, 123566); (123628, 123631);
   (125136, 125142); (125252, 125259); (127995, 127999); (917505, 917505);
   (917536, 917631); (917760, 917999)]%N.

(** The ranges of the cased code points that are not skipped. *)
Definition tabla_con_caja : list (N * N) :=
  [(65, 90); (97, 122); (170, 170); (181, 181); (186, 186); (192, 214);
   (216, 246); (248, 442); (444, 447); (452, 659); (661, 687); (880, 883);
   (886, 887); (891, 893); (895, 895); (902, 902); (904, 906); (908, 908);
   (910, 929); (931, 1013); (1015, 1153); (1162, 1327); (1329, 1366); (1376,
   1416); (4256, 4293); (4295, 4295); (4301, 4301); (4304, 4346); (4349,
   4351); (5024, 5109); (5112, 5117); (7296, 7304); (7312, 7354); (7357,
   7359); (7424, 7467); (7531, 7543); (7545, 7578); (7680, 7957); (7960,
   7965); (7968, 8005); (8008, 8013); (8016, 8023); (8025, 8025); (8027,
   8027); (8029, 8029); (8031, 8061); (8064, 8116); (8118, 8124); (8126,
   8126); (8130, 8132); (8134, 8140); (8144, 8147); (8150, 8155); (8160,
   8172); (8178, 8180); (8182, 8188); (8450, 8450); (8455, 8455); (8458,
   8467); (8469, 8469); (8473, 8477); (8484, 8484); (8486, 8486); (8488,
   8488); (8490, 8493); (8495, 8500); (8505, 8505); (8508, 8511); (8517,
   8521); (8526, 8526); (8544, 8575); (8579, 8580); (9398, 9449); (11264,
   11387); (11390, 11492); (11499, 11502); (11506, 11507); (11520, 11557);
   (11559, 11559); (11565, 11565); (42560, 42605); (42624, 42651); (42786,
   42863); (42865, 42887); (42891, 42894); (42896, 42954); (42960, 42961);
   (42963, 42963); (42965, 42969); (42997, 42998); (43002, 43002); (43824,
   43866); (43872, 43880); (43888, 43967); (64256, 64262); (64275, 64279);
   (65313, 65338); (65345, 65370); (66560, 66639); (66736, 66771); (66776,
   66811); (66928, 66938); (66940, 66954); (66956, 66962); (66964, 66965);
   (66967, 66977); (66979, 66993); (66995, 67001); (67003, 67004); (68736,
   68786); (68800, 68850); (71840, 71903); (93760, 93823); (119808, 119892);
   (119894, 119964); (119966, 119967); (119970, 119970); (119973, 119974);
   (119977, 119980); (119982, 119993); (119995, 119995); (119997, 120003);
   (120005, 120069); (120071, 120074); (120077, 120084); (120086, 120092);
   (120094, 120121); (120123, 120126); (120128, 120132); (120134, 120134);
   (120138, 120144); (120146, 120485); (120488, 120512); (120514, 120538);
   (120540, 120570); (120572, 120596); (120598, 120628); (120630, 120654);
   (120656, 120686); (120688, 120712); (120714, 120744); (120746, 120770);
   (120772, 120779); (122624, 122633); (122635, 122654); (125184, 125251);
   (127280, 127305); (127312, 127337); (127344, 127369)]%N.

Definition en_rangos (t : list (N * N)) (n : N) : bool :=
  existsb (λ r, (r.1 <=? n)%N && (n <=? r.2)%N) t.

Fixpoint en_tabla (t : list (N * N * N * N)) (n : N) : option N :=
  match t with
  | [] => None
  | (lo, hi, paso, d) :: t' =>
      if (lo <=? n)%N && (n <=? hi)%N && ((n - lo) mod paso =? 0)%N
      then Some (d + (n - lo))%N
      else en_tabla t' n
  end.

Fixpoint en_tabla_larga (t : list (N * list N)) (n : N) : option (list N) :=
  match t with
  | [] => None
  | (c, l) :: t' => if (c =? n)%N then Some l else en_tabla_larga t' n
  end.

(** [c.isspace()] for one character. *)
Definition isspace (c : string) : bool :=
  match ord c with
  | Some n => existsb (N.eqb n) tabla_espacios
  | None => false
  end.

(** [c.isdigit()] for one character. *)
Definition isdigit (c : string) : bool :=
  match ord c with
  | Some n => en_rangos tabla_digitos n
  | None => false
  end.

(** The value of a decimal digit of any script; [None] for every other
    character, the digits that are not decimal included. *)
Definition decimal (c : string) : option Z :=
  match ord c with
  | Some n =>
      match filter (λ r, (r.1 <=? n)%N && (n <=? r.2)%N) tabla_decimales with
      | r :: _ => Some (Z.of_N ((n - r.1) mod 10))
      | [] => None
      end
  | None => None
  end.

Fixpoint lstrip_con (p : string → bool) (l : list string) : list string :=
  match l with
  | [] => []
  | c :: l' => if p c then lstrip_con p l' else l
  end.

Fixpoint rstrip_con (p : string → bool) (l : list string) : list string :=
  match l with
  | [] => []
  | c :: l' =>
      match rstrip_con p l' with
      | [] => if p c then [] else [c]
      | t => c :: t
      end
  end.

(** [s.strip()] *)
Definition strip (s : string) : string :=
  join (rstrip_con isspace (lstrip_con isspace (chars s))).

Definition ignorable (c : string) : bool :=
  match ord c with
  | Some n => en_rangos tabla_ignorables n
  | None => false
  end.

Definition con_caja (c : string) : bool :=
  match ord c with
  | Some n => en_rangos tabla_con_caja n
  | None => false
  end.

(** Whether the capital sigma at position [i] ends a word: a cased letter
    comes before it and none comes after it, the characters that case
    conversion ignores being skipped on either side. *)
Definition sigma_final (cs : list string) (i : nat) : bool :=
  match lstrip_con ignorable (reverse (take i cs)) with
  | c :: _ => con_caja c
  | [] => false
  end
  && match lstrip_con ignorable (drop (S i) cs) with
     | c :: _ => negb (con_caja c)
     | [] => true
     end.

(** The lower case of the character at position [i] of [cs]. *)
Definition minuscula (cs : list string) (i : nat) (c : string) : string :=
  match ord c with
  | None => c
  | Some n =>
      if (n =? 931)%N
      then (if sigma_final cs i then chr 962 else chr 963)
      else match en_tabla_larga tabla_lower_larga n with
           | Some l => join (chr <$> l)
           | None =>
               match en_tabla tabla_lower n with
               | Some m => chr m
               | None => c
               end
           end
  end.

(** [s.lower()] *)
Definition lower (s : string) : string :=
  let cs := chars s in join (imap (minuscula cs) cs).

(** The title case of a character. *)
Definition titulo (c : string) : string :=
  match ord c with
  | None => c
  | Some n =>
      match en_tabla_larga tabla_title_larga n with
      | Some l => join (chr <$> l)
      | None =>
          match en_tabla tabla_title n with
          | Some m => chr m
          | None => c
          end
      end
  end.

(** [s.capitalize()]: the first character in title case, the rest in lower
    case. *)
Definition capitalize (s : string) : string :=
  let cs := chars s in
  join (imap (λ i c, match i with O => titulo c | _ => minuscula cs i c end)
             cs).

(** [s.replace(old, new)] for a non-empty [old]: left to right, matches do
    not overlap.  [skip] counts the bytes of a match still to be dropped.
    In UTF-8 a character starts at no byte inside another one, so the
    matches on the bytes are the matches on the characters. *)
Fixpoint replace_from (old new : string) (skip : nat) (s : string) : string :=
  match s with
  | EmptyString => EmptyString
  | String c s' =>
      match skip with
      | S k => replace_from old new k s'
      | O =>
          if String.prefix old s
          then new +:+ replace_from old new (String.length old - 1) s'
          else String c (replace_from old new O s')
      end
  end.

Definition replace (old new s : string) : string :=
  match old with
  | EmptyString => s
  | _ => replace_from old new O s
  end.

(** ["".join(ch for ch in v if ch.isdigit())] *)
Definition digits_of (s : string) : string :=
  join (filter (λ c, isdigit c = true) (chars s)).

(** The blanks that [int] allows around a number: those of [isspace] but
    for the four ASCII separators 0x1C..0x1F. *)
Definition espacio_int (c : string) : bool :=
  isspace c
  && match ord c with
     | Some n => negb ((28 <=? n)%N && (n <=? 31)%N)
     | None => false
     end.

(** The digits of a number with single underscores between them: the value
    after [acc] and the count of the digits after [k]. *)
Fixpoint int_from (acc : Z) (k : nat) (cs : list string) : option (Z * nat) :=
  match cs with
  | [] => Some (acc, k)
  | c :: cs' =>
      match decimal c with
      | Some d => int_from (10 * acc + d) (S k) cs'
      | None =>
          if bool_decide (c = "_")
          then match cs' with
               | c' :: _ =>
                   match decimal c' with
                   | Some _ => int_from acc k cs'
                   | None => None
                   end
               | [] => None
               end
          else None
      end
  end.

(** The most digits that [int] converts (the default of
    [sys.set_int_max_str_digits]). *)
Definition max_str_digits : nat := 4300.

(** [int(s)]: blanks at the ends are dropped, a sign may come first, then
    decimal digits of any script with single underscores between them.
    [None] stands for the [ValueError] that Python raises on any other
    text and on more than [max_str_digits] digits. *)
Definition int (s : string) : option Z :=
  let cs := rstrip_con espacio_int (lstrip_con espacio_int (chars s)) in
  let '(signo, ds) :=
    match cs with
    | c :: r =>
        if bool_decide (c = "+") then (1, r)
        else if bool_decide (c = "-") then (-1, r)
        else (1, cs)
    | [] => (1, cs)
    end in
  match ds with
  | c :: _ =>
      match decimal c, int_from 0 0 ds with
      | Some _, Some (n, k) =>
          if (max_str_digits <? k)%nat then None else Some (signo * n)
      | _, _ => None
      end
  | [] => None
  end.

End Py.

(** ** Dates: [datetime.strptime(fecha, "%Y-%m-%d").strftime("%B")] *)

Module Fecha.

(** Whether a character is an ASCII one between two code points. *)
Definition entre (lo hi : N) (c : string) : bool :=
  match Py.ord c with
  | Some n => (lo <=? n)%N && (n <=? hi)%N
  | None => false
  end.

(** The value of an ASCII digit. *)
Definition valor (c : string) : Z :=
  match Py.ord c with
  | Some n => Z.of_N n - 48
  | None => 0
  end.

(** [%Y] is the regular expression [\d\d\d\d], and [\d] takes a decimal
    digit of any script; [int] reads them. *)
Definition parse_Y (cs : list string) : option (Z * list string) :=
  match cs with
  | a :: b :: c :: d :: r =>
      match Py.decimal a, Py.decimal b, Py.decimal c, Py.decimal d with
      | Some a, Some b, Some c, Some d =>
          Some (1000 * a + 100 * b + 10 * c + d, r)
      | _, _, _, _ => None
      end
  | _ => None
  end.

(** [%m] is [1[0-2]|0[1-9]|[1-9]], alternatives tried in this order. *)
Definition parse_m (cs : list string) : option (Z * list string) :=
  match cs with
  | a :: r =>
      match r with
      | b :: r' =>
          if entre 49 49 a && entre 48 50 b
          then Some (10 + valor b, r')
          else if entre 48 48 a && entre 49 57 b
          then Some (valor b, r')
          else if entre 49 57 a then Some (valor a, r) else None
      | [] => if entre 49 57 a then Some (valor a, r) else None
      end
  | [] => None
  end.

(** [%d] is [3[01]|[12]\d|0[1-9]|[1-9]| [1-9]], alternatives tried in this
    order. *)
Definition parse_d (cs : list string) : option (Z * list string) :=
  match cs with
  | a :: r =>
      match r with
      | b :: r' =>
          if entre 51 51 a && entre 48 49 b
          then Some (30 + valor b, r')
          else match (if entre 49 50 a then Py.decimal b else None) with
               | Some vb => Some (10 * valor a + vb, r')
               | None =>
                   if entre 48 48 a && entre 49 57 b
                   then Some (valor b, r')
                   else if entre 49 57 a
                   then Some (valor a, r)
                   else if entre 32 32 a && entre 49 57 b
                   then Some (valor b, r')
                   else None
               end
      | [] => if entre 49 57 a then Some (valor a, r) else None
      end
  | [] => None
  end.

Definition guion (cs : list string) : option (list string) :=
  match cs with
  | c :: r => if entre 45 45 c then Some r else None
  | [] => None
  end.

Definition bisiesto (y : Z) : bool :=
  ((y mod 4 =? 0) && negb (y mod 100 =? 0)) || (y mod 400 =? 0).

Definition dias_del_mes (y m : Z) : Z :=
  if m =? 2 then (if bisiesto y then 29 else 28)
  else if (m =? 4) || (m =? 6) || (m =? 9) || (m =? 11) then 30 else 31.

(** [datetime.strptime(s, "%Y-%m-%d")]; [None] is the [ValueError] raised
    when the text does not match the format, when text is left over, or when
    the fields are not a date ([datetime] wants a year from 1 on and a day
    that the month has). *)
Definition strptime (s : string) : option (Z * Z * Z) :=
  match parse_Y (Py.chars s) with
  | Some (y, s1) =>
    match guion s1 with
    | Some s2 =>
      match parse_m s2 with
      | Some (m, s3) =>
        match guion s3 with
        | Some s4 =>
          match parse_d s4 with
          | Some (d, []) =>
              if (1 <=? y) && (d <=? dias_del_mes y m) then Some (y, m, d)
              else None
          | _ => None
          end
        | None => None
        end
      | None => None
      end
    | None => None
    end
  | None => None
  end.

Definition meses : list string :=
  ["January"; "February"; "March"; "April"; "May"; "June"; "July";
   "August"; "September"; "October"; "November"; "December"].

(** [strftime("%B")] in the C locale. *)
Definition strftime_B (f : Z * Z * Z) : string :=
  nth (Z.to_nat (snd (fst f)) - 1) meses "".

End Fecha.

(** ** Cell values and the part of pandas that the code uses *)

Inductive value : Type :=
| VStr (s : string)
| VInt (n : Z)
| VNaN.

#[global] Instance value_eq_dec : EqDecision value.
Proof. solve_decision. Defined.

Module Pd.

Record DataFrame := mkDF {
  columns : gset string;
  filas : list (nat * gmap string value)
}.

(** A column read with [df.get]: the [Series] of the column, labelled like
    the frame, or the default when the frame has no such column. *)
Inductive columna : Type :=
| Series (s : list (nat * value))
| Scalar (v : value).

(** The cell of a row under a column of the frame; a key that the row's
    [dict] did not have is [NaN]. *)
Definition cell (r : gmap string value) (f : string) : value :=
  default VNaN (r !! f).

(** [pd.DataFrame(resultados)] for a list of [dict]s: the columns are the
    union of the keys, the rows are labelled 0, 1, 2, ... *)
Definition of_records (resultados : list (gmap string value)) : DataFrame :=
  {| columns := ⋃ (dom <$> resultados);
     filas := imap (λ i r, (i, r)) resultados |}.

Definition len (df : DataFrame) : nat := length (filas df).

(** [df.empty]: no rows or no columns. *)
Definition empty (df : DataFrame) : bool :=
  bool_decide (columns df = ∅) || bool_decide (filas df = []).

(** One element of [serie.isin(ids)] for a set of strings. *)
Definition isin (ids : gset string) (v : value) : bool :=
  match v with
  | VStr s => bool_decide (s ∈ ids)
  | _ => false
  end.

(** [df[~df[f].isin(ids)]]: the rows keep their labels. *)
Definition drop_isin (df : DataFrame) (f : string) (ids : gset string)
  : DataFrame :=
  {| columns := columns df;
     filas := filter (λ lr, isin ids (cell lr.2 f) = false) (filas df) |}.

(** [df.get(f, default)] *)
Definition get (df : DataFrame) (f : string) (dflt : value) : columna :=
  if bool_decide (f ∈ columns df)
  then Series ((λ lr, (lr.1, cell lr.2 f)) <$> filas df)
  else Scalar dflt.

Fixpoint at_label (l : nat) (s : list (nat * value)) : option value :=
  match s with
  | [] => None
  | (l', v) :: s' => if bool_decide (l' = l) then Some v else at_label l s'
  end.

(** [df[c] = col].  A scalar fills the column.  A [Series] is aligned on
    the labels of the frame: a row whose label the series lacks gets [NaN].
    A frame that has no rows yet takes its index from the series. *)
Definition setitem (df : DataFrame) (c : string) (col : columna) : DataFrame :=
  match col with
  | Scalar v =>
      {| columns := columns df ∪ {[c]};
         filas := (λ lr, (lr.1, <[c := v]> lr.2)) <$> filas df |}
  | Series s =>
      match filas df with
      | [] =>
          {| columns := columns df ∪ {[c]};
             filas := (λ lv, (lv.1, {[c := lv.2]})) <$> s |}
      | _ =>
          {| columns := columns df ∪ {[c]};
             filas := (λ lr, (lr.1, <[c := default VNaN (at_label lr.1 s)]> lr.2))
                        <$> filas df |}
      end
  end.

(** [range(a, a + n)] as a list of cells. *)
Definition rango (a : Z) (n : nat) : list value :=
  (λ j : nat, VInt (a + Z.of_nat j)) <$> seq 0 n.

(** [df[c] = valores] for a list-like without labels: positional.  A frame
    with no rows takes the index 0, 1, 2, ...; otherwise the lengths must
    agree ([None] is the [ValueError] of pandas). *)
Definition setitem_list (df : DataFrame) (c : string) (vs : list value)
  : option DataFrame :=
  match filas df with
  | [] =>
      Some {| columns := columns df ∪ {[c]};
              filas := imap (λ i v, (i, {[c := v]})) vs |}
  | _ =>
      if bool_decide (length vs = length (filas df))
      then Some {| columns := columns df ∪ {[c]};
                   filas := zip_with (λ lr v, (lr.1, <[c := v]> lr.2))
                              (filas df) vs |}
      else None
  end.

(** [df[cols].values.tolist()] *)
Definition tolist (df : DataFrame) (cols : list string) : list (list value) :=
  (λ lr, cell lr.2 <$> cols) <$> filas df.

End Pd.

(** ** The spreadsheet service

    A workbook maps worksheet titles to grids of text cells.  The functions
    of [gspread] that the code calls read or write the grid and leave an
    event in the trace.  A cell that is written is read back as the text that
    was written. *)

Inductive excepcion : Type :=
| ValueError (msg : string)
| WorksheetNotFound
| InvalidJSONError.

Inductive color : Type := Verde | Rojo.

Inductive evento : Type :=
| EvConectar
| EvWorksheet (t : string)
| EvAddWorksheet (t : string)
| EvRowValues (t : string) (n : nat)
| EvColValues (t : string) (c : nat)
| EvUpdate (t : string) (fila : list string)
| EvAppendRows (t : string) (nuevas : list (list string))
| EvGetAllValues (t : string)
| EvAcell (t : string) (r : Z) (c : nat)
| EvFormat (t : string) (r : Z) (c : nat) (k : color).

Record estado := mkEstado {
  libro : gmap string (list (list string));
  traza : list evento
}.

Inductive res (A : Type) : Type :=
| Ok (a : A)
| Raise (e : excepcion).
Arguments Ok {A} a.
Arguments Raise {A} e.

(** Computations over the workbook that may raise. *)
Definition M (A : Type) : Type := estado → res A * estado.

Definition ret {A} (a : A) : M A := λ st, (Ok a, st).

Definition raise {A} (e : excepcion) : M A := λ st, (Raise e, st).

Definition bind {A B} (m : M A) (k : A → M B) : M B :=
  λ st, match m st with
        | (Ok a, st') => k a st'
        | (Raise e, st') => (Raise e, st')
        end.

(** [try: m  except: h] *)
Definition catch {A} (m : M A) (h : excepcion → M A) : M A :=
  λ st, match m st with
        | (Ok a, st') => (Ok a, st')
        | (Raise e, st') => h e st'
        end.

Notation "'do' x <- m ; k" := (bind m (λ x, k))
  (at level 10, x name, m at level 100, k at level 200).
Notation "'do_' m ; k" := (bind m (λ _, k))
  (at level 10, m at level 100, k at level 200).

Fixpoint para_cada {A} (f : A → M unit) (l : list A) : M unit :=
  match l with
  | [] => ret tt
  | x :: l' => do_ f x; para_cada f l'
  end.

(** The state after one more call to the service. *)
Definition con_evento (st : estado) (e : evento) : estado :=
  {| libro := libro st; traza := traza st ++ [e] |}.

(** Row 1 of a grid overwritten from its first cell on. *)
Definition con_encabezado (fila : list string) (g : list (list string))
  : list (list string) :=
  match g with
  | [] => [fila]
  | f1 :: g' => (fila ++ drop (length fila) f1) :: g'
  end.

Module Gs.

Definition registrar (e : evento) : M unit :=
  λ st, (Ok tt, con_evento st e).

Definition leer_hoja (t : string) : M (list (list string)) :=
  λ st, match libro st !! t with
        | Some g => (Ok g, st)
        | None => (Raise WorksheetNotFound, st)
        end.

Definition poner_hoja (t : string) (g : list (list string)) : M unit :=
  λ st, (Ok tt, {| libro := <[t := g]> (libro st); traza := traza st |}).

(** The service leaves out the empty cells at the end of a row or column. *)
Fixpoint sin_vacias_finales (l : list string) : list string :=
  match l with
  | [] => []
  | x :: l' =>
      match sin_vacias_finales l' with
      | [] => if bool_decide (x = "") then [] else [x]
      | t => x :: t
      end
  end.

Fixpoint sin_filas_vacias_finales (g : list (list string)) : list (list string) :=
  match g with
  | [] => []
  | f :: g' =>
      match sin_filas_vacias_finales g' with
      | [] => match sin_vacias_finales f with [] => [] | _ => [f] end
      | t => f :: t
      end
  end.

Definition conectar_google_sheets : M unit := registrar EvConectar.

(** [sheet.worksheet(t)] *)
Definition worksheet (t : string) : M unit :=
  do_ registrar (EvWorksheet t);
  do_ leer_hoja t;
  ret tt.

(** [sheet.add_worksheet(title=t, ...)]: a blank grid. *)
Definition add_worksheet (t : string) : M unit :=
  do_ registrar (EvAddWorksheet t);
  poner_hoja t [].

(** [hoja.row_values(n)], rows counted from 1. *)
Definition row_values (t : string) (n : nat) : M (list string) :=
  do_ registrar (EvRowValues t n);
  do g <- leer_hoja t;
  ret (sin_vacias_finales (nth (n - 1) g [])).

(** [hoja.col_values(c)], columns counted from 1. *)
Definition col_values (t : string) (c : nat) : M (list string) :=
  do_ registrar (EvColValues t c);
  do g <- leer_hoja t;
  ret (sin_vacias_finales ((λ fila, nth (c - 1) fila "") <$> g)).

(** [hoja.update('A1', [fila])]: overwrites the first cells of row 1. *)
Definition update_A1 (t : string) (fila : list string) : M unit :=
  do_ registrar (EvUpdate t fila);
  do g <- leer_hoja t;
  poner_hoja t (con_encabezado fila g).

Definition es_nan (v : value) : bool :=
  match v with VNaN => true | _ => false end.

(** What [json.dumps(..., allow_nan=False)] refuses: a [NaN], and an
    integer with more digits than the interpreter writes. *)
Definition no_json (v : value) : bool :=
  match v with
  | VNaN => true
  | VInt n => (Py.max_str_digits <? String.length (pretty (Z.abs n)))%nat
  | VStr _ => false
  end.

(** The text of a cell that was sent to the service. *)
Definition texto (v : value) : string :=
  match v with
  | VStr s => s
  | VInt n => pretty n
  | VNaN => ""
  end.

Definition texto_fila (fila : list value) : list string := texto <$> fila.

(** [hoja.append_rows(filas, value_input_option="USER_ENTERED")]: the rows
    go below the stored ones.  The request body is JSON: a payload with a
    cell that JSON cannot hold raises before anything is sent. *)
Definition append_rows (t : string) (nuevas : list (list value)) : M unit :=
  if existsb (existsb no_json) nuevas then raise InvalidJSONError
  else
    do_ registrar (EvAppendRows t (texto_fila <$> nuevas));
    do g <- leer_hoja t;
    poner_hoja t (g ++ (texto_fila <$> nuevas)).

(** [hoja.get_all_values()] *)
Definition get_all_values (t : string) : M (list (list string)) :=
  do_ registrar (EvGetAllValues t);
  do g <- leer_hoja t;
  ret (sin_filas_vacias_finales g).

(** [hoja.acell(rowcol_to_a1(r, c)).value or ""] *)
Definition acell (t : string) (r : Z) (c : nat) : M string :=
  do_ registrar (EvAcell t r c);
  do g <- leer_hoja t;
  ret (nth (c - 1) (nth (Z.to_nat r - 1) g []) "").

(** [hoja.format(celda, estilo)]: colours a cell, its text stays. *)
Definition format (t : string) (r : Z) (c : nat) (k : color) : M unit :=
  registrar (EvFormat t r c k).

End Gs.

(** ** The helpers of the worksheet

    [sheets.py] and [scraping.py] hold the same helpers; they differ in the
    normaliser only, which is a parameter here. *)

Section Helpers.

Variable norm : string → string.

(** [for i, h in enumerate(H): if h == c: return i] *)
Fixpoint posicion (c : string) (H : list string) (i : nat) : option nat :=
  match H with
  | [] => None
  | h :: H' => if bool_decide (h = c) then Some i else posicion c H' (S i)
  end.

(** [for cand in candidatos: ...]: the first candidate that some header
    matches decides. *)
Fixpoint buscar (H : list string) (candidatos : list string) : option nat :=
  match candidatos with
  | [] => None
  | cand :: resto =>
      match posicion (norm cand) H 0 with
      | Some i => Some i
      | None => buscar H resto
      end
  end.

(** [_find_header_idx] of [sheets.py], [_encabezado_idx] of [scraping.py] *)
Definition _find_header_idx (headers candidatos : list string) : option nat :=
  buscar (norm <$> headers) candidatos.

(** [faltantes = [h for h in esperados if h not in headers]] *)
Definition faltantes_de (headers esperados : list string) : list string :=
  filter (λ h, h ∉ headers) esperados.

Definition _asegurar_encabezados (hoja : string) (esperados : list string)
  : M (list string) :=
  do headers <- Gs.row_values hoja 1;
  match headers with
  | [] =>
      do_ Gs.update_A1 hoja esperados;
      ret esperados
  | _ =>
      match faltantes_de headers esperados with
      | [] => ret headers
      | faltantes =>
          let nuevos := headers ++ faltantes in
          do_ Gs.update_A1 hoja nuevos;
          ret nuevos
      end
  end.

(** The body of the loop of [_ultimo_numero]: [nums] after the cell [v]. *)
Definition anotar_numero (nums : list Z) (v : string) : list Z :=
  let v := Py.strip v in
  let digits := Py.digits_of v in
  if bool_decide (digits = "") then nums
  else match Py.int digits with
       | Some n => if 0 <? n then nums ++ [n] else nums
       | None => nums
       end.

(** [max(nums) if nums else 0] *)
Definition max_o_cero (nums : list Z) : Z :=
  match nums with
  | [] => 0
  | n :: ns => foldl Z.max n ns
  end.

Definition alias_numero : list string :=
  ["Número"; "Numero"; "N°"; "Nro"; "#"; "Num"; "No."].

Definition alias_id : list string := ["ID"; "Id"; "id"].

Definition _ultimo_numero (hoja : string) (headers : list string) : M Z :=
  match _find_header_idx headers alias_numero with
  | None => ret 0
  | Some idx =>
      do vals <- Gs.col_values hoja (idx + 1);
      ret (max_o_cero (foldl anotar_numero [] (drop 1 vals)))
  end.

(** [set(v.strip() for v in vals if v.strip())] *)
Definition ids_de (vals : list string) : gset string :=
  list_to_set (Py.strip <$> filter (λ v, Py.strip v ≠ "") vals).

Definition _ids_existentes (hoja : string) (headers : list string)
  : M (gset string) :=
  match _find_header_idx headers alias_id with
  | None => ret ∅
  | Some idx =>
      do vals <- Gs.col_values hoja (idx + 1);
      ret (ids_de (drop 1 vals))
  end.

End Helpers.

(** ** [guardar_en_hoja] *)

Definition columnas_ordenadas : list string :=
  ["Número"; "FyH Extracción"; "FyH Publicación"; "ID"; "Título";
   "Descripción"; "Tipo"; "Monto"; "Tipo Monto";
   "LINK FICHA"; "FyH TERRENO"; "OBLIG?"; "FyH CIERRE"].

(** The twelve assignments [df_out[col] = df.get(campo, "")], in the order
    of the source: the column of the sheet and the field of the producer. *)
Definition traduccion : list (string * string) :=
  [("FyH Extracción", "fecha_extraccion");
   ("FyH Publicación", "fecha_publicacion");
   ("ID", "id");
   ("Título", "titulo");
   ("Descripción", "descripcion");
   ("Tipo", "tipo");
   ("Monto", "monto");
   ("Tipo Monto", "tipo_monto");
   ("LINK FICHA", "link_ficha");
   ("FyH TERRENO", "fecha_visita");
   ("OBLIG?", "visita_obligatoria");
   ("FyH CIERRE", "fecha_cierre")].

(** [for col in columnas_ordenadas: if col not in df.columns: df[col] = ""] *)
Definition completar_columnas (df : Pd.DataFrame) : Pd.DataFrame :=
  foldl (λ d col, if bool_decide (col ∈ Pd.columns d) then d
                  else Pd.setitem d col (Pd.Scalar (VStr "")))
        df columnas_ordenadas.

(** What a call reports.  The Python function returns [None] on every path
    that does not raise and tells the paths apart by the line it prints. *)
Inductive salida : Type :=
| SinResultados                       (* "No hay resultados para guardar." *)
| SinNuevas                           (* "No hay nuevas licitaciones ..." *)
| Guardadas (n : nat) (mes : string). (* "n nuevas licitaciones guardadas" *)

(** Line 106 of [sheets.py] (103 of [scraping.py]): the title of the
    worksheet of the month.  [None] is the [ValueError] of [strptime], which
    the function lets through. *)
Definition mes_de_fecha (fecha_objetivo : string) : option string :=
  (λ f, Py.capitalize (Fecha.strftime_B f)) <$> Fecha.strptime fecha_objetivo.

(** [try: hoja = sheet.worksheet(mes)
     except WorksheetNotFound: hoja = sheet.add_worksheet(...); hoja.update(...)] *)
Definition abrir_o_crear (mes : string) : M unit :=
  catch (Gs.worksheet mes)
    (λ e, match e with
          | WorksheetNotFound =>
              do_ Gs.add_worksheet mes;
              Gs.update_A1 mes columnas_ordenadas
          | _ => raise e
          end).

(** [if "id" in df.columns: df = df[~df["id"].isin(ids)]] *)
Definition filtrar_duplicados (df : Pd.DataFrame) (ids : gset string)
  : Pd.DataFrame :=
  if bool_decide ("id" ∈ Pd.columns df) then Pd.drop_isin df "id" ids else df.

Definition no_coincide : string := "time data does not match format".
Definition largo_distinto : string :=
  "Length of values does not match length of index".
Definition no_esta : string := "is not in list".

Section Guardar.

Variable norm : string → string.
(** The mapping onto the final columns, the part where the files differ. *)
Variable mapear : Pd.DataFrame → Z → option Pd.DataFrame.
(** The colouring after the append, which only [scraping.py] has. *)
Variable formatear : string → nat → M unit.

Definition guardar_en_hoja_con
    (resultados : list (gmap string value)) (fecha_objetivo : string)
  : M salida :=
  if bool_decide (resultados = []) then ret SinResultados
  else
    match mes_de_fecha fecha_objetivo with
    | None => raise (ValueError no_coincide)
    | Some mes =>
        do_ Gs.conectar_google_sheets;
        let df := Pd.of_records resultados in
        do_ abrir_o_crear mes;
        do headers <- _asegurar_encabezados mes columnas_ordenadas;
        do ultimo <- _ultimo_numero norm mes headers;
        do ids_guardados <- _ids_existentes norm mes headers;
        let df := filtrar_duplicados df ids_guardados in
        if Pd.empty df then ret SinNuevas
        else
          match mapear df ultimo with
          | None => raise (ValueError largo_distinto)
          | Some df_out =>
              do_ Gs.append_rows mes (Pd.tolist df_out columnas_ordenadas);
              do_ formatear mes (Pd.len df_out);
              ret (Guardadas (Pd.len df_out) mes)
          end
    end.

(** Lines 107-129 on their own: what a run reads before it filters. *)
Definition leer_estado (mes : string) : M (list string * Z * gset string) :=
  do_ Gs.conectar_google_sheets;
  do_ abrir_o_crear mes;
  do headers <- _asegurar_encabezados mes columnas_ordenadas;
  do ultimo <- _ultimo_numero norm mes headers;
  do ids_guardados <- _ids_existentes norm mes headers;
  ret (headers, ultimo, ids_guardados).

End Guardar.

Module Sheets.

Definition _norm (s : string) : string :=
  Py.replace "°" ""
    (Py.replace "ñ" "n"
      (Py.replace "ú" "u"
        (Py.replace "ó" "o"
          (Py.replace "í" "i"
            (Py.replace "é" "e"
              (Py.replace "á" "a" (Py.lower (Py.strip s)))))))).

(** Lines 140-159: the output frame starts empty, takes its index
    0, 1, 2, ... from the [range] of new numbers, and each later column is a
    [Series] of [df], aligned on that index, or the scalar [""]. *)
Definition mapear (df : Pd.DataFrame) (ultimo : Z) : option Pd.DataFrame :=
  match Pd.setitem_list (Pd.mkDF ∅ []) "Número"
          (Pd.rango (ultimo + 1) (Pd.len df)) with
  | None => None
  | Some df_out =>
      Some (completar_columnas
              (foldl (λ out cc, Pd.setitem out cc.1 (Pd.get df cc.2 (VStr "")))
                     df_out traduccion))
  end.

Definition guardar_en_hoja
    (resultados : list (gmap string value)) (fecha_objetivo : string)
  : M salida :=
  guardar_en_hoja_con _norm mapear (λ _ _, ret tt) resultados fecha_objetivo.

End Sheets.

Module Scraping.

Definition _normaliza (s : string) : string :=
  Py.replace "ñ" "n"
    (Py.replace "ú" "u"
      (Py.replace "ó" "o"
        (Py.replace "í" "i"
          (Py.replace "é" "e"
            (Py.replace "á" "a" (Py.lower (Py.strip s))))))).

(** [_encabezado_idx] and the three helpers that use it are
    [_find_header_idx], [_asegurar_encabezados], [_ultimo_numero] and
    [_ids_existentes] above, with [_normaliza] for the normaliser. *)
Definition _encabezado_idx : list string → list string → option nat :=
  _find_header_idx _normaliza.

(** Lines 137-156: the columns are added to the filtered frame itself, each
    one read from the frame as it is at that point. *)
Definition mapear (df_nuevo : Pd.DataFrame) (ultimo : Z)
  : option Pd.DataFrame :=
  match Pd.setitem_list df_nuevo "Número"
          (Pd.rango (ultimo + 1) (Pd.len df_nuevo)) with
  | None => None
  | Some df1 =>
      Some (completar_columnas
              (foldl (λ d cc, Pd.setitem d cc.1 (Pd.get d cc.2 (VStr "")))
                     df1 traduccion))
  end.

Definition cols_format : list string :=
  ["Monto"; "Tipo Monto"; "FyH TERRENO"; "OBLIG?"].

(** Lines 161-178: green for a value other than "NF", red otherwise. *)
Definition formatear (hoja : string) (n : nat) : M unit :=
  do total_vals <- Gs.get_all_values hoja;
  let end_row := Z.of_nat (length total_vals) in
  let start_row := end_row - Z.of_nat n + 1 in
  para_cada
    (λ nombre,
       match posicion nombre columnas_ordenadas 0 with
       | None => raise (ValueError no_esta)
       | Some i =>
           let c_idx := (i + 1)%nat in
           para_cada
             (λ r,
                do val <- Gs.acell hoja r c_idx;
                Gs.format hoja r c_idx
                  (if negb (bool_decide (Py.strip val = ""))
                      && negb (bool_decide (Py.strip val = "NF"))
                   then Verde else Rojo))
             (seqZ start_row (end_row + 1 - start_row))
       end)
    cols_format.

Definition guardar_en_hoja
    (resultados : list (gmap string value)) (fecha_objetivo : string)
  : M salida :=
  guardar_en_hoja_con _normaliza mapear formatear resultados fecha_objetivo.

End Scraping.

(** ** Definitions used to state the properties *)

(** The number that a cell of the sequence column stands for: its digit
    characters, every other character left out, read as a decimal number.
    The cell stands for no number when it has no digit, when one of its
    digits is not a decimal digit (a superscript, say), when it has more
    digits than [int] converts, or when the number is 0. *)
Definition valor_celda (v : string) : option Z :=
  let cifras := filter (λ c, Py.isdigit c = true) (Py.chars v) in
  if bool_decide (cifras = []) then None
  else if (Py.max_str_digits <? length cifras)%nat then None
  else match mapM Py.decimal cifras with
       | Some ds =>
           let n := foldl (λ a d, 10 * a + d) 0 ds in
           if 0 <? n then Some n else None
       | None => None
       end.

(** What holds of the state [st1] that a run has reached from [st] when it
    is about to filter: the worksheet of the month is there with the grid
    [g1]; its first row reads back as the reconciled header [headers], which
    lacks no expected name; the rows below the first are those of [st], or
    none when the worksheet was created; [ids] is the set of the trimmed,
    non-empty cells of the identifier column. *)
Definition estado_leido (norm : string → string) (mes : string) (st : estado)
    (headers : list string) (ids : gset string)
    (st1 : estado) (g1 : list (list string)) : Prop :=
  libro st1 !! mes = Some g1 ∧
  g1 ≠ [] ∧
  Gs.sin_vacias_finales (nth 0 g1 []) = headers ∧
  headers ≠ [] ∧
  faltantes_de headers columnas_ordenadas = [] ∧
  (∀ s, s ∈ ids ↔
        s ≠ "" ∧
        ∃ idx fila, _find_header_idx norm headers alias_id = Some idx ∧
                    fila ∈ drop 1 g1 ∧ Py.strip (nth idx fila "") = s) ∧
  drop 1 g1 = drop 1 (default [] (libro st !! mes)) ∧
  (∀ t, t ≠ mes → libro st1 !! t = libro st !! t).

(** The two files. *)
Inductive variante : Type := SheetsPy | ScrapingPy.

Definition norm_de (v : variante) : string → string :=
  match v with
  | SheetsPy => Sheets._norm
  | ScrapingPy => Scraping._normaliza
  end.

Definition guardar_de (v : variante)
  : list (gmap string value) → string → M salida :=
  match v with
  | SheetsPy => Sheets.guardar_en_hoja
  | ScrapingPy => Scraping.guardar_en_hoja
  end.

(** The index labels of a frame, in the order of its rows. *)
Definition etiquetas (df : Pd.DataFrame) : list nat := (Pd.filas df).*1.

(** The cells of a record after the number, in the order of the sheet: under
    each column the field that [traduccion] pairs with it, and [""] when the
    frame has no such field. *)
Definition campos (df : Pd.DataFrame) (r : gmap string value) : list value :=
  (λ cc, if bool_decide (cc.2 ∈ Pd.columns df) then Pd.cell r cc.2
         else VStr "") <$> traduccion.

(** The rows that the claims expect for a frame of surviving records: the
    numbers [ultimo + 1, ultimo + 2, ...] down the rows, each row holding
    the fields of its own record. *)
Definition filas_esperadas (df : Pd.DataFrame) (ultimo : Z)
  : list (list value) :=
  imap (λ j lr, VInt (ultimo + 1 + Z.of_nat j) :: campos df lr.2)
       (Pd.filas df).

(** The row of a frame that carries a label. *)
Fixpoint fila_de_etiqueta (l : nat) (filas : list (nat * gmap string value))
  : option (gmap string value) :=
  match filas with
  | [] => None
  | (l', r) :: filas' =>
      if bool_decide (l' = l) then Some r else fila_de_etiqueta l filas'
  end.

(** What the row labelled [l] of the output frame of [sheets.py] gets under
    the field [f]: the cell of the record of [df] whose label is [l], [NaN]
    when no record has that label, and [""] when [df] has no such field. *)
Definition celda_alineada (df : Pd.DataFrame) (l : nat) (f : string) : value :=
  if bool_decide (f ∈ Pd.columns df)
  then default VNaN ((λ r, Pd.cell r f) <$> fila_de_etiqueta l (Pd.filas df))
  else VStr "".

(** The rows that [sheets.py] builds: row [j] has the number
    [ultimo + 1 + j] and the cells aligned on the label [j]. *)
Definition filas_alineadas (df : Pd.DataFrame) (ultimo : Z)
  : list (list value) :=
  (λ j : nat,
     VInt (ultimo + 1 + Z.of_nat j)
     :: ((λ cc, celda_alineada df j cc.2) <$> traduccion))
  <$> seq 0 (Pd.len df).

(** A row after the assignments of a table: under each column [cc.1] the
    value [val cc.2]. *)
Definition asignar (val : string → value) (r : gmap string value)
    (tab : list (string * string)) : gmap string value :=
  foldl (λ r cc, <[cc.1 := val cc.2]> r) r tab.

Definition sin_nan (filas : list (list value)) : Prop :=
  existsb (existsb Gs.es_nan) filas = false.

(** A payload that the append accepts. *)
Definition serializable (filas : list (list value)) : Prop :=
  existsb (existsb Gs.no_json) filas = false.

(** ** Sample data *)

Module Ej.

(** A workbook with no worksheet and no call made. *)
Definition vacio : estado := mkEstado ∅ [].

Definition registro (id titulo : string) : gmap string value :=
  {[ "id" := VStr id; "titulo" := VStr titulo ]}.

Definition a1 : gmap string value := registro "A1" "X".
Definition a2 : gmap string value := registro "A2" "Y".
Definition a3 : gmap string value := registro "A3" "Z".

(** A record of a producer that sends no identifier. *)
Definition sin_id : gmap string value := {[ "titulo" := VStr "X" ]}.

Definition fila (n id titulo : string) : list string :=
  [n; ""; ""; id; titulo; ""; ""; ""; ""; ""; ""; ""; ""].

(** The worksheet of August with one stored row, numbered 5. *)
Definition agosto (id titulo : string) : estado :=
  mkEstado {[ "August" := [columnas_ordenadas; fila "5" id titulo] ]} [].

(** A worksheet edited by hand: other header names, stray text in the
    sequence column. *)
Definition a_mano : estado :=
  mkEstado {[ "August" := [["N°"; "Id"; "Notas"];
                           ["3 (pending)"; " B1 "; ""];
                           [""; ""; "x"];
                           ["-1"; "B2"; ""];
                           ["7"; ""; ""]] ]} [].

(** A worksheet whose identifier cells have blanks around them that are not
    ASCII: a no-break space after ["A1"], an em space before ["A2"], and a
    cell of one ideographic space. *)
Definition con_blancos : estado :=
  mkEstado {[ "August" := [columnas_ordenadas;
                           fila "1" ("A1" +:+ Py.chr 160) "X";
                           fila "2" (Py.chr 8195 +:+ "A2") "Y";
                           fila "3" (Py.chr 12288) "Z"] ]} [].

End Ej.

(** ** The keyword list of [sheets.py] *)

Definition hoja_palabras : string := "Palabras Clave".

(** [cargar_palabras_clave] (lines 27-36): column F of the worksheet
    "Palabras Clave", rows 8 to 19, trimmed, blanks left out.  Whatever is
    raised inside the [try] is caught and the result is the empty list. *)
Definition cargar_palabras_clave : M (list string) :=
  catch
    (do_ Gs.worksheet hoja_palabras;
     do vals <- Gs.col_values hoja_palabras 6;
     let palabras_raw := take 12 (drop 7 vals) in
     ret (Py.strip <$> filter (λ p, Py.strip p ≠ "") palabras_raw))
    (λ _, ret []).

(** ** More definitions used to state properties *)

(** The last number that the sequence scan finds on a grid, as a function
    of the header and the grid. *)
Definition ultimo_de (norm : string → string) (headers : list string)
    (g : list (list string)) : Z :=
  match _find_header_idx norm headers alias_numero with
  | None => 0
  | Some idx =>
      max_o_cero (omap valor_celda (drop 1 ((λ fila, nth idx fila "") <$> g)))
  end.

(** A string of ASCII digits, and the number that it writes after [acc]. *)
Fixpoint solo_digitos (s : string) : bool :=
  match s with
  | EmptyString => true
  | String c s' =>
      (48 <=? Py.byte c)%N && (Py.byte c <=? 57)%N && solo_digitos s'
  end.

Fixpoint leer_decimal (acc : Z) (s : string) : Z :=
  match s with
  | EmptyString => acc
  | String c s' => leer_decimal (10 * acc + (Z.of_N (Py.byte c) - 48)) s'
  end.

(** The colour that the formatting pass of [scraping.py] gives a cell with
    the text [val]: green for a value other than "NF", red for a blank cell
    or "NF" (line 178). *)
Definition color_de (val : string) : color :=
  if negb (bool_decide (Py.strip val = ""))
     && negb (bool_decide (Py.strip val = "NF"))
  then Verde else Rojo.

(** The calls that colour the rows [nuevas] when they are stored from row
    [base + 1] on: column by column over "Monto", "Tipo Monto", "FyH TERRENO"
    and "OBLIG?" (columns 8, 9, 11 and 12 of the sheet), row by row, a read
    of the cell and then its colour. *)
Definition eventos_formato (mes : string) (nuevas : list (list string))
    (base : nat) : list evento :=
  c ← [8; 9; 11; 12]%nat;
  j ← seq 0 (length nuevas);
  [EvAcell mes (Z.of_nat (base + j + 1)) c;
   EvFormat mes (Z.of_nat (base + j + 1)) c
     (color_de (nth (c - 1)%nat (nth j nuevas []) ""))].

(** ** Characters of a string *)

(** A string that is one character. *)
Definition caracter (c : string) : Prop := Py.chars c = [c].

(** A string that does not begin in the middle of a character. *)
Definition inicial (c : string) : Prop := Py.sigue c = false.

(** A list of characters that is the list of the characters of the string
    they make. *)
Definition bien (l : list string) : Prop :=
  Forall caracter l ∧ Forall inicial (tail l).

(** Records as the scraper builds them: every field holds a string. *)
Definition es_texto (val : value) : bool :=
  match val with VStr _ => true | _ => false end.

Definition de_textos (resultados : list (gmap string value)) : bool :=
  forallb (λ r, forallb (λ kv, es_texto kv.2) (map_to_list r)) resultados.

(** * Properties *)

(** ** The characters of a string *)

Lemma append_cons b s t : String b s +:+ t = String b (s +:+ t).
Proof. reflexivity. Qed.

Lemma append_nil_l t : "" +:+ t = t.
Proof. reflexivity. Qed.

Lemma append_nil_r s : s +:+ "" = s.
Proof. induction s as [|b s IH]; [done|]. by rewrite append_cons, IH. Qed.

Lemma append_assoc s t u : (s +:+ t) +:+ u = s +:+ (t +:+ u).
Proof. induction s as [|b s IH]; [done|]. by rewrite !append_cons, IH. Qed.

Lemma join_chars s : Py.join (Py.chars s) = s.
Proof.
  induction s as [|b s IH]; [done|]. cbn [Py.chars].
  destruct (Py.chars s) as [|c cs]; cbn [Py.join] in *.
  - by rewrite <- IH.
  - destruct (Py.sigue c); cbn [Py.join];
      by rewrite ?append_cons, ?append_nil_l, <- IH.
Qed.

Lemma join_app l1 l2 : Py.join (l1 ++ l2) = Py.join l1 +:+ Py.join l2.
Proof.
  induction l1 as [|c l1 IH]; [done|]. cbn. rewrite IH.
  by rewrite append_assoc.
Qed.

Lemma sigue_chars s : Py.sigue (hd "" (Py.chars s)) = Py.sigue s.
Proof.
  destruct s as [|b s]; [done|]. cbn [Py.chars].
  destruct (Py.chars s) as [|c cs]; [done|]. by destruct (Py.sigue c).
Qed.

Lemma chars_app x y :
  Py.sigue y = false → Py.chars (x +:+ y) = Py.chars x ++ Py.chars y.
Proof.
  intros Hy. induction x as [|b x IH]; [done|].
  rewrite append_cons. cbn [Py.chars]. rewrite IH.
  destruct (Py.chars x) as [|c cs]; cbn; [|by destruct (Py.sigue c)].
  pose proof (sigue_chars y) as Hh. rewrite Hy in Hh.
  destruct (Py.chars y) as [|c cs]; [done|]. cbn in Hh. by rewrite Hh.
Qed.

Lemma caracter_no_vacio c : caracter c → c ≠ "".
Proof. by intros Hc ->. Qed.

Lemma chars_join l : bien l → Py.chars (Py.join l) = l.
Proof.
  intros [Hc Hi]. induction l as [|c l IH]; [done|].
  apply Forall_cons in Hc as [Hc Hl]. cbn in Hi. cbn [Py.join].
  destruct l as [|c' l'].
  - cbn [Py.join]. rewrite append_nil_r. exact Hc.
  - apply Forall_cons in Hi as [Hi' Hi]. rewrite chars_app.
    + rewrite Hc, IH; [done|done|]. cbn. done.
    + cbn [Py.join]. apply Forall_cons in Hl as [Hc' _].
      destruct c' as [|b t]; [by apply caracter_no_vacio in Hc'|]. exact Hi'.
Qed.

Lemma bien_chars s : bien (Py.chars s).
Proof.
  induction s as [|b s [IHc IHi]]; [by split|]. cbn.
  destruct (Py.chars s) as [|c cs]; [split; [|done]; by repeat constructor|].
  apply Forall_cons in IHc as [Hc Hcs]. cbn in IHi.
  destruct (Py.sigue c) eqn:Ec.
  - split; [|done]. constructor; [|done].
    unfold caracter in *. cbn. by rewrite Hc, Ec.
  - split; [|by constructor]. by repeat constructor.
Qed.

Lemma bien_sublist l1 l2 : l1 `sublist_of` l2 → bien l2 → bien l1.
Proof.
  intros Hs [Hc Hi]. split.
  - apply Forall_forall. intros c Hin. rewrite Forall_forall in Hc.
    apply Hc. by eapply elem_of_sublist.
  - apply Forall_forall. intros c Hin. rewrite Forall_forall in Hi.
    apply Hi. clear Hc Hi. induction Hs as [|x l1 l2 Hs IH|x l1 l2 Hs IH].
    + by apply elem_of_nil in Hin.
    + cbn in *. by eapply elem_of_sublist.
    + cbn. destruct l1 as [|y l1]; [by apply elem_of_nil in Hin|].
      cbn in Hin.
      eapply elem_of_sublist; [|exact Hs]. by right.
Qed.

Lemma lstrip_con_sublist p l : Py.lstrip_con p l `sublist_of` l.
Proof.
  induction l as [|c l IH]; [done|]. cbn.
  destruct (p c); [by apply sublist_cons|done].
Qed.

Lemma rstrip_con_sublist p l : Py.rstrip_con p l `sublist_of` l.
Proof.
  induction l as [|c l IH]; [done|]. cbn.
  destruct (Py.rstrip_con p l) as [|c' t].
  - destruct (p c); [apply sublist_nil_l|].
    apply sublist_skip, sublist_nil_l.
  - by apply sublist_skip.
Qed.

Lemma chars_no_vacio s c : c ∈ Py.chars s → c ≠ "".
Proof.
  intros Hin. destruct (bien_chars s) as [Hc _].
  rewrite Forall_forall in Hc. by apply caracter_no_vacio, Hc.
Qed.

Lemma join_vacio l : (∀ c, c ∈ l → c ≠ "") → Py.join l = "" → l = [].
Proof.
  destruct l as [|c l]; [done|]. intros Hne. cbn [Py.join].
  destruct c as [|b t]; [|by rewrite append_cons].
  destruct (Hne ""); [left|done].
Qed.

(** ** Trimming *)

Lemma chars_strip s :
  Py.chars (Py.strip s)
  = Py.rstrip_con Py.isspace (Py.lstrip_con Py.isspace (Py.chars s)).
Proof.
  unfold Py.strip. apply chars_join.
  eapply bien_sublist; [|apply bien_chars].
  etrans; [apply rstrip_con_sublist|apply lstrip_con_sublist].
Qed.

Lemma lstrip_con_cabeza p l :
  match Py.lstrip_con p l with
  | c :: _ => p c = false
  | [] => True
  end.
Proof.
  induction l as [|c l IH]; [done|]. cbn.
  destruct (p c) eqn:E; [done|]. cbn. done.
Qed.

Lemma lstrip_con_fijo p c l : p c = false → Py.lstrip_con p (c :: l) = c :: l.
Proof. intros E. cbn. by rewrite E. Qed.

Lemma rstrip_con_cabeza p c l :
  p c = false → ∃ t, Py.rstrip_con p (c :: l) = c :: t.
Proof. intros E. cbn. destruct (Py.rstrip_con p l); rewrite ?E; eauto. Qed.

Lemma rstrip_con_idemp p l :
  Py.rstrip_con p (Py.rstrip_con p l) = Py.rstrip_con p l.
Proof.
  induction l as [|c l IH]; [done|]. cbn.
  destruct (Py.rstrip_con p l) as [|c' t] eqn:E.
  - destruct (p c) eqn:Ec; [done|]. cbn. by rewrite Ec.
  - cbn. cbn in IH. rewrite IH. done.
Qed.

Lemma strip_con_idemp p l :
  let m := Py.rstrip_con p (Py.lstrip_con p l) in
  Py.rstrip_con p (Py.lstrip_con p m) = m.
Proof.
  cbv zeta. pose proof (lstrip_con_cabeza p l) as Hc.
  destruct (Py.lstrip_con p l) as [|c t]; [done|].
  destruct (rstrip_con_cabeza p c t Hc) as [t' Ht]. rewrite Ht.
  rewrite lstrip_con_fijo by done. rewrite <- Ht. apply rstrip_con_idemp.
Qed.

Lemma strip_idemp s : Py.strip (Py.strip s) = Py.strip s.
Proof.
  unfold Py.strip at 1. rewrite chars_strip.
  by rewrite (strip_con_idemp Py.isspace (Py.chars s)).
Qed.

Lemma strip_vacia : Py.strip "" = "".
Proof. reflexivity. Qed.

Lemma filter_lstrip_con (p : string → bool) (P : string → Prop)
    `{!∀ c, Decision (P c)} l :
  (∀ c, p c = true → ¬ P c) → filter P (Py.lstrip_con p l) = filter P l.
Proof.
  intros Hp. induction l as [|c l IH]; [done|]. cbn [Py.lstrip_con].
  destruct (p c) eqn:E; [|done].
  rewrite (filter_cons_False _ c) by by apply Hp. done.
Qed.

Lemma filter_rstrip_con (p : string → bool) (P : string → Prop)
    `{!∀ c, Decision (P c)} l :
  (∀ c, p c = true → ¬ P c) → filter P (Py.rstrip_con p l) = filter P l.
Proof.
  intros Hp. induction l as [|c l IH]; [done|]. cbn [Py.rstrip_con].
  destruct (Py.rstrip_con p l) as [|c' t] eqn:E.
  - rewrite (filter_cons _ c l), <- IH. destruct (p c) eqn:Ec.
    + rewrite decide_False by by apply Hp. done.
    + rewrite filter_cons. by destruct (decide (P c)).
  - rewrite !(filter_cons _ c), IH. done.
Qed.

(** Blanks are the characters that [str.isspace] accepts, beyond the ASCII
    ones; the zero width space is not one of them. *)
Example strip_ejemplos :
  Py.strip ("A1" +:+ Py.chr 160) = "A1" ∧
  Py.strip (Py.chr 8195 +:+ " A2" +:+ Py.chr 12288) = "A2" ∧
  Py.strip (Py.chr 160) = "" ∧
  Py.strip "A 1" = "A 1" ∧
  Py.strip (Py.chr 8203 +:+ "A1") = Py.chr 8203 +:+ "A1".
Proof. by vm_compute. Qed.

Example norm_ejemplos :
  Py.lower "NÚMERO" = "número" ∧
  Py.lower "ΣΑΣ" = "σας" ∧
  Sheets._norm " N° " = "n" ∧
  Sheets._norm ("NÚMERO" +:+ Py.chr 160) = "numero" ∧
  Scraping._normaliza "N°" = "n°" ∧
  Scraping._normaliza (Py.chr 8195 +:+ "Número") = "numero".
Proof. by vm_compute. Qed.

Example color_de_ejemplos :
  color_de (Py.chr 160) = Rojo ∧
  color_de ("NF" +:+ Py.chr 160) = Rojo ∧
  color_de "" = Rojo ∧
  color_de "nf" = Verde ∧
  color_de " 1.500 " = Verde.
Proof. by vm_compute. Qed.

(** ** Digits *)

Lemma isspace_no_digit c : Py.isspace c = true → Py.isdigit c = false.
Proof.
  unfold Py.isspace, Py.isdigit. destruct (Py.ord c) as [n|]; [|done].
  intros H. apply existsb_exists in H as (m & Hin & ->%N.eqb_eq).
  unfold Py.tabla_espacios in Hin. cbn [In] in Hin.
  repeat (destruct Hin as [<-|Hin]; [by vm_compute|]). done.
Qed.

Lemma ord_inicial c n : Py.ord c = Some n → inicial c.
Proof.
  unfold inicial, Py.ord, Py.sigue, Py.continua.
  destruct c as [|a [|b [|c [|d [|e t]]]]]; [done| | | | |done];
    intros H; repeat case_match; try done;
    repeat match goal with
           | H : _ && _ = true |- _ => apply andb_prop in H as [??]
           | H : (_ <=? _)%N = true |- _ => apply N.leb_le in H
           | H : (_ <? _)%N = true |- _ => apply N.ltb_lt in H
           end;
    apply andb_false_iff;
    (left; apply N.leb_gt; lia) || (right; apply N.leb_gt; lia).
Qed.

Lemma isdigit_inicial c : Py.isdigit c = true → inicial c.
Proof.
  unfold Py.isdigit. destruct (Py.ord c) as [n|] eqn:E; [|done].
  intros _. by eapply ord_inicial.
Qed.

Lemma isdigit_no_espacio_int c :
  Py.isdigit c = true → Py.espacio_int c = false.
Proof.
  intros Hd. unfold Py.espacio_int.
  destruct (Py.isspace c) eqn:E; [|done].
  apply isspace_no_digit in E. congruence.
Qed.

Lemma strip_con_sin p l :
  Forall (λ c, p c = false) l → Py.rstrip_con p (Py.lstrip_con p l) = l.
Proof.
  intros Hl. assert (Py.lstrip_con p l = l) as ->.
  { destruct Hl as [|c l Hc Hl]; [done|]. cbn. by rewrite Hc. }
  induction Hl as [|c l Hc Hl IH]; [done|]. cbn. rewrite IH, Hc.
  by destruct l.
Qed.

Lemma int_from_digitos cs acc k :
  Forall (λ c, Py.isdigit c = true) cs →
  Py.int_from acc k cs
  = (λ ds, (foldl (λ a d, 10 * a + d) acc ds, (k + length cs)%nat))
      <$> mapM Py.decimal cs.
Proof.
  intros Hcs. revert acc k.
  induction Hcs as [|c cs Hc Hcs IH]; intros acc k.
  { cbn. do 2 f_equal. lia. }
  cbn [Py.int_from mapM]. destruct (Py.decimal c) as [d|] eqn:Ed.
  - rewrite IH. cbn. destruct (mapM Py.decimal cs); cbn; [|done].
    do 2 f_equal. lia.
  - rewrite bool_decide_eq_false_2; [done|].
    intros ->. by vm_compute in Hc.
Qed.

(** [int] on the digits that the scan has kept: their decimal reading, when
    all of them are decimal digits and they are not too many. *)
Lemma int_digitos ds :
  ds ≠ [] → bien ds → Forall (λ c, Py.isdigit c = true) ds →
  Py.int (Py.join ds)
  = if (Py.max_str_digits <? length ds)%nat then None
    else foldl (λ a d, 10 * a + d) 0 <$> mapM Py.decimal ds.
Proof.
  intros Hne Hb Hd. unfold Py.int. rewrite chars_join by done.
  rewrite strip_con_sin; last first.
  { eapply Forall_impl; [exact Hd|]. apply isdigit_no_espacio_int. }
  destruct ds as [|c ds]; [done|].
  apply Forall_cons in Hd as [Hc Hd'].
  rewrite bool_decide_eq_false_2 by (intros ->; by vm_compute in Hc).
  rewrite bool_decide_eq_false_2 by (intros ->; by vm_compute in Hc).
  rewrite int_from_digitos by by constructor.
  cbn [mapM]. destruct (Py.decimal c) as [d|]; cbn; [|by case_match].
  destruct (mapM Py.decimal ds) as [l|]; cbn; [|by case_match].
  case_match; [done|]. f_equal. lia.
Qed.

Lemma digits_of_strip v :
  Py.digits_of (Py.strip v)
  = Py.join (filter (λ c, Py.isdigit c = true) (Py.chars v)).
Proof.
  unfold Py.digits_of. rewrite chars_strip.
  rewrite filter_rstrip_con, filter_lstrip_con; [done| |];
    intros c Hc; apply isspace_no_digit in Hc; congruence.
Qed.

Lemma anotar_numero_valor nums v :
  anotar_numero nums v = nums ++ option_list (valor_celda v).
Proof.
  unfold anotar_numero, valor_celda. rewrite digits_of_strip.
  set (ds := filter (λ c, Py.isdigit c = true) (Py.chars v)).
  assert (bien ds) as Hb.
  { eapply bien_sublist; [apply sublist_filter|apply bien_chars]. }
  assert (Forall (λ c, Py.isdigit c = true) ds) as Hd.
  { apply Forall_forall. by intros c [Hc _]%list_elem_of_filter. }
  assert (∀ c, c ∈ ds → c ≠ "") as Hnv.
  { intros c [_ Hc]%list_elem_of_filter. by eapply chars_no_vacio. }
  destruct (decide (ds = [])) as [->|Hne].
  { cbn. by rewrite app_nil_r. }
  rewrite (bool_decide_eq_false_2 (ds = [])) by done.
  rewrite bool_decide_eq_false_2 by (intros H; by apply join_vacio in H).
  rewrite int_digitos by done.
  destruct (Py.max_str_digits <? length ds)%nat; [by rewrite app_nil_r|].
  destruct (mapM Py.decimal ds) as [l|]; cbn; [|by rewrite app_nil_r].
  destruct (0 <? _); cbn; [done|by rewrite app_nil_r].
Qed.

Lemma valor_celda_pos v k : valor_celda v = Some k → 0 < k.
Proof.
  unfold valor_celda. repeat case_match; try done.
  intros [= <-]. by apply Z.ltb_lt.
Qed.

Lemma valor_celda_vacia : valor_celda "" = None.
Proof. reflexivity. Qed.

(** ** Numbers written in ASCII digits *)

Lemma digito_ascii b :
  (48 <=? Py.byte b)%N && (Py.byte b <=? 57)%N = true →
  Py.isdigit (String b "") = true ∧
  Py.decimal (String b "") = Some (Z.of_N (Py.byte b) - 48).
Proof.
  intros [H1%N.leb_le H2%N.leb_le]%andb_prop.
  assert (b = ascii_of_N (Py.byte b)) as Hb
    by (unfold Py.byte; by rewrite ascii_N_embedding).
  assert (Py.byte b = 48 ∨ Py.byte b = 49 ∨ Py.byte b = 50 ∨ Py.byte b = 51
          ∨ Py.byte b = 52 ∨ Py.byte b = 53 ∨ Py.byte b = 54
          ∨ Py.byte b = 55 ∨ Py.byte b = 56 ∨ Py.byte b = 57)%N
    as Hcases by lia.
  repeat (destruct Hcases as [E|Hcases];
          [rewrite Hb, E; by vm_compute|]).
  rewrite Hb, Hcases. by vm_compute.
Qed.

Lemma solo_digitos_lectura s :
  solo_digitos s = true →
  let cs := (λ b, String b "") <$> list_ascii_of_string s in
  Py.chars s = cs ∧
  filter (λ c, Py.isdigit c = true) cs = cs ∧
  length cs = String.length s ∧
  ∃ ds, mapM Py.decimal cs = Some ds ∧
        ∀ acc, foldl (λ a d, 10 * a + d) acc ds = leer_decimal acc s.
Proof.
  induction s as [|b s IH]; intros Hs.
  { cbn. repeat split; try done. by exists []. }
  cbn [solo_digitos] in Hs. apply andb_prop in Hs as [Hb Hs].
  destruct (IH Hs) as (Hch & Hf & Hlen & ds & Hm & Hfold).
  destruct (digito_ascii b Hb) as [Hd Hv].
  cbn [list_ascii_of_string fmap list_fmap]. cbv zeta. split.
  { cbn [Py.chars]. rewrite Hch. destruct s as [|b' s']; [done|].
    cbn [list_ascii_of_string fmap list_fmap Py.sigue].
    cbn [solo_digitos] in Hs.
    apply andb_prop in Hs as [[H1%N.leb_le H2%N.leb_le]%andb_prop _].
    unfold Py.continua.
    assert ((128 <=? Py.byte b')%N = false) as -> by (apply N.leb_gt; lia).
    done. }
  split.
  { rewrite filter_cons_True by done. f_equal. exact Hf. }
  split; [cbn; by rewrite <- Hlen|].
  exists ((Z.of_N (Py.byte b) - 48) :: ds). split.
  - cbn [mapM]. rewrite Hv. cbn. change (list_fmap _ _ ?f ?l) with (f <$> l).
    by rewrite Hm.
  - intros acc. cbn. apply Hfold.
Qed.

Lemma valor_celda_solo_digitos s :
  solo_digitos s = true → s ≠ "" →
  (String.length s ≤ Py.max_str_digits)%nat →
  valor_celda s
  = (if 0 <? leer_decimal 0 s then Some (leer_decimal 0 s) else None).
Proof.
  intros Hs Hne Hlen.
  destruct (solo_digitos_lectura s Hs) as (Hch & Hf & Hl & ds & Hm & Hfold).
  unfold valor_celda. rewrite Hch, Hf, Hl, Hm.
  rewrite bool_decide_eq_false_2 by by destruct s.
  assert ((Py.max_str_digits <? String.length s)%nat = false) as ->
    by (apply Nat.ltb_ge; lia).
  cbv zeta. by rewrite Hfold.
Qed.

Lemma pretty_N_char_digito m :
  (m < 10)%N →
  (48 <=? Py.byte (pretty_N_char m))%N && (Py.byte (pretty_N_char m) <=? 57)%N
  = true ∧
  Z.of_N (Py.byte (pretty_N_char m)) - 48 = Z.of_N m.
Proof.
  intros Hm.
  assert (m = 0 ∨ m = 1 ∨ m = 2 ∨ m = 3 ∨ m = 4 ∨ m = 5 ∨ m = 6 ∨ m = 7
          ∨ m = 8 ∨ m = 9)%N as Hcases by lia.
  repeat (destruct Hcases as [->|Hcases]; [by split|]). subst. by split.
Qed.

Lemma leer_pretty_N_go x s v :
  solo_digitos s = true →
  (∀ acc, leer_decimal acc s = acc * 10 ^ Z.of_nat (String.length s) + v) →
  solo_digitos (pretty_N_go x s) = true ∧
  leer_decimal 0 (pretty_N_go x s)
  = Z.of_N x * 10 ^ Z.of_nat (String.length s) + v.
Proof.
  revert s v. induction (N.lt_wf_0 x) as [x _ IH]. intros s v Hs Hv.
  assert (x = 0 ∨ 0 < x)%N as [->|Hx] by lia.
  - rewrite pretty_N_go_0. split; [done|]. by rewrite Hv.
  - rewrite pretty_N_go_step by done.
    destruct (pretty_N_char_digito (x `mod` 10)) as [Hd Hval];
      [by apply N.mod_lt|].
    destruct (IH (x `div` 10)%N) with
      (s := String (pretty_N_char (x `mod` 10)) s)
      (v := Z.of_N (x `mod` 10) * 10 ^ Z.of_nat (String.length s) + v)
      as [Hsolo Hint].
    + by apply N.div_lt.
    + cbn [solo_digitos]. by rewrite Hd, Hs.
    + intros acc. cbn [leer_decimal String.length]. rewrite Hv, Hval.
      rewrite Nat2Z.inj_succ, Z.pow_succ_r by lia. lia.
    + split; [done|]. rewrite Hint.
      cbn [String.length]. rewrite Nat2Z.inj_succ, Z.pow_succ_r by lia.
      rewrite (N.div_mod x 10) at 3 by done.
      rewrite N2Z.inj_add, N2Z.inj_mul. lia.
Qed.

Lemma pretty_positivo (k : Z) :
  0 < k →
  solo_digitos (pretty k) = true ∧ pretty k ≠ "" ∧
  leer_decimal 0 (pretty k) = k.
Proof.
  intros Hk. destruct k as [|p|p]; [lia| |lia].
  change (pretty (Z.pos p)) with (pretty (N.pos p)).
  unfold pretty, pretty_N. rewrite decide_False by done.
  destruct (leer_pretty_N_go (N.pos p) "" 0) as [Hsolo Hint]; [done| |].
  { intros acc. cbn. lia. }
  split; [done|]. split.
  - intros Hv. rewrite Hv in Hint. cbn in Hint. lia.
  - rewrite Hint. cbn [String.length]. change (10 ^ Z.of_nat 0) with 1.
    rewrite N2Z.inj_pos. lia.
Qed.

(** A positive number written to a cell is the number that the sequence
    scan reads from the cell, when it has no more digits than [int]
    converts. *)
Lemma valor_celda_pretty (k : Z) :
  0 < k → (String.length (pretty k) ≤ Py.max_str_digits)%nat →
  valor_celda (pretty k) = Some k.
Proof.
  intros Hk Hlen. destruct (pretty_positivo k Hk) as (Hs & Hne & Hv).
  rewrite valor_celda_solo_digitos by done. rewrite Hv.
  by rewrite (proj2 (Z.ltb_lt 0 k)).
Qed.

(** The sign of a negative number is not a digit: the cell counts with the
    digits alone. *)
Lemma valor_celda_signo s :
  solo_digitos s = true → valor_celda ("-" +:+ s) = valor_celda s.
Proof.
  intros Hs. destruct (solo_digitos_lectura s Hs) as (Hch & Hf & _).
  unfold valor_celda. rewrite append_cons, append_nil_l.
  assert (Py.chars (String "-" s) = "-" :: Py.chars s) as ->.
  { cbn [Py.chars]. rewrite Hch. destruct s as [|b s']; [done|].
    cbn [list_ascii_of_string fmap list_fmap Py.sigue].
    cbn [solo_digitos] in Hs.
    apply andb_prop in Hs as [[H1%N.leb_le H2%N.leb_le]%andb_prop _].
    unfold Py.continua.
    assert ((128 <=? Py.byte b)%N = false) as -> by (apply N.leb_gt; lia).
    done. }
  rewrite filter_cons_False; [done|]. by vm_compute.
Qed.

(** ** The fields of a date *)

Lemma entre_valor lo hi c :
  Fecha.entre lo hi c = true →
  Z.of_N lo - 48 ≤ Fecha.valor c ≤ Z.of_N hi - 48.
Proof.
  unfold Fecha.entre, Fecha.valor. destruct (Py.ord c) as [n|]; [|done].
  intros [H1%N.leb_le H2%N.leb_le]%andb_prop. lia.
Qed.

Lemma parse_m_rango cs m r : Fecha.parse_m cs = Some (m, r) → 1 ≤ m ≤ 12.
Proof.
  unfold Fecha.parse_m.
  destruct cs as [|a [|b r']]; [done| |];
    repeat case_match; intros [= <- <-];
    repeat match goal with
           | H : _ && _ = true |- _ => apply andb_prop in H as [??]
           | H : Fecha.entre _ _ _ = true |- _ => apply entre_valor in H
           end; cbn in *; lia.
Qed.

Lemma strptime_mes fecha y m d :
  Fecha.strptime fecha = Some (y, m, d) → 1 ≤ m ≤ 12.
Proof.
  unfold Fecha.strptime. intros H.
  repeat case_match; simplify_eq. by eapply parse_m_rango.
Qed.

Lemma capitalize_meses (i : nat) :
  Py.capitalize (nth i Fecha.meses "") = nth i Fecha.meses "".
Proof.
  do 12 (destruct i as [|i]; [by vm_compute|]). by destruct i; vm_compute.
Qed.

(** ** Running the calls to the service *)

Lemma libro_con_evento st e : libro (con_evento st e) = libro st.
Proof. reflexivity. Qed.

Lemma traza_con_evento st e : traza (con_evento st e) = traza st ++ [e].
Proof. reflexivity. Qed.

Lemma row_values_ok t n st g :
  libro st !! t = Some g →
  Gs.row_values t n st
  = (Ok (Gs.sin_vacias_finales (nth (n - 1) g [])),
     con_evento st (EvRowValues t n)).
Proof.
  intros Hg. unfold Gs.row_values, bind, Gs.registrar, Gs.leer_hoja, ret.
  cbn. by rewrite Hg.
Qed.

Lemma col_values_ok t c st g :
  libro st !! t = Some g →
  Gs.col_values t c st
  = (Ok (Gs.sin_vacias_finales ((λ fila, nth (c - 1) fila "") <$> g)),
     con_evento st (EvColValues t c)).
Proof.
  intros Hg. unfold Gs.col_values, bind, Gs.registrar, Gs.leer_hoja, ret.
  cbn. by rewrite Hg.
Qed.

Lemma update_A1_ok t fila st g :
  libro st !! t = Some g →
  Gs.update_A1 t fila st
  = (Ok tt, {| libro := <[t := con_encabezado fila g]> (libro st);
               traza := traza st ++ [EvUpdate t fila] |}).
Proof.
  intros Hg. unfold Gs.update_A1, bind, Gs.registrar, Gs.leer_hoja, Gs.poner_hoja.
  cbn. by rewrite Hg.
Qed.

(** ** Schema reconciliation *)

Lemma faltantes_de_spec headers esperados h :
  h ∈ faltantes_de headers esperados ↔ h ∈ esperados ∧ h ∉ headers.
Proof. unfold faltantes_de. rewrite list_elem_of_filter. tauto. Qed.

Lemma faltantes_de_nil headers esperados :
  (∀ e, e ∈ esperados → e ∈ headers) → faltantes_de headers esperados = [].
Proof.
  intros Hall. destruct (faltantes_de headers esperados) as [|h l] eqn:E; [done|].
  assert (Hh : h ∈ faltantes_de headers esperados) by (rewrite E; left).
  apply faltantes_de_spec in Hh as [He Hn]. destruct Hn. by apply Hall.
Qed.

(** C4.  On a worksheet whose header row is not empty, reconciliation
    returns the header that is there followed by the expected names that it
    lacks (exact comparison of strings), in the order of the expected list.
    It writes the header only when some name is missing: a header that has
    every expected name, in any order and with any other columns, comes back
    as it is and the only call is the read of row 1. *)
Theorem C4_asegurar_encabezados
    (hoja : string) (esperados : list string) (st : estado)
    (g : list (list string)) :
  libro st !! hoja = Some g →
  Gs.sin_vacias_finales (nth 0 g []) ≠ [] →
  let headers := Gs.sin_vacias_finales (nth 0 g []) in
  let faltantes := faltantes_de headers esperados in
  (∀ h, h ∈ faltantes ↔ h ∈ esperados ∧ h ∉ headers) ∧
  ((∀ e, e ∈ esperados → e ∈ headers) → faltantes = []) ∧
  ∃ st',
    _asegurar_encabezados hoja esperados st = (Ok (headers ++ faltantes), st') ∧
    (faltantes = [] → st' = con_evento st (EvRowValues hoja 1)) ∧
    (faltantes ≠ [] →
       traza st' = traza st ++ [EvRowValues hoja 1;
                                EvUpdate hoja (headers ++ faltantes)] ∧
       libro st' = <[hoja := con_encabezado (headers ++ faltantes) g]> (libro st)).
Proof.
  intros Hg Hne headers faltantes.
  split; [apply faltantes_de_spec|]. split; [apply faltantes_de_nil|].
  unfold _asegurar_encabezados, bind.
  rewrite (row_values_ok _ _ _ g Hg). cbn [Nat.sub].
  fold headers. destruct headers as [|h0 hs] eqn:Eh; [done|].
  fold faltantes. destruct faltantes as [|f fs] eqn:Ef.
  - eexists. split; [by rewrite app_nil_r|]. split; [done|]. intros []. done.
  - rewrite (update_A1_ok _ _ _ g) by done.
    eexists. split; [reflexivity|]. split; [done|]. intros _. cbn.
    split; [|done]. by rewrite <- app_assoc.
Qed.

(** ** The target date *)

(** C9.  With no incoming record the call reports that there is nothing to
    save and leaves the state as it was, trace included: the date is not
    parsed and the service is not called, whatever the date string is. *)
Theorem C9_sin_resultados (fecha : string) (st : estado) :
  Sheets.guardar_en_hoja [] fecha st = (Ok SinResultados, st) ∧
  Scraping.guardar_en_hoja [] fecha st = (Ok SinResultados, st).
Proof. split; reflexivity. Qed.

(** C8.  With at least one incoming record, a date that [strptime] rejects
    makes the call raise the [ValueError] of the parse and leaves the state
    as it was, trace included: the service was not called.  A date that it
    accepts has a month between 1 and 12 and the worksheet title is the
    English name of that month, first letter in upper case; the title is a
    function of the date string alone. *)
Theorem C8_fecha (resultados : list (gmap string value)) (fecha : string)
    (st : estado) :
  resultados ≠ [] →
  match Fecha.strptime fecha with
  | None =>
      Sheets.guardar_en_hoja resultados fecha st
        = (Raise (ValueError no_coincide), st) ∧
      Scraping.guardar_en_hoja resultados fecha st
        = (Raise (ValueError no_coincide), st)
  | Some (y, m, d) =>
      1 ≤ m ≤ 12 ∧
      mes_de_fecha fecha = Some (nth (Z.to_nat m - 1) Fecha.meses "") ∧
      nth (Z.to_nat m - 1) Fecha.meses "" ∈ Fecha.meses
  end.
Proof.
  intros Hne. destruct (Fecha.strptime fecha) as [[[y m] d]|] eqn:E.
  - pose proof (strptime_mes _ _ _ _ E) as Hm. split; [done|]. split.
    + unfold mes_de_fecha. rewrite E. cbn. f_equal.
      unfold Fecha.strftime_B. cbn. apply capitalize_meses.
    + apply list_elem_of_In, nth_In. cbn. lia.
  - unfold Sheets.guardar_en_hoja, Scraping.guardar_en_hoja,
      guardar_en_hoja_con, mes_de_fecha.
    rewrite E. cbn. rewrite bool_decide_eq_false_2 by done. done.
Qed.

(** ** The sequence scan *)

Lemma foldl_anotar_numero vals nums :
  foldl anotar_numero nums vals = nums ++ omap valor_celda vals.
Proof.
  revert nums. induction vals as [|v vals IH]; intros nums; cbn.
  - by rewrite app_nil_r.
  - rewrite IH, anotar_numero_valor.
    destruct (valor_celda v); cbn; by rewrite <- ?app_assoc, ?app_nil_r.
Qed.

Lemma foldl_max_spec ns n :
  n ≤ foldl Z.max n ns ∧ (∀ x, x ∈ ns → x ≤ foldl Z.max n ns) ∧
  foldl Z.max n ns ∈ n :: ns.
Proof.
  revert n. induction ns as [|m ns IH]; intros n; cbn.
  - split; [lia|]. split; [by intros ? ?%elem_of_nil|left].
  - destruct (IH (Z.max n m)) as (H1 & H2 & H3). split; [lia|]. split.
    + intros x [->|Hx]%elem_of_cons; [lia|by apply H2].
    + apply elem_of_cons in H3 as [H3|H3].
      * rewrite H3. destruct (Z.max_spec n m) as [[_ ->]|[_ ->]];
          [right; left|left].
      * right. by right.
Qed.

Lemma max_o_cero_spec nums :
  (∀ x, x ∈ nums → x ≤ max_o_cero nums) ∧
  ((nums = [] ∧ max_o_cero nums = 0) ∨ max_o_cero nums ∈ nums).
Proof.
  destruct nums as [|n ns]; cbn.
  - split; [by intros ? ?%elem_of_nil|by left].
  - destruct (foldl_max_spec ns n) as (H1 & H2 & H3). split; [|by right].
    intros x [->|Hx]%elem_of_cons; [done|by apply H2].
Qed.

(** What the service trims from the end of a column are empty cells. *)
Lemma sin_vacias_finales_resto l :
  ∃ k, l = Gs.sin_vacias_finales l ++ replicate k "".
Proof.
  induction l as [|x l [k IH]]; [by exists 0%nat|]. cbn.
  destruct (Gs.sin_vacias_finales l) as [|y t] eqn:E.
  - case_bool_decide as Hx.
    + exists (S k). cbn. rewrite Hx. f_equal. done.
    + exists k. cbn. by f_equal.
  - exists k. cbn. f_equal. done.
Qed.

Lemma drop1_sin_vacias_finales l :
  ∃ k, drop 1 l = drop 1 (Gs.sin_vacias_finales l) ++ replicate k "".
Proof.
  destruct (sin_vacias_finales_resto l) as [k Hk].
  destruct (Gs.sin_vacias_finales l) as [|y t] eqn:E.
  - exists (k - 1)%nat. rewrite Hk. cbn. destruct k; cbn; [done|].
    by rewrite Nat.sub_0_r.
  - exists k. rewrite Hk at 1. done.
Qed.

Lemma omap_valor_celda_vacias k : omap valor_celda (replicate k "") = [].
Proof. induction k; [done|]. cbn. done. Qed.

Lemma omap_valor_celda_drop1 l :
  omap valor_celda (drop 1 (Gs.sin_vacias_finales l))
  = omap valor_celda (drop 1 l).
Proof.
  destruct (drop1_sin_vacias_finales l) as [k ->].
  by rewrite omap_app, omap_valor_celda_vacias, app_nil_r.
Qed.

(** The digits are all that is read of a cell: the sign of ["-1"] is
    dropped with the other non-digits, so the cell counts as 1.  A digit of
    another script counts with its value; a digit that is not decimal, like
    the superscript of ["7²"], makes [int] fail and the cell is skipped. *)
Example valor_celda_ejemplos :
  valor_celda "3 (pending)" = Some 3 ∧ valor_celda "" = None ∧
  valor_celda "-1" = Some 1 ∧ valor_celda "7" = Some 7 ∧
  valor_celda "0" = None ∧ valor_celda "n/a" = None ∧
  valor_celda "7²" = None ∧ valor_celda "٣" = Some 3 ∧
  valor_celda "1٢3" = Some 123 ∧ valor_celda "007" = Some 7.
Proof. by vm_compute. Qed.

(** The same cells through the loop of the code. *)
Example anotar_numero_ejemplos :
  foldl anotar_numero [] ["3"; "7²"; "-1"; "٣"; " 12 "; "0"; "x"]
  = [3; 1; 3; 12].
Proof. by vm_compute. Qed.

Example ultimo_numero_a_mano :
  (_ultimo_numero Sheets._norm "August" ["N°"; "Id"; "Notas"] Ej.a_mano).1
  = Ok 7 ∧
  (_ultimo_numero Scraping._normaliza "August" ["Nro"; "Id"] Ej.a_mano).1
  = Ok 7.
Proof. split; vm_compute; reflexivity. Qed.

(** C2.  The sequence scan returns 0, without reading, when no header
    matches an alias of the sequence column.  Otherwise it reads that column
    and returns the maximum, over the cells below the header, of the number
    that the cell stands for: its digit characters, the others left out,
    read in base 10.  A cell does not count when it has no digit, when its
    digits do not parse, or when the number is 0; the result is 0 when no
    cell counts, so the first number given out is 1.  No cell stands for a
    negative number: a sign is not a digit, so ["-5"] counts as 5.  A
    positive number in decimal digits stands for itself. *)
Theorem C2_ultimo_numero
    (norm : string → string) (hoja : string) (headers : list string)
    (st : estado) (g : list (list string)) :
  libro st !! hoja = Some g →
  match _find_header_idx norm headers alias_numero with
  | None => _ultimo_numero norm hoja headers st = (Ok 0, st)
  | Some idx =>
      let celdas := drop 1 ((λ fila, nth idx fila "") <$> g) in
      ∃ n,
        _ultimo_numero norm hoja headers st
          = (Ok n, con_evento st (EvColValues hoja (idx + 1))) ∧
        (∀ v k, v ∈ celdas → valor_celda v = Some k → k ≤ n) ∧
        ((n = 0 ∧ ∀ v, v ∈ celdas → valor_celda v = None) ∨
         (0 < n ∧ ∃ v, v ∈ celdas ∧ valor_celda v = Some n))
  end ∧
  (∀ v k, valor_celda v = Some k → 0 < k) ∧
  (∀ k, 0 < k →
        (String.length (pretty k) ≤ Py.max_str_digits)%nat →
        valor_celda (pretty k) = Some k ∧
        valor_celda ("-" +:+ pretty k) = Some k).
Proof.
  intros Hg. split; [|split].
  2: { apply valor_celda_pos. }
  2: { intros k Hk Hlen. split; [by apply valor_celda_pretty|].
       destruct (pretty_positivo k Hk) as (Hs & _ & _).
       rewrite valor_celda_signo by done. by apply valor_celda_pretty. }
  unfold _ultimo_numero.
  destruct (_find_header_idx norm headers alias_numero) as [idx|]; [|done].
  cbv zeta. set (celdas := drop 1 _). eexists. unfold bind.
  rewrite (col_values_ok _ _ _ g Hg). unfold ret.
  replace (idx + 1 - 1)%nat with idx by lia.
  split; [reflexivity|].
  rewrite foldl_anotar_numero, app_nil_l, omap_valor_celda_drop1.
  fold celdas.
  destruct (max_o_cero_spec (omap valor_celda celdas)) as [Hub Hat].
  split.
  - intros v k Hv Hk. apply Hub, list_elem_of_omap. eauto.
  - destruct Hat as [[Hnil H0]|Hin].
    + left. split; [done|]. intros v Hv.
      destruct (valor_celda v) as [k|] eqn:Ek; [|done].
      assert (k ∈ omap valor_celda celdas) as Hk
        by (apply list_elem_of_omap; eauto).
      rewrite Hnil in Hk. by apply elem_of_nil in Hk.
    + right. apply list_elem_of_omap in Hin as (v & Hv & Hk).
      split; [by eapply valor_celda_pos|eauto].
Qed.

(** ** The identity scan and the filter *)

Lemma ids_de_spec vals s :
  s ∈ ids_de vals ↔ s ≠ "" ∧ ∃ v, v ∈ vals ∧ Py.strip v = s.
Proof.
  unfold ids_de. rewrite elem_of_list_to_set, list_elem_of_fmap. split.
  - intros (v & -> & [Hv Hin]%list_elem_of_filter). eauto.
  - intros (Hs & v & Hin & <-). exists v. split; [done|].
    apply list_elem_of_filter. done.
Qed.

Lemma ids_de_drop1 l :
  ids_de (drop 1 (Gs.sin_vacias_finales l)) = ids_de (drop 1 l).
Proof.
  apply set_eq. intros s. rewrite !ids_de_spec.
  destruct (drop1_sin_vacias_finales l) as [k ->].
  split; intros (Hs & v & Hv & Hst); split; try done; exists v.
  - split; [|done]. apply elem_of_app. by left.
  - split; [|done]. apply elem_of_app in Hv as [Hv|Hv]; [done|].
    apply elem_of_replicate in Hv as [-> _]. by destruct Hs.
Qed.

Lemma ids_existentes_ok norm hoja headers st g :
  libro st !! hoja = Some g →
  ∃ ids st',
    _ids_existentes norm hoja headers st = (Ok ids, st') ∧
    libro st' = libro st ∧
    ∀ s, s ∈ ids ↔
         s ≠ "" ∧
         ∃ idx fila, _find_header_idx norm headers alias_id = Some idx ∧
                     fila ∈ drop 1 g ∧ Py.strip (nth idx fila "") = s.
Proof.
  intros Hg. unfold _ids_existentes.
  destruct (_find_header_idx norm headers alias_id) as [idx|].
  - unfold bind. rewrite (col_values_ok _ _ _ g Hg). unfold ret.
    replace (idx + 1 - 1)%nat with idx by lia.
    eexists _, _. split; [reflexivity|]. split; [done|].
    intros s. rewrite ids_de_drop1, ids_de_spec, <- fmap_drop. split.
    + intros (Hs & v & (fila & -> & Hf)%list_elem_of_fmap & Hst). eauto 10.
    + intros (Hs & idx' & fila & [= <-] & Hf & Hst). split; [done|].
      exists (nth idx fila ""). split; [|done].
      apply list_elem_of_fmap. eauto.
  - eexists _, _. split; [reflexivity|]. split; [done|].
    intros s. split; [by intros ?%not_elem_of_empty|].
    by intros (_ & idx & fila & [=] & _).
Qed.

Lemma columns_of_records resultados f :
  f ∈ Pd.columns (Pd.of_records resultados) ↔
  ∃ r, r ∈ resultados ∧ is_Some (r !! f).
Proof.
  cbn. rewrite elem_of_union_list. split.
  - intros (X & (r & -> & Hr)%list_elem_of_fmap & Hf).
    exists r. split; [done|]. by apply elem_of_dom.
  - intros (r & Hr & Hf). exists (dom r). split.
    + apply list_elem_of_fmap. eauto.
    + by apply elem_of_dom.
Qed.

Lemma filas_of_records resultados i r :
  (i, r) ∈ Pd.filas (Pd.of_records resultados) ↔ resultados !! i = Some r.
Proof.
  cbn. rewrite list_elem_of_lookup. split.
  - intros (j & Hj). rewrite list_lookup_imap in Hj.
    destruct (resultados !! j) as [r'|] eqn:E; [|done].
    cbn in Hj. by simplify_eq.
  - intros Hi. exists i. by rewrite list_lookup_imap, Hi.
Qed.

Lemma isin_true ids v : Pd.isin ids v = true ↔ ∃ s, v = VStr s ∧ s ∈ ids.
Proof.
  destruct v as [s|n|]; cbn.
  - rewrite bool_decide_eq_true. split; [eauto|]. by intros (? & [= <-] & ?).
  - split; [done|]. by intros (? & [=] & _).
  - split; [done|]. by intros (? & [=] & _).
Qed.

(** A record with an ["id"] key is dropped exactly when its identifier is a
    string of the set. *)
Lemma filtrar_duplicados_spec resultados ids i r v :
  resultados !! i = Some r → r !! "id" = Some v →
  (i, r) ∈ Pd.filas (filtrar_duplicados (Pd.of_records resultados) ids) ↔
  ¬ ∃ s, v = VStr s ∧ s ∈ ids.
Proof.
  intros Hi Hv. unfold filtrar_duplicados.
  rewrite bool_decide_eq_true_2; last first.
  { apply columns_of_records. exists r. split; [|by rewrite Hv].
    by eapply list_elem_of_lookup_2. }
  unfold Pd.drop_isin. cbn [Pd.filas].
  rewrite list_elem_of_filter. cbn [snd]. unfold Pd.cell. rewrite Hv. cbn.
  rewrite <- isin_true, not_true_iff_false.
  pose proof (proj2 (filas_of_records resultados i r) Hi). cbn in *. tauto.
Qed.

(** C5.  The identity scan returns the set of the trimmed, non-empty cells
    below the header in the column that the aliases of the identifier
    select (the empty set when there is none).  A record with an identifier
    field is dropped by the filter exactly when its identifier is a string
    that is equal, character for character, to a member of that set. *)
Theorem C5_deduplicacion
    (norm : string → string) (hoja : string) (headers : list string)
    (st : estado) (g : list (list string))
    (resultados : list (gmap string value)) (i : nat)
    (r : gmap string value) (v : value) :
  libro st !! hoja = Some g →
  resultados !! i = Some r →
  r !! "id" = Some v →
  ∃ ids st',
    _ids_existentes norm hoja headers st = (Ok ids, st') ∧
    (∀ s, s ∈ ids ↔
          s ≠ "" ∧
          ∃ idx fila, _find_header_idx norm headers alias_id = Some idx ∧
                      fila ∈ drop 1 g ∧ Py.strip (nth idx fila "") = s) ∧
    ((i, r) ∉ Pd.filas (filtrar_duplicados (Pd.of_records resultados) ids) ↔
     ∃ s, v = VStr s ∧ s ∈ ids).
Proof.
  intros Hg Hi Hv.
  destruct (ids_existentes_ok norm hoja headers st g Hg)
    as (ids & st' & Hrun & _ & Hids).
  exists ids, st'. split; [done|]. split; [done|].
  rewrite (filtrar_duplicados_spec _ ids _ _ _ Hi Hv).
  split; [|tauto]. intros Hnn. apply isin_true.
  destruct (Pd.isin ids v) eqn:E; [done|]. destruct Hnn.
  intros Hex%isin_true. congruence.
Qed.

(** ** What a run reads *)

Lemma sin_vacias_finales_vacias k l :
  Gs.sin_vacias_finales (l ++ replicate k "") = Gs.sin_vacias_finales l.
Proof.
  induction l as [|x l IH]; cbn.
  - induction k as [|k IHk]; [done|]. cbn. by rewrite IHk.
  - by rewrite IH.
Qed.

Lemma sin_vacias_finales_ultimo l x :
  x ≠ "" → Gs.sin_vacias_finales (l ++ [x]) = l ++ [x].
Proof.
  intros Hx. induction l as [|y l IH]; cbn.
  - by rewrite bool_decide_eq_false_2.
  - rewrite IH. by destruct l.
Qed.

Lemma sin_vacias_finales_idemp l :
  Gs.sin_vacias_finales (Gs.sin_vacias_finales l) = Gs.sin_vacias_finales l.
Proof.
  induction l as [|x l IH]; [done|]. cbn.
  destruct (Gs.sin_vacias_finales l) as [|y t] eqn:E.
  - case_bool_decide; [done|]. cbn. by rewrite bool_decide_eq_false_2.
  - cbn. cbn in IH. rewrite IH. done.
Qed.

(** The first row after the header [nuevos] was written over a first row
    that reads as [headers], when [nuevos] is at least as long. *)
Lemma releer_encabezado nuevos g :
  (length (Gs.sin_vacias_finales (nth 0 g [])) ≤ length nuevos)%nat →
  Gs.sin_vacias_finales (nth 0 (con_encabezado nuevos g) [])
  = Gs.sin_vacias_finales nuevos.
Proof.
  intros Hlen. destruct g as [|f1 g']; [done|]. cbn in *.
  destruct (sin_vacias_finales_resto f1) as [k Hk].
  rewrite Hk at 1. rewrite drop_app_ge by done.
  rewrite drop_replicate. apply sin_vacias_finales_vacias.
Qed.

Lemma faltantes_de_completo headers esperados :
  faltantes_de (headers ++ faltantes_de headers esperados) esperados = [].
Proof.
  apply faltantes_de_nil. intros e He. apply elem_of_app.
  destruct (decide (e ∈ headers)); [by left|right].
  by apply faltantes_de_spec.
Qed.

Lemma faltantes_no_vacias headers x l :
  faltantes_de headers columnas_ordenadas = l ++ [x] → x ≠ "".
Proof.
  intros Hf Hx.
  assert (x ∈ faltantes_de headers columnas_ordenadas) as Hin.
  { rewrite Hf. apply elem_of_app. right. left. }
  apply faltantes_de_spec in Hin as [Hin _]. subst x.
  unfold columnas_ordenadas in Hin.
  repeat (apply elem_of_cons in Hin as [Hin|Hin]; [discriminate Hin|]).
  by apply elem_of_nil in Hin.
Qed.

Lemma asegurar_encabezados_ok mes st g :
  libro st !! mes = Some g →
  ∃ headers st' g',
    _asegurar_encabezados mes columnas_ordenadas st = (Ok headers, st') ∧
    libro st' !! mes = Some g' ∧ g' ≠ [] ∧
    Gs.sin_vacias_finales (nth 0 g' []) = headers ∧ headers ≠ [] ∧
    faltantes_de headers columnas_ordenadas = [] ∧
    drop 1 g' = drop 1 g ∧
    (∀ t, t ≠ mes → libro st' !! t = libro st !! t).
Proof.
  intros Hg. unfold _asegurar_encabezados, bind.
  rewrite (row_values_ok _ _ _ g Hg). cbn [Nat.sub].
  destruct (Gs.sin_vacias_finales (nth 0 g [])) as [|h0 hs] eqn:Eh.
  - rewrite (update_A1_ok _ _ _ g) by done. unfold ret.
    eexists _, _, _. split; [reflexivity|]. cbn [libro].
    split; [apply lookup_insert_eq|]. split; [by destruct g|].
    split.
    { rewrite releer_encabezado; [done|]. rewrite Eh. cbn. lia. }
    split; [done|]. split; [by apply faltantes_de_nil|].
    split; [by destruct g|]. intros t Ht. by rewrite lookup_insert_ne.
  - destruct (faltantes_de (h0 :: hs) columnas_ordenadas) as [|f fs] eqn:Ef.
    + exists (h0 :: hs), (con_evento st (EvRowValues mes 1)), g.
      split; [done|]. split; [done|]. split; [by destruct g|].
      split; [done|]. split; [done|]. split; [done|]. done.
    + rewrite (update_A1_ok _ _ _ g) by done. unfold ret.
      eexists _, _, _. split; [reflexivity|]. cbn [libro].
      split; [apply lookup_insert_eq|]. split; [by destruct g|].
      split.
      { rewrite releer_encabezado.
        - destruct (exists_last (l := f :: fs)) as (l' & x & Hl); [done|].
          rewrite Hl, app_assoc. apply sin_vacias_finales_ultimo.
          eapply faltantes_no_vacias. rewrite Ef. exact Hl.
        - rewrite Eh, length_app. lia. }
      split; [done|]. split.
      { rewrite <- Ef. apply faltantes_de_completo. }
      split; [by destruct g|]. intros t Ht. by rewrite lookup_insert_ne.
Qed.

Lemma worksheet_run mes st :
  Gs.worksheet mes st
  = (match libro st !! mes with
     | Some _ => Ok tt
     | None => Raise WorksheetNotFound
     end, con_evento st (EvWorksheet mes)).
Proof.
  unfold Gs.worksheet, bind, Gs.registrar, Gs.leer_hoja. cbn.
  by destruct (libro st !! mes).
Qed.

Lemma add_worksheet_run mes st :
  Gs.add_worksheet mes st
  = (Ok tt, {| libro := <[mes := []]> (libro st);
               traza := traza st ++ [EvAddWorksheet mes] |}).
Proof. reflexivity. Qed.

Lemma abrir_o_crear_ok mes st :
  ∃ st' g,
    abrir_o_crear mes st = (Ok tt, st') ∧
    libro st' !! mes = Some g ∧
    drop 1 g = drop 1 (default [] (libro st !! mes)) ∧
    (∀ t, t ≠ mes → libro st' !! t = libro st !! t).
Proof.
  unfold abrir_o_crear, catch. rewrite worksheet_run.
  destruct (libro st !! mes) as [g|] eqn:Eg.
  - eexists _, g. split; [reflexivity|]. cbn. by rewrite Eg.
  - unfold bind at 1. rewrite add_worksheet_run.
    erewrite update_A1_ok; [|cbn; apply lookup_insert_eq].
    eexists _, _. split; [reflexivity|]. cbn.
    split; [apply lookup_insert_eq|]. split; [done|].
    intros t Ht. by rewrite !lookup_insert_ne.
Qed.

Lemma ultimo_numero_ok norm mes headers st g :
  libro st !! mes = Some g →
  ∃ u st', _ultimo_numero norm mes headers st = (Ok u, st') ∧
           libro st' = libro st.
Proof.
  intros Hg. unfold _ultimo_numero.
  destruct (_find_header_idx norm headers alias_numero) as [idx|].
  - unfold bind. rewrite (col_values_ok _ _ _ g Hg). by eexists _, _.
  - by eexists _, _.
Qed.

(** The reads of a run never raise, and they leave the state described by
    [estado_leido]. *)
Lemma leer_estado_ok norm mes st :
  ∃ headers u ids st1 g1,
    leer_estado norm mes st = (Ok (headers, u, ids), st1) ∧
    estado_leido norm mes st headers ids st1 g1.
Proof.
  unfold leer_estado, bind at 1, Gs.conectar_google_sheets, Gs.registrar.
  unfold bind at 1.
  destruct (abrir_o_crear_ok mes (con_evento st EvConectar))
    as (sta & ga & -> & Hga & Hda & Hoa).
  unfold bind at 1.
  destruct (asegurar_encabezados_ok mes sta ga Hga)
    as (h & stb & gb & -> & Hgb & Hne & Hh & Hhne & Hf & Hdb & Hob).
  unfold bind at 1.
  destruct (ultimo_numero_ok norm mes h stb gb Hgb) as (u & stc & -> & Hlc).
  unfold bind at 1.
  assert (libro stc !! mes = Some gb) as Hgc by by rewrite Hlc.
  destruct (ids_existentes_ok norm mes h stc gb Hgc)
    as (ids & std & -> & Hld & Hids).
  exists h, u, ids, std, gb. split; [done|].
  unfold estado_leido. rewrite Hld, Hlc.
  split; [done|]. split; [done|]. split; [done|]. split; [done|].
  split; [done|]. split; [done|]. split.
  - rewrite Hdb, Hda. done.
  - intros t Ht. rewrite Hob, Hoa by done. done.
Qed.

Section Desglose.

Variable norm : string → string.
Variable mapear : Pd.DataFrame → Z → option Pd.DataFrame.
Variable formatear : string → nat → M unit.

(** A run is its reads followed by the filter, the mapping and the append. *)
Lemma guardar_desglose resultados fecha mes st headers u ids st1 :
  resultados ≠ [] →
  mes_de_fecha fecha = Some mes →
  leer_estado norm mes st = (Ok (headers, u, ids), st1) →
  guardar_en_hoja_con norm mapear formatear resultados fecha st
  = (let df := filtrar_duplicados (Pd.of_records resultados) ids in
     if Pd.empty df then ret SinNuevas
     else match mapear df u with
          | None => raise (ValueError largo_distinto)
          | Some df_out =>
              do_ Gs.append_rows mes (Pd.tolist df_out columnas_ordenadas);
              do_ formatear mes (Pd.len df_out);
              ret (Guardadas (Pd.len df_out) mes)
          end) st1.
Proof.
  intros Hne Hmes Hleer. unfold guardar_en_hoja_con.
  rewrite bool_decide_eq_false_2 by done. rewrite Hmes.
  unfold leer_estado in Hleer. unfold bind in *.
  repeat match type of Hleer with
         | context [match ?m ?s with _ => _ end] =>
             destruct (m s) as [[?|?] ?]; [|discriminate Hleer]
         end.
  unfold ret in Hleer. by simplify_eq.
Qed.

End Desglose.

(** ** The empty outcome *)

Lemma todos_guardados_sin_filas resultados ids :
  (∀ r, r ∈ resultados → ∃ s, r !! "id" = Some (VStr s) ∧ s ∈ ids) →
  Pd.filas (filtrar_duplicados (Pd.of_records resultados) ids) = [].
Proof.
  intros Hall.
  destruct (Pd.filas (filtrar_duplicados (Pd.of_records resultados) ids))
    as [|[i r] l] eqn:E; [done|].
  assert ((i, r) ∈ Pd.filas (filtrar_duplicados (Pd.of_records resultados) ids))
    as Hin by (rewrite E; left).
  assert (resultados !! i = Some r) as Hi.
  { apply filas_of_records. unfold filtrar_duplicados in Hin.
    case_bool_decide; [|done].
    by apply list_elem_of_filter in Hin as [_ Hin]. }
  destruct (Hall r) as (s & Hs & Hids); [by eapply list_elem_of_lookup_2|].
  apply (filtrar_duplicados_spec _ ids _ _ _ Hi Hs) in Hin.
  destruct Hin. eauto.
Qed.

(** C7.  When no record survives the filter, the call reports that there is
    nothing new, which is a normal return and not an exception, and the
    state it leaves is the one that the reads alone produce: no rows are
    appended, and the rows below the header are those from before the call. *)
Theorem C7_sin_nuevas
    (v : variante) (resultados : list (gmap string value))
    (fecha mes : string) (st st1 : estado)
    (headers : list string) (u : Z) (ids : gset string) :
  resultados ≠ [] →
  mes_de_fecha fecha = Some mes →
  leer_estado (norm_de v) mes st = (Ok (headers, u, ids), st1) →
  Pd.filas (filtrar_duplicados (Pd.of_records resultados) ids) = [] →
  guardar_de v resultados fecha st = (Ok SinNuevas, st1) ∧
  ∃ g1, libro st1 !! mes = Some g1 ∧
        drop 1 g1 = drop 1 (default [] (libro st !! mes)).
Proof.
  intros Hne Hmes Hleer Hvacio. split.
  - destruct v; cbn [guardar_de norm_de] in *;
      unfold Sheets.guardar_en_hoja, Scraping.guardar_en_hoja;
      rewrite (guardar_desglose _ _ _ _ _ _ _ _ _ _ _ Hne Hmes Hleer);
      cbv zeta; unfold Pd.empty; rewrite Hvacio;
      by rewrite (bool_decide_eq_true_2 (_ = [])), orb_true_r by done.
  - destruct (leer_estado_ok (norm_de v) mes st)
      as (h' & u' & ids' & st1' & g1 & Hrun & Hg1 & _ & _ & _ & _ & _ & Hd & _).
    rewrite Hleer in Hrun. simplify_eq. eauto.
Qed.

(** ** The mapping onto the columns of the sheet *)

Lemma cell_asignar_otra val r tab c :
  c ∉ tab.*1 → Pd.cell (asignar val r tab) c = Pd.cell r c.
Proof.
  revert r. induction tab as [|[c0 f0] tab IH]; intros r Hc; [done|].
  cbn in *. apply not_elem_of_cons in Hc as [Hc0 Hc].
  unfold asignar in *. cbn. rewrite IH by done.
  unfold Pd.cell. by rewrite lookup_insert_ne.
Qed.

Lemma cell_asignar val r tab c f :
  NoDup tab.*1 → (c, f) ∈ tab → Pd.cell (asignar val r tab) c = val f.
Proof.
  revert r. induction tab as [|[c0 f0] tab IH]; intros r Hnd Hin.
  - by apply elem_of_nil in Hin.
  - cbn in Hnd. apply NoDup_cons in Hnd as [Hc0 Hnd].
    apply elem_of_cons in Hin as [[= -> ->]|Hin].
    + unfold asignar. cbn. fold (asignar val (<[c0:=val f0]> r) tab).
      rewrite cell_asignar_otra by done.
      unfold Pd.cell. by rewrite lookup_insert_eq.
    + unfold asignar in *. cbn. by apply IH.
Qed.

Lemma celdas_asignar val r tab :
  NoDup tab.*1 →
  Pd.cell (asignar val r tab) <$> tab.*1 = (λ cc, val cc.2) <$> tab.
Proof.
  intros Hnd. rewrite <- list_fmap_compose. apply list_fmap_ext.
  intros i [c f] Hi. cbn. eapply cell_asignar; [done|].
  by eapply list_elem_of_lookup_2.
Qed.

Lemma traduccion_columnas : columnas_ordenadas = "Número" :: traduccion.*1.
Proof. reflexivity. Qed.

Lemma traduccion_nodup : NoDup ("Número" :: traduccion.*1).
Proof. apply (bool_decide_unpack _). by vm_compute. Qed.

(** No field of the producer is a column of the sheet. *)
Lemma traduccion_disjunta :
  Forall (λ cc, cc.2 ∉ "Número" :: traduccion.*1) traduccion.
Proof. apply (bool_decide_unpack _). by vm_compute. Qed.

Lemma completar_columnas_id d :
  (∀ c, c ∈ columnas_ordenadas → c ∈ Pd.columns d) → completar_columnas d = d.
Proof.
  unfold completar_columnas. generalize columnas_ordenadas as cols.
  induction cols as [|c cols IH]; intros Hall; [done|]. cbn.
  rewrite bool_decide_eq_true_2 by (apply Hall; left).
  apply IH. intros c' Hc'. apply Hall. by right.
Qed.

Lemma at_label_fila f l (filas : list (nat * gmap string value)) :
  Pd.at_label l ((λ lr, (lr.1, Pd.cell lr.2 f)) <$> filas)
  = (λ r, Pd.cell r f) <$> fila_de_etiqueta l filas.
Proof.
  induction filas as [|[l' r] filas IH]; [done|]. cbn.
  by case_bool_decide.
Qed.

Lemma fmap_par_id {A B} (l : list (A * B)) : (λ lr, (lr.1, lr.2)) <$> l = l.
Proof. induction l as [|[??] l IH]; [done|]. cbn. by rewrite IH. Qed.

(** One assignment of [sheets.py], row by row. *)
Lemma setitem_get_alineado df out c f :
  length (Pd.filas out) = length (Pd.filas df) →
  Pd.setitem out c (Pd.get df f (VStr ""))
  = Pd.mkDF (Pd.columns out ∪ {[c]})
      ((λ lr, (lr.1, <[c := celda_alineada df lr.1 f]> lr.2)) <$> Pd.filas out).
Proof.
  intros Hlen. unfold Pd.get, celda_alineada, Pd.setitem.
  case_bool_decide as Hf; [|done].
  destruct (Pd.filas out) as [|x l] eqn:Eo.
  - destruct (Pd.filas df); [done|discriminate Hlen].
  - f_equal. apply list_fmap_ext. intros i lr _. cbn.
    by rewrite at_label_fila.
Qed.

Lemma foldl_setitem_alineado df tab out :
  length (Pd.filas out) = length (Pd.filas df) →
  foldl (λ out cc, Pd.setitem out cc.1 (Pd.get df cc.2 (VStr ""))) out tab
  = Pd.mkDF (Pd.columns out ∪ list_to_set tab.*1)
      ((λ lr, (lr.1, asignar (celda_alineada df lr.1) lr.2 tab))
         <$> Pd.filas out).
Proof.
  revert out. induction tab as [|[c f] tab IH]; intros out Hlen.
  - cbn. rewrite union_empty_r_L, fmap_par_id. by destruct out.
  - cbn [foldl fst snd]. rewrite setitem_get_alineado by done.
    rewrite IH by (cbn; by rewrite length_fmap). cbn.
    f_equal; [by rewrite <- (assoc_L (∪)), (comm_L (∪) {[c]})|].
    by rewrite <- list_fmap_compose.
Qed.

Lemma rango_imap {A} (a : Z) (l : list A) :
  Pd.rango a (length l) = imap (λ j _, VInt (a + Z.of_nat j)) l.
Proof. unfold Pd.rango. by rewrite imap_seq_0. Qed.
Lemma length_rango a n : length (Pd.rango a n) = n.
Proof. unfold Pd.rango. by rewrite length_fmap, length_seq. Qed.

Lemma traduccion_nodup_cols : NoDup traduccion.*1.
Proof. apply (bool_decide_unpack _). by vm_compute. Qed.

Lemma traduccion_sin_numero : "Número" ∉ traduccion.*1.
Proof. apply (bool_decide_unpack _). by vm_compute. Qed.

Lemma sheets_mapear_filas df u :
  ∃ d, Sheets.mapear df u = Some d ∧
       Pd.len d = Pd.len df ∧
       Pd.tolist d columnas_ordenadas = filas_alineadas df u.
Proof.
  unfold Sheets.mapear, Pd.setitem_list. cbn [Pd.filas Pd.columns].
  eexists. split; [reflexivity|].
  rewrite foldl_setitem_alineado; last first.
  { cbn [Pd.filas]. by rewrite length_imap, length_rango. }
  rewrite completar_columnas_id; last first.
  { intros c Hc. cbn [Pd.columns]. rewrite traduccion_columnas in Hc.
    apply elem_of_cons in Hc as [->|Hc].
    - apply elem_of_union. left. apply elem_of_union. right.
      by apply elem_of_singleton.
    - apply elem_of_union. right. by apply elem_of_list_to_set. }
  unfold Pd.len, Pd.tolist, filas_alineadas. cbn [Pd.filas].
  split; [by rewrite length_fmap, length_imap, length_rango|].
  rewrite <- list_fmap_compose. unfold Pd.rango.
  rewrite imap_fmap, fmap_imap.
  rewrite (imap_ext _ (λ j _, VInt (u + 1 + Z.of_nat j)
                     :: ((λ cc, celda_alineada df j cc.2) <$> traduccion))).
  - rewrite imap_seq_0. by rewrite length_seq.
  - intros i j Hj. apply lookup_seq in Hj as [-> _]. unfold compose.
    cbn [fst snd]. rewrite traduccion_columnas. rewrite fmap_cons. 
    rewrite celdas_asignar; [|apply traduccion_nodup_cols].
    rewrite cell_asignar_otra; [|apply traduccion_sin_numero].
    unfold Pd.cell. by rewrite lookup_singleton_eq.
Qed.

Lemma fila_de_etiqueta_elem l r (filas : list (nat * gmap string value)) :
  NoDup filas.*1 → (l, r) ∈ filas → fila_de_etiqueta l filas = Some r.
Proof.
  induction filas as [|[l' r'] filas IH]; intros Hnd Hin.
  - by apply elem_of_nil in Hin.
  - cbn in *. apply NoDup_cons in Hnd as [Hl' Hnd].
    apply elem_of_cons in Hin as [[= -> ->]|Hin].
    + by rewrite bool_decide_eq_true_2.
    + rewrite bool_decide_eq_false_2; [by apply IH|].
      intros ->. apply Hl'. apply list_elem_of_fmap. by exists (l, r).
Qed.

Lemma fmap_fst_par {A B C} (h : A * B → C) (l : list (A * B)) :
  ((λ lr, (lr.1, h lr)) <$> l).*1 = l.*1.
Proof. induction l as [|[??] l IH]; [done|]. cbn. by rewrite IH. Qed.

(** One assignment of [scraping.py], row by row. *)
Lemma setitem_get_propio d c f :
  NoDup (etiquetas d) →
  Pd.setitem d c (Pd.get d f (VStr ""))
  = Pd.mkDF (Pd.columns d ∪ {[c]})
      ((λ lr, (lr.1, <[c := if bool_decide (f ∈ Pd.columns d)
                            then Pd.cell lr.2 f else VStr ""]> lr.2))
         <$> Pd.filas d).
Proof.
  intros Hnd. unfold Pd.get, Pd.setitem.
  case_bool_decide as Hf; [|done].
  destruct (Pd.filas d) as [|x l] eqn:Eo; [done|].
  f_equal. apply list_fmap_ext. intros i [lab r] Hi. cbn [fst snd].
  rewrite at_label_fila, <- Eo.
  erewrite fila_de_etiqueta_elem; [done|exact Hnd|].
  rewrite Eo. by eapply list_elem_of_lookup_2.
Qed.

Lemma asignar_ext val1 val2 r tab :
  (∀ cc, cc ∈ tab → val1 cc.2 = val2 cc.2) →
  asignar val1 r tab = asignar val2 r tab.
Proof.
  revert r. induction tab as [|cc tab IH]; intros r Hext; [done|].
  unfold asignar in *. cbn. rewrite (Hext cc) by left.
  apply IH. intros cc' Hcc'. apply Hext. by right.
Qed.

Lemma asignar_cons val r cc tab :
  asignar val r (cc :: tab) = asignar val (<[cc.1 := val cc.2]> r) tab.
Proof. reflexivity. Qed.

Lemma foldl_setitem_propio tab d :
  NoDup (etiquetas d) →
  Forall (λ cc, cc.2 ∉ tab.*1) tab →
  foldl (λ d cc, Pd.setitem d cc.1 (Pd.get d cc.2 (VStr ""))) d tab
  = Pd.mkDF (Pd.columns d ∪ list_to_set tab.*1)
      ((λ lr, (lr.1, asignar (λ f, if bool_decide (f ∈ Pd.columns d)
                                   then Pd.cell lr.2 f else VStr "")
                             lr.2 tab))
         <$> Pd.filas d).
Proof.
  revert d. induction tab as [|[c f] tab IH]; intros d Hnd Hdis.
  - cbn. rewrite union_empty_r_L, fmap_par_id. by destruct d.
  - cbn [foldl fst snd]. rewrite setitem_get_propio by done.
    apply Forall_cons in Hdis as [_ Hdis].
    rewrite IH; last first.
    { eapply Forall_impl; [exact Hdis|]. intros cc Hcc Hin. apply Hcc.
      cbn. by right. }
    { unfold etiquetas in *. cbn [Pd.filas]. by rewrite fmap_fst_par. }
    cbn [Pd.columns Pd.filas fmap list_fmap fst snd].
    f_equal; [cbn; by rewrite <- (assoc_L (∪))|].
    rewrite <- list_fmap_compose. apply list_fmap_ext.
    intros i [lab r] _. unfold compose. cbn [fst snd]. f_equal.
    rewrite asignar_cons. cbn [fst snd].
    apply asignar_ext. intros [c' f'] Hcc. cbn [snd].
    assert (f' ≠ c) as Hne.
    { rewrite Forall_forall in Hdis. specialize (Hdis _ Hcc). cbn in Hdis.
      intros ->. apply Hdis. left. }
    unfold Pd.cell. rewrite lookup_insert_ne by done.
    rewrite (bool_decide_ext (f' ∈ Pd.columns d ∪ {[c]}) (f' ∈ Pd.columns d));
      [done|].
    rewrite elem_of_union, elem_of_singleton. tauto.
Qed.

Lemma zip_with_seq {A B C} (g : A → B → C) (h : nat → B) (l : list A) a :
  zip_with g l (h <$> seq a (length l)) = imap (λ j x, g x (h (a + j)%nat)) l.
Proof.
  revert a. induction l as [|x l IH]; intros a; [done|]. cbn.
  rewrite Nat.add_0_r. f_equal. rewrite IH. apply imap_ext.
  intros i y _. cbn. do 2 f_equal. lia.
Qed.

Lemma setitem_list_rango df c a :
  Pd.setitem_list df c (Pd.rango a (Pd.len df))
  = Some (Pd.mkDF (Pd.columns df ∪ {[c]})
            (imap (λ j lr, (lr.1, <[c := VInt (a + Z.of_nat j)]> lr.2))
                  (Pd.filas df))).
Proof.
  unfold Pd.setitem_list, Pd.len.
  destruct (Pd.filas df) as [|x l] eqn:E; [done|].
  rewrite length_rango, bool_decide_eq_true_2 by done.
  unfold Pd.rango. by rewrite zip_with_seq.
Qed.

Lemma imap_fst_par {A B C} (h : nat → A * B → C) (l : list (A * B)) :
  (imap (λ j lr, (lr.1, h j lr)) l).*1 = l.*1.
Proof.
  revert h. induction l as [|[??] l IH]; intros h; [done|].
  cbn. f_equal. apply (IH (λ j, h (S j))).
Qed.

(** What [scraping.py] sends to the service. *)
Lemma scraping_mapear_filas df u :
  NoDup (etiquetas df) →
  ∃ d, Scraping.mapear df u = Some d ∧
       Pd.len d = Pd.len df ∧
       Pd.tolist d columnas_ordenadas = filas_esperadas df u.
Proof.
  intros Hnd. unfold Scraping.mapear. rewrite setitem_list_rango.
  eexists. split; [reflexivity|].
  rewrite foldl_setitem_propio; last first.
  { pose proof traduccion_disjunta as Hd.
    eapply Forall_impl; [exact Hd|]. intros cc Hcc Hin. apply Hcc.
    by right. }
  { unfold etiquetas at 1. cbn [Pd.filas].
    by rewrite (imap_fst_par
                  (λ j lr, <["Número":=VInt (u + 1 + Z.of_nat j)]> lr.2)). }
  cbn [Pd.columns Pd.filas].
  rewrite completar_columnas_id; last first.
  { intros c Hc. cbn [Pd.columns]. rewrite traduccion_columnas in Hc.
    apply elem_of_cons in Hc as [->|Hc].
    - apply elem_of_union. left. apply elem_of_union. right.
      by apply elem_of_singleton.
    - apply elem_of_union. right. by apply elem_of_list_to_set. }
  unfold Pd.len, Pd.tolist, filas_esperadas. cbn [Pd.filas].
  split; [by rewrite length_fmap, length_imap|].
  rewrite <- list_fmap_compose, fmap_imap. apply imap_ext.
  intros j [lab r] _. unfold compose. cbn [fst snd].
  rewrite traduccion_columnas, fmap_cons.
  rewrite celdas_asignar; [|apply traduccion_nodup_cols].
  rewrite cell_asignar_otra; [|apply traduccion_sin_numero].
  unfold Pd.cell at 1. rewrite lookup_insert_eq. cbn [default].
  f_equal. unfold campos. apply list_fmap_ext. intros i [c f] Hi.
  cbn [snd].
  assert (f ≠ "Número") as Hne.
  { pose proof traduccion_disjunta as Hd. rewrite Forall_forall in Hd.
    specialize (Hd (c, f) (list_elem_of_lookup_2 _ _ _ Hi)). cbn in Hd.
    intros ->. apply Hd. left. }
  unfold Pd.cell. rewrite lookup_insert_ne by done.
  rewrite (bool_decide_ext (f ∈ Pd.columns df ∪ {["Número"]})
             (f ∈ Pd.columns df)); [done|].
  rewrite elem_of_union, elem_of_singleton. tauto.
Qed.

(** ** When the rows of [sheets.py] are the expected ones *)

Lemma sin_nan_spec filas :
  sin_nan filas ↔ ∀ fila v, fila ∈ filas → v ∈ fila → v ≠ VNaN.
Proof.
  unfold sin_nan. split.
  - intros Hno fila v Hf Hv ->.
    assert (existsb (existsb Gs.es_nan) filas = true) as Hyes; [|congruence].
    apply existsb_exists. exists fila. split; [by apply list_elem_of_In|].
    apply existsb_exists. exists VNaN. split; [by apply list_elem_of_In|done].
  - intros Hall. destruct (existsb (existsb Gs.es_nan) filas) eqn:E; [|done].
    apply existsb_exists in E as (fila & Hf%list_elem_of_In & E).
    apply existsb_exists in E as (v & Hv%list_elem_of_In & E).
    destruct v; try discriminate E. by destruct (Hall fila VNaN).
Qed.

Lemma crecientes_completas (l : list nat) (a : nat) :
  StronglySorted lt l →
  (∀ x, x ∈ l → (a ≤ x)%nat) →
  (∀ j, (a ≤ j < a + length l)%nat → j ∈ l) →
  l = seq a (length l).
Proof.
  revert a. induction l as [|x l IH]; intros a Hs Hlo Hall; [done|].
  apply StronglySorted_cons in Hs as [Hx Hs]. rewrite Forall_forall in Hx.
  assert (x = a) as ->.
  { assert (a ∈ x :: l) as Ha by (apply Hall; cbn; lia).
    apply elem_of_cons in Ha as [->|Ha]; [done|].
    specialize (Hx _ Ha). specialize (Hlo x ltac:(left)). lia. }
  cbn. f_equal. apply IH; [done| |].
  - intros y Hy. specialize (Hx _ Hy). lia.
  - intros j Hj. assert (j ∈ a :: l) as Hin by (apply Hall; cbn; lia).
    apply elem_of_cons in Hin as [->|Hin]; [lia|done].
Qed.

Lemma crecientes_nodup (l : list nat) : StronglySorted lt l → NoDup l.
Proof.
  induction l as [|x l IH]; intros Hs; [constructor|].
  apply StronglySorted_cons in Hs as [Hx Hs]. rewrite Forall_forall in Hx.
  constructor; [|by apply IH]. intros Hin. specialize (Hx _ Hin). lia.
Qed.

Lemma fila_de_etiqueta_None l (filas : list (nat * gmap string value)) :
  fila_de_etiqueta l filas = None → l ∉ filas.*1.
Proof.
  induction filas as [|[l' r] filas IH]; intros Hn Hin.
  - by apply elem_of_nil in Hin.
  - cbn in *. case_bool_decide as Hl; [done|].
    apply elem_of_cons in Hin as [->|Hin]; [done|]. by apply IH.
Qed.

Lemma celda_alineada_presente df j f :
  f ∈ Pd.columns df → celda_alineada df j f ≠ VNaN → j ∈ etiquetas df.
Proof.
  intros Hf Hv. unfold celda_alineada in Hv.
  rewrite bool_decide_eq_true_2 in Hv by done.
  destruct (fila_de_etiqueta j (Pd.filas df)) as [r|] eqn:E; [|done].
  destruct (decide (j ∈ etiquetas df)) as [|Hn]; [done|].
  clear Hv. exfalso. revert E. unfold etiquetas in Hn.
  induction (Pd.filas df) as [|[l' r'] filas IH]; [done|]. cbn in *.
  apply not_elem_of_cons in Hn as [Hne Hn].
  rewrite bool_decide_eq_false_2 by done. by apply IH.
Qed.

Lemma alineadas_esperadas df u :
  StronglySorted lt (etiquetas df) →
  sin_nan (filas_alineadas df u) →
  filas_alineadas df u = filas_esperadas df u.
Proof.
  intros Hs Hnan. rewrite sin_nan_spec in Hnan.
  unfold filas_alineadas, filas_esperadas, Pd.len.
  rewrite <- (imap_seq_0 (Pd.filas df)). apply imap_ext.
  intros j [lab r] Hj. cbn [snd]. f_equal. unfold campos.
  destruct (decide (Exists (λ cc, cc.2 ∈ Pd.columns df) traduccion))
    as [Hex|Hno].
  - apply Exists_exists in Hex as ([c f] & Hcf & Hf). cbn in Hf.
    assert (etiquetas df = seq 0 (length (etiquetas df))) as Hseq.
    { apply crecientes_completas; [done|lia|]. intros i Hi.
      apply (celda_alineada_presente df i f Hf).
      apply (Hnan (VInt (u + 1 + Z.of_nat i)
                   :: ((λ cc, celda_alineada df i cc.2) <$> traduccion))).
      - unfold filas_alineadas. apply list_elem_of_fmap. exists i.
        split; [done|]. apply elem_of_seq. unfold Pd.len, etiquetas in *.
        rewrite length_fmap in Hi. lia.
      - right. apply list_elem_of_fmap. by exists (c, f). }
    assert (lab = j) as ->.
    { assert (etiquetas df !! j = Some lab) as Hl
        by (unfold etiquetas; by rewrite list_lookup_fmap, Hj).
      rewrite Hseq in Hl. apply lookup_seq in Hl as [-> _]. done. }
    apply list_fmap_ext. intros i cc _. unfold celda_alineada.
    erewrite fila_de_etiqueta_elem;
      [done|by apply crecientes_nodup|by eapply list_elem_of_lookup_2].
  - apply list_fmap_ext. intros i cc Hi. unfold celda_alineada.
    rewrite bool_decide_eq_false_2; [done|].
    intros Hin. apply Hno, Exists_exists. exists cc.
    split; [by eapply list_elem_of_lookup_2|done].
Qed.


(** ** The labels of the frame that a run maps *)

Lemma seq_creciente a n : StronglySorted lt (seq a n).
Proof.
  revert a. induction n as [|n IH]; intros a; [constructor|].
  cbn. apply StronglySorted_cons. split; [|apply IH].
  apply Forall_forall. intros x Hx%elem_of_seq. lia.
Qed.

Lemma etiquetas_of_records resultados :
  etiquetas (Pd.of_records resultados) = seq 0 (length resultados).
Proof.
  unfold etiquetas. cbn [Pd.of_records Pd.filas].
  rewrite fmap_imap. unfold compose. cbn [fst].
  etrans; [apply (imap_seq_0 _ (λ j, j))|apply list_fmap_id].
Qed.

Lemma creciente_filter {B} (P : nat * B → Prop) `{!∀ x, Decision (P x)}
    (l : list (nat * B)) :
  StronglySorted lt l.*1 → StronglySorted lt (filter P l).*1.
Proof.
  induction l as [|x l IH]; intros Hs; [constructor|].
  cbn in Hs. apply StronglySorted_cons in Hs as [Hx Hs].
  rewrite filter_cons. destruct (decide (P x)); [|by apply IH].
  cbn. apply StronglySorted_cons. split; [|by apply IH].
  rewrite Forall_forall in *. intros y Hy. apply Hx.
  apply list_elem_of_fmap in Hy as (z & -> & Hz).
  apply list_elem_of_filter in Hz as [_ Hz].
  apply list_elem_of_fmap. eauto.
Qed.

Lemma etiquetas_filtrar resultados ids :
  StronglySorted lt
    (etiquetas (filtrar_duplicados (Pd.of_records resultados) ids)).
Proof.
  unfold filtrar_duplicados. case_bool_decide.
  - unfold etiquetas, Pd.drop_isin. cbn [Pd.filas].
    apply creciente_filter.
    fold (etiquetas (Pd.of_records resultados)).
    rewrite etiquetas_of_records. apply seq_creciente.
  - rewrite etiquetas_of_records. apply seq_creciente.
Qed.

(** ** The append and the colouring *)

Lemma serializable_sin_nan filas : serializable filas → sin_nan filas.
Proof.
  unfold serializable, sin_nan. intros Hs.
  destruct (existsb (existsb Gs.es_nan) filas) eqn:E; [|done].
  apply existsb_exists in E as (fila & Hf & E).
  apply existsb_exists in E as (v & Hv & E).
  assert (existsb (existsb Gs.no_json) filas = true) as Hyes; [|congruence].
  apply existsb_exists. exists fila. split; [done|].
  apply existsb_exists. exists v. split; [done|]. by destruct v.
Qed.

Lemma serializable_spec filas :
  serializable filas ↔ ∀ fila v, fila ∈ filas → v ∈ fila → Gs.no_json v = false.
Proof.
  unfold serializable. split.
  - intros Hno fila v Hf Hv.
    destruct (Gs.no_json v) eqn:E; [|done].
    assert (existsb (existsb Gs.no_json) filas = true) as Hyes; [|congruence].
    apply existsb_exists. exists fila. split; [by apply list_elem_of_In|].
    apply existsb_exists. exists v. split; [by apply list_elem_of_In|done].
  - intros Hall. destruct (existsb (existsb Gs.no_json) filas) eqn:E; [|done].
    apply existsb_exists in E as (fila & Hf%list_elem_of_In & E).
    apply existsb_exists in E as (v & Hv%list_elem_of_In & E).
    by rewrite (Hall fila v) in E.
Qed.

Lemma append_rows_ok mes nuevas st g :
  libro st !! mes = Some g →
  serializable nuevas →
  Gs.append_rows mes nuevas st
  = (Ok tt, {| libro := <[mes := g ++ (Gs.texto_fila <$> nuevas)]> (libro st);
               traza := traza st
                        ++ [EvAppendRows mes (Gs.texto_fila <$> nuevas)] |}).
Proof.
  intros Hg Hnan. unfold Gs.append_rows. rewrite Hnan.
  unfold bind, Gs.registrar, Gs.leer_hoja, Gs.poner_hoja. cbn.
  by rewrite Hg.
Qed.

Lemma append_rows_no mes nuevas st :
  ¬ serializable nuevas →
  Gs.append_rows mes nuevas st = (Raise InvalidJSONError, st).
Proof.
  intros Hnan. unfold Gs.append_rows, serializable in *.
  by destruct (existsb (existsb Gs.no_json) nuevas).
Qed.

Lemma append_rows_nan mes nuevas st :
  ¬ sin_nan nuevas →
  Gs.append_rows mes nuevas st = (Raise InvalidJSONError, st).
Proof.
  intros Hnan. apply append_rows_no. intros Hs.
  by apply Hnan, serializable_sin_nan.
Qed.

Lemma para_cada_ok {A} (f : A → M unit) (l : list A) mes g st :
  (∀ x st, x ∈ l → libro st !! mes = Some g →
           ∃ st', f x st = (Ok tt, st') ∧ libro st' = libro st) →
  libro st !! mes = Some g →
  ∃ st', para_cada f l st = (Ok tt, st') ∧ libro st' = libro st.
Proof.
  revert st. induction l as [|x l IH]; intros st Hf Hg.
  - by exists st.
  - cbn. unfold bind. destruct (Hf x st) as (st1 & -> & H1); [left|done|].
    destruct (IH st1) as (st2 & -> & H2).
    + intros y st' Hy. apply Hf. by right.
    + by rewrite H1.
    + exists st2. split; [done|]. by rewrite H2.
Qed.

Lemma formatear_ok mes n st g :
  libro st !! mes = Some g →
  ∃ st', Scraping.formatear mes n st = (Ok tt, st') ∧ libro st' = libro st.
Proof.
  intros Hg. unfold Scraping.formatear, bind at 1.
  unfold Gs.get_all_values, bind, Gs.registrar, Gs.leer_hoja. cbn [libro con_evento].
  rewrite Hg. unfold ret.
  change (libro st) with (libro (con_evento st (EvGetAllValues mes))).
  eapply (para_cada_ok _ _ mes g); [|done].
  intros nombre st0 Hin Hg0.
  assert (is_Some (posicion nombre columnas_ordenadas 0)) as [i ->].
  { unfold Scraping.cols_format in Hin.
    repeat (apply elem_of_cons in Hin as [->|Hin]; [by eexists|]).
    by apply elem_of_nil in Hin. }
  eapply (para_cada_ok _ _ mes g); [|done].
  intros r st1 _ Hg1. unfold bind, Gs.acell, bind, Gs.registrar, Gs.leer_hoja.
  cbn [libro con_evento]. rewrite Hg1. unfold ret, Gs.format, Gs.registrar.
  eexists. split; [reflexivity|done].
Qed.

(** ** What a run does after its reads *)

(** When some record survives, a run in either file ends in one of two
    ways: it appends the expected rows below the stored ones and reports
    their count, or the payload has a cell that JSON cannot hold and the
    append raises with nothing stored. *)
Lemma guardar_resultado v resultados fecha mes st headers u ids st1 g1 :
  resultados ≠ [] →
  mes_de_fecha fecha = Some mes →
  leer_estado (norm_de v) mes st = (Ok (headers, u, ids), st1) →
  libro st1 !! mes = Some g1 →
  Pd.empty (filtrar_duplicados (Pd.of_records resultados) ids) = false →
  (∃ st2,
     guardar_de v resultados fecha st
     = (Ok (Guardadas
              (Pd.len (filtrar_duplicados (Pd.of_records resultados) ids))
              mes), st2) ∧
     serializable (filas_esperadas
                (filtrar_duplicados (Pd.of_records resultados) ids) u) ∧
     libro st2
     = <[mes := g1 ++ (Gs.texto_fila
                         <$> filas_esperadas
                               (filtrar_duplicados (Pd.of_records resultados)
                                  ids) u)]> (libro st1)) ∨
  guardar_de v resultados fecha st = (Raise InvalidJSONError, st1).
Proof.
  intros Hne Hmes Hleer Hg1 Hemp.
  set (df := filtrar_duplicados (Pd.of_records resultados) ids) in *.
  pose proof (etiquetas_filtrar resultados ids) as Hs. fold df in Hs.
  destruct v; cbn [guardar_de norm_de] in *.
  - unfold Sheets.guardar_en_hoja.
    rewrite (guardar_desglose _ _ _ _ _ _ _ _ _ _ _ Hne Hmes Hleer).
    cbv zeta. fold df. rewrite Hemp.
    destruct (sheets_mapear_filas df u) as (d & -> & Hlen & Hfilas).
    rewrite Hfilas, Hlen.
    destruct (existsb (existsb Gs.no_json) (filas_alineadas df u)) eqn:En.
    + right. unfold bind at 1.
      rewrite append_rows_no; [done|]. unfold serializable. congruence.
    + left. unfold bind at 1. rewrite (append_rows_ok _ _ _ g1) by done.
      rewrite alineadas_esperadas in * by (try done; by apply serializable_sin_nan).
      eexists. split; [reflexivity|]. split; [done|]. done.
  - unfold Scraping.guardar_en_hoja.
    rewrite (guardar_desglose _ _ _ _ _ _ _ _ _ _ _ Hne Hmes Hleer).
    cbv zeta. fold df. rewrite Hemp.
    destruct (scraping_mapear_filas df u) as (d & -> & Hlen & Hfilas);
      [by apply crecientes_nodup|].
    rewrite Hfilas, Hlen.
    destruct (existsb (existsb Gs.no_json) (filas_esperadas df u)) eqn:En.
    + right. unfold bind at 1.
      rewrite append_rows_no; [done|]. unfold serializable. congruence.
    + left. unfold bind at 1. rewrite (append_rows_ok _ _ _ g1) by done.
      unfold bind at 1.
      edestruct (formatear_ok mes (Pd.len df)) as (st2 & -> & Hl2);
        [cbn; apply lookup_insert_eq|].
      exists st2. split; [done|]. split; [done|]. by rewrite Hl2.
Qed.

(** A run that reports saved rows had a frame of survivors that was not
    empty, and it appended the expected rows. *)
Lemma guardar_guardadas v resultados fecha mes st headers u ids st1 n mes' st2 :
  mes_de_fecha fecha = Some mes →
  leer_estado (norm_de v) mes st = (Ok (headers, u, ids), st1) →
  guardar_de v resultados fecha st = (Ok (Guardadas n mes'), st2) →
  n = Pd.len (filtrar_duplicados (Pd.of_records resultados) ids) ∧
  mes' = mes ∧
  serializable (filas_esperadas
             (filtrar_duplicados (Pd.of_records resultados) ids) u) ∧
  ∃ g1,
    libro st1 !! mes = Some g1 ∧ g1 ≠ [] ∧
    libro st2
    = <[mes := g1 ++ (Gs.texto_fila
                        <$> filas_esperadas
                              (filtrar_duplicados (Pd.of_records resultados)
                                 ids) u)]> (libro st1).
Proof.
  intros Hmes Hleer Hrun.
  assert (resultados ≠ []) as Hne.
  { intros ->. by destruct v. }
  destruct (leer_estado_ok (norm_de v) mes st)
    as (h' & u' & ids' & st1' & g1 & Hleer' & Hg1 & Hg1ne & _).
  rewrite Hleer in Hleer'. simplify_eq.
  destruct (Pd.empty (filtrar_duplicados (Pd.of_records resultados) ids'))
    eqn:Hemp.
  - exfalso. destruct v; cbn [guardar_de norm_de] in *;
      unfold Sheets.guardar_en_hoja, Scraping.guardar_en_hoja in Hrun;
      rewrite (guardar_desglose _ _ _ _ _ _ _ _ _ _ _ Hne Hmes Hleer) in Hrun;
      cbv zeta in Hrun; rewrite Hemp in Hrun; discriminate Hrun.
  - destruct (guardar_resultado v _ _ _ _ _ _ _ _ g1 Hne Hmes Hleer Hg1 Hemp)
      as [(st2' & Hrun' & Hnan & Hlibro)|Hrun'];
      rewrite Hrun in Hrun'; [|discriminate Hrun'].
    simplify_eq. eauto 10.
Qed.


Lemma lookup_filas_esperadas df u j lr :
  Pd.filas df !! j = Some lr →
  (Gs.texto_fila <$> filas_esperadas df u) !! j
  = Some (pretty (u + 1 + Z.of_nat j) :: (Gs.texto <$> campos df lr.2)).
Proof.
  intros Hj. unfold filas_esperadas.
  by rewrite list_lookup_fmap, list_lookup_imap, Hj.
Qed.

Lemma filas_filtrar_origen resultados ids l r :
  (l, r) ∈ Pd.filas (filtrar_duplicados (Pd.of_records resultados) ids) →
  resultados !! l = Some r.
Proof.
  intros Hin. apply filas_of_records. unfold filtrar_duplicados in Hin.
  case_bool_decide; [|done]. by apply list_elem_of_filter in Hin as [_ Hin].
Qed.

(** C3.  When a call reports [n] saved rows, [n] is the number of records
    that survived the filter, the rows appended below the stored ones are
    [n], and the row at position [j] (from 0) carries the number
    [u + 1 + j], where [u] is the last number that the run recovered, together
    with the fields of the record at position [j] among the survivors.  The
    survivors stand in the order of the incoming list: each one is the
    incoming record at its label, and the labels increase down the rows. *)
Theorem C3_numeros_consecutivos
    (v : variante) (resultados : list (gmap string value))
    (fecha mes mes' : string) (st st1 st2 : estado)
    (headers : list string) (u : Z) (ids : gset string) (n : nat) :
  mes_de_fecha fecha = Some mes →
  leer_estado (norm_de v) mes st = (Ok (headers, u, ids), st1) →
  guardar_de v resultados fecha st = (Ok (Guardadas n mes'), st2) →
  let df := filtrar_duplicados (Pd.of_records resultados) ids in
  n = length (Pd.filas df) ∧
  StronglySorted lt (etiquetas df) ∧
  (∀ l r, (l, r) ∈ Pd.filas df → resultados !! l = Some r) ∧
  ∃ g1 nuevas,
    libro st1 !! mes = Some g1 ∧
    libro st2 !! mes = Some (g1 ++ nuevas) ∧
    length nuevas = n ∧
    ∀ j lr, Pd.filas df !! j = Some lr →
            nuevas !! j
            = Some (pretty (u + 1 + Z.of_nat j)
                    :: (Gs.texto <$> campos df lr.2)).
Proof.
  intros Hmes Hleer Hrun df.
  destruct (guardar_guardadas _ _ _ _ _ _ _ _ _ _ _ _ Hmes Hleer Hrun)
    as (-> & -> & _ & g1 & Hg1 & _ & Hl2).
  split; [done|]. split; [apply etiquetas_filtrar|].
  split; [apply filas_filtrar_origen|].
  exists g1, (Gs.texto_fila <$> filas_esperadas df u).
  split; [done|]. split; [rewrite Hl2; apply lookup_insert_eq|].
  split.
  - unfold filas_esperadas. by rewrite length_fmap, length_imap.
  - intros j lr Hj. by apply lookup_filas_esperadas.
Qed.

Lemma campos_id df r :
  "id" ∈ Pd.columns df → campos df r !! 2%nat = Some (Pd.cell r "id").
Proof.
  intros Hid. unfold campos, traduccion. cbn.
  by rewrite bool_decide_eq_true_2.
Qed.

Lemma fila_id df r (x : string) :
  "id" ∈ Pd.columns df →
  (x :: (Gs.texto <$> campos df r)) !! 3%nat
  = Some (Gs.texto (Pd.cell r "id")).
Proof.
  intros Hid.
  change ((Gs.texto <$> campos df r) !! 2%nat
          = Some (Gs.texto (Pd.cell r "id"))).
  by rewrite list_lookup_fmap, campos_id.
Qed.


(** ** Running twice *)

(** On a worksheet whose header lacks no expected name, the reads leave the
    workbook as it is and return the header that is there. *)
Lemma leer_estado_estable norm mes st g h :
  libro st !! mes = Some g →
  Gs.sin_vacias_finales (nth 0 g []) = h →
  h ≠ [] →
  faltantes_de h columnas_ordenadas = [] →
  ∃ u ids st2,
    leer_estado norm mes st = (Ok (h, u, ids), st2) ∧
    libro st2 = libro st ∧
    ∀ s, s ∈ ids ↔
         s ≠ "" ∧
         ∃ idx fila, _find_header_idx norm h alias_id = Some idx ∧
                     fila ∈ drop 1 g ∧ Py.strip (nth idx fila "") = s.
Proof.
  intros Hg Hh Hne Hf.
  unfold leer_estado, bind at 1, Gs.conectar_google_sheets, Gs.registrar.
  unfold bind at 1, abrir_o_crear, catch. rewrite worksheet_run.
  cbn [libro con_evento]. rewrite Hg.
  unfold bind at 1, _asegurar_encabezados, bind at 1.
  rewrite (row_values_ok _ _ _ g) by done. cbn [Nat.sub]. rewrite Hh.
  destruct h as [|h0 hs]; [done|]. rewrite Hf. unfold ret at 1.
  unfold bind at 1.
  edestruct (ultimo_numero_ok norm mes (h0 :: hs)) as (u & stc & -> & Hlc);
    [cbn; exact Hg|].
  unfold bind at 1.
  edestruct (ids_existentes_ok norm mes (h0 :: hs) stc g)
    as (ids & std & -> & Hld & Hids); [by rewrite Hlc|].
  exists u, ids, std. split; [done|]. split; [by rewrite Hld, Hlc|done].
Qed.

Lemma guardar_vacio v fecha st :
  guardar_de v [] fecha st = (Ok SinResultados, st).
Proof. by destruct v. Qed.

(** An identifier with a blank at its end is stored as it comes and read
    back trimmed, so the same record is taken for a new one again. *)
Example id_con_blanco_final_se_repite :
  let r := Ej.registro ("A1" +:+ Py.chr 160) "X" in
  let st1 := (Scraping.guardar_en_hoja [r] "2024-08-15" Ej.vacio).2 in
  (_ids_existentes Scraping._normaliza "August" columnas_ordenadas st1).1
  = Ok {["A1"]} ∧
  (Scraping.guardar_en_hoja [r] "2024-08-15" st1).1
  = Ok (Guardadas 1 "August").
Proof. by vm_compute. Qed.

(** C1, as amended.  Take records that all carry a string identifier which
    is not empty and has no blank at either end, and a worksheet where the
    identifier column of the reconciled header is the fourth one, which is
    where an appended row holds the identifier.  If a first call returns
    without raising, a second call with the same records and date from the
    state that the first one left finds every identifier stored, reports
    that there is nothing new (nothing to save when the list is empty) and
    leaves the workbook as the first call left it. *)
Theorem C1_segunda_vez_sin_cambios
    (v : variante) (resultados : list (gmap string value))
    (fecha mes : string) (st st' st1 : estado)
    (headers : list string) (u : Z) (ids : gset string) (o1 : salida) :
  mes_de_fecha fecha = Some mes →
  (∀ r, r ∈ resultados →
        ∃ s, r !! "id" = Some (VStr s) ∧ s ≠ "" ∧ Py.strip s = s) →
  leer_estado (norm_de v) mes st = (Ok (headers, u, ids), st') →
  _find_header_idx (norm_de v) headers alias_id = Some 3%nat →
  guardar_de v resultados fecha st = (Ok o1, st1) →
  ∃ st2,
    guardar_de v resultados fecha st1
    = (Ok (match resultados with [] => SinResultados | _ => SinNuevas end),
       st2) ∧
    libro st2 = libro st1.
Proof.
  intros Hmes Hrec Hleer Hidx Hrun.
  destruct (decide (resultados = [])) as [->|Hne].
  { rewrite guardar_vacio in Hrun. simplify_eq.
    exists st1. by rewrite guardar_vacio. }
  set (df := filtrar_duplicados (Pd.of_records resultados) ids).
  destruct (leer_estado_ok (norm_de v) mes st)
    as (h' & u' & ids' & st'' & g1 & Hleer' & Hg1 & Hg1ne & Hh & Hhne & Hf
        & Hids & _ & _).
  rewrite Hleer in Hleer'. simplify_eq.
  (* the grid that the first call leaves: the rows of [g1] and then [X] *)
  assert (∃ X, libro st1 !! mes = Some (g1 ++ X) ∧
               ∀ p lr, Pd.filas df !! p = Some lr →
                       X !! p = Some (pretty (u' + 1 + Z.of_nat p)
                                      :: (Gs.texto <$> campos df lr.2)))
    as (X & Hst1 & HX).
  { destruct (Pd.empty df) eqn:Hemp.
    - exists []. rewrite app_nil_r.
      assert (guardar_de v resultados fecha st = (Ok SinNuevas, st'')) as Hrun'.
      { destruct v; cbn [guardar_de norm_de] in *;
          unfold Sheets.guardar_en_hoja, Scraping.guardar_en_hoja;
          rewrite (guardar_desglose _ _ _ _ _ _ _ _ _ _ _ Hne Hmes Hleer);
          cbv zeta; fold df; by rewrite Hemp. }
      rewrite Hrun in Hrun'. simplify_eq. split; [done|].
      intros p lr Hp. exfalso.
      unfold Pd.empty in Hemp. apply orb_prop in Hemp as [Hc|Hfil].
      + apply bool_decide_eq_true in Hc.
        destruct resultados as [|r0 rs]; [done|].
        destruct (Hrec r0) as (s & Hs & _); [left|].
        assert ("id" ∈ Pd.columns (Pd.of_records (r0 :: rs))) as Hid.
        { apply columns_of_records. exists r0. split; [left|by rewrite Hs]. }
        unfold df, filtrar_duplicados in Hc.
        rewrite bool_decide_eq_true_2 in Hc by done.
        cbn [Pd.drop_isin Pd.columns] in Hc. rewrite Hc in Hid.
        by apply not_elem_of_empty in Hid.
      + apply bool_decide_eq_true in Hfil. by rewrite Hfil in Hp.
    - destruct (guardar_resultado v _ _ _ _ _ _ _ _ g1 Hne Hmes Hleer Hg1 Hemp)
        as [(st2' & Hrun' & Hnan & Hlibro)|Hrun'];
        rewrite Hrun in Hrun'; [|discriminate Hrun'].
      simplify_eq. exists (Gs.texto_fila <$> filas_esperadas df u').
      split; [rewrite Hlibro; apply lookup_insert_eq|].
      intros p lr Hp. by apply lookup_filas_esperadas. }
  (* the reads of the second call *)
  destruct (leer_estado_estable (norm_de v) mes st1 (g1 ++ X)
              (Gs.sin_vacias_finales (nth 0 g1 [])))
    as (u2 & ids2 & st2 & Hleer2 & Hl2 & Hids2); [done| |done|done|].
  { by destruct g1. }
  (* every identifier of the batch is stored by now *)
  assert (Pd.filas (filtrar_duplicados (Pd.of_records resultados) ids2) = [])
    as Hvacio.
  { apply todos_guardados_sin_filas. intros r Hr.
    destruct (Hrec r Hr) as (s & Hs & Hsne & Hstrip).
    exists s. split; [done|]. apply Hids2. split; [done|].
    exists 3%nat. apply list_elem_of_lookup in Hr as [i Hi].
    assert (drop 1 (g1 ++ X) = drop 1 g1 ++ X) as ->.
    { destruct g1; [done|]. cbn. by rewrite drop_0. }
    destruct (decide (s ∈ ids')) as [Hin|Hout].
    - apply Hids in Hin as (_ & idx & fila & Hidx' & Hfila & Hst).
      rewrite Hidx in Hidx'. simplify_eq.
      exists fila. split; [done|]. split; [|done].
      apply elem_of_app. by left.
    - assert ((i, r) ∈ Pd.filas df) as Hsurv.
      { apply (filtrar_duplicados_spec _ ids' _ _ _ Hi Hs).
        intros (s' & [= <-] & Hin). done. }
      apply list_elem_of_lookup in Hsurv as [p Hp].
      eexists. split; [done|]. split.
      + apply elem_of_app. right. eapply list_elem_of_lookup_2.
        apply (HX p _ Hp).
      + assert ("id" ∈ Pd.columns df) as Hid.
        { unfold df, filtrar_duplicados.
          assert ("id" ∈ Pd.columns (Pd.of_records resultados)) as Hc.
          { apply columns_of_records. exists r.
            split; [by eapply list_elem_of_lookup_2|by rewrite Hs]. }
          by rewrite bool_decide_eq_true_2. }
        cbn [snd]. erewrite nth_lookup_Some; [exact Hstrip|].
        rewrite fila_id by done. unfold Pd.cell. by rewrite Hs. }
  exists st2. split; [|done].
  destruct resultados as [|r0 rs]; [done|].
  destruct v; cbn [guardar_de norm_de] in *;
    unfold Sheets.guardar_en_hoja, Scraping.guardar_en_hoja;
    rewrite (guardar_desglose _ _ _ _ _ _ _ _ _ _ _ Hne Hmes Hleer2);
    cbv zeta; unfold Pd.empty; rewrite Hvacio;
    by rewrite (bool_decide_eq_true_2 (_ = [])), orb_true_r by done.
Qed.

(** ** The claims at sample inputs *)

Lemma C4_witness :
  let hoja := "August" in
  let esperados := columnas_ordenadas in
  let st := Ej.a_mano in
  let g := [["N°"; "Id"; "Notas"];
            ["3 (pending)"; " B1 "; ""];
            [""; ""; "x"];
            ["-1"; "B2"; ""];
            ["7"; ""; ""]] in
  libro st !! hoja = Some g ∧
  Gs.sin_vacias_finales (nth 0 g []) ≠ [] ∧
  (let headers := Gs.sin_vacias_finales (nth 0 g []) in
   let faltantes := faltantes_de headers esperados in
   (∀ h, h ∈ faltantes ↔ h ∈ esperados ∧ h ∉ headers) ∧
   ((∀ e, e ∈ esperados → e ∈ headers) → faltantes = []) ∧
   ∃ st',
     _asegurar_encabezados hoja esperados st
       = (Ok (headers ++ faltantes), st') ∧
     (faltantes = [] → st' = con_evento st (EvRowValues hoja 1)) ∧
     (faltantes ≠ [] →
        traza st' = traza st ++ [EvRowValues hoja 1;
                                 EvUpdate hoja (headers ++ faltantes)] ∧
        libro st'
        = <[hoja := con_encabezado (headers ++ faltantes) g]> (libro st))).
Proof.
  intros hoja esperados st g.
  assert (libro st !! hoja = Some g) as Hg by (vm_compute; reflexivity).
  assert (Gs.sin_vacias_finales (nth 0 g []) ≠ []) as Hne
    by (vm_compute; discriminate).
  split; [exact Hg|]. split; [exact Hne|].
  exact (C4_asegurar_encabezados hoja esperados st g Hg Hne).
Defined.

Lemma C2_witness :
  let norm := Sheets._norm in
  let hoja := "August" in
  let headers := ["N°"; "Id"; "Notas"] in
  let st := Ej.a_mano in
  let g := [["N°"; "Id"; "Notas"];
            ["3 (pending)"; " B1 "; ""];
            [""; ""; "x"];
            ["-1"; "B2"; ""];
            ["7"; ""; ""]] in
  libro st !! hoja = Some g ∧
  _find_header_idx norm headers alias_numero = Some 0%nat ∧
  _ultimo_numero norm hoja headers st
  = (Ok 7, con_evento st (EvColValues hoja 1)) ∧
  omap valor_celda (drop 1 ((λ fila, nth 0 fila "") <$> g)) = [3; 1; 7] ∧
  ((let celdas := drop 1 ((λ fila, nth 0 fila "") <$> g) in
    ∃ n,
      _ultimo_numero norm hoja headers st
        = (Ok n, con_evento st (EvColValues hoja (0 + 1))) ∧
      (∀ v k, v ∈ celdas → valor_celda v = Some k → k ≤ n) ∧
      ((n = 0 ∧ ∀ v, v ∈ celdas → valor_celda v = None) ∨
       (0 < n ∧ ∃ v, v ∈ celdas ∧ valor_celda v = Some n))) ∧
   (∀ v k, valor_celda v = Some k → 0 < k) ∧
   (∀ k, 0 < k →
         (String.length (pretty k) ≤ Py.max_str_digits)%nat →
         valor_celda (pretty k) = Some k ∧
         valor_celda ("-" +:+ pretty k) = Some k)).
Proof.
  intros norm hoja headers st g.
  assert (libro st !! hoja = Some g) as Hg by (vm_compute; reflexivity).
  split; [exact Hg|]. split; [vm_compute; reflexivity|].
  split; [vm_compute; reflexivity|]. split; [vm_compute; reflexivity|].
  exact (C2_ultimo_numero norm hoja headers st g Hg).
Defined.

Lemma C5_witness :
  let norm := Scraping._normaliza in
  let hoja := "August" in
  let headers := columnas_ordenadas in
  let st := Ej.con_blancos in
  let g := [columnas_ordenadas;
            Ej.fila "1" ("A1" +:+ Py.chr 160) "X";
            Ej.fila "2" (Py.chr 8195 +:+ "A2") "Y";
            Ej.fila "3" (Py.chr 12288) "Z"] in
  let resultados := [Ej.registro "A1" "X"; Ej.registro "a1" "X";
                     Ej.registro ("A1" +:+ Py.chr 160) "X";
                     Ej.registro "A2" "Y"] in
  let i := 0%nat in
  let r := Ej.registro "A1" "X" in
  let v := VStr "A1" in
  libro st !! hoja = Some g ∧
  resultados !! i = Some r ∧
  r !! "id" = Some v ∧
  _ids_existentes norm hoja headers st
  = (Ok {["A1"; "A2"]}, con_evento st (EvColValues hoja 4)) ∧
  Pd.filas (filtrar_duplicados (Pd.of_records resultados) {["A1"; "A2"]})
  = [(1%nat, Ej.registro "a1" "X");
     (2%nat, Ej.registro ("A1" +:+ Py.chr 160) "X")] ∧
  ∃ ids st',
    _ids_existentes norm hoja headers st = (Ok ids, st') ∧
    (∀ s, s ∈ ids ↔
          s ≠ "" ∧
          ∃ idx fila, _find_header_idx norm headers alias_id = Some idx ∧
                      fila ∈ drop 1 g ∧ Py.strip (nth idx fila "") = s) ∧
    ((i, r) ∉ Pd.filas (filtrar_duplicados (Pd.of_records resultados) ids) ↔
     ∃ s, v = VStr s ∧ s ∈ ids).
Proof.
  intros norm hoja headers st g resultados i r v.
  assert (libro st !! hoja = Some g) as Hg by (vm_compute; reflexivity).
  assert (resultados !! i = Some r) as Hi by reflexivity.
  assert (r !! "id" = Some v) as Hv by (vm_compute; reflexivity).
  split; [exact Hg|]. split; [exact Hi|]. split; [exact Hv|].
  split; [vm_compute; reflexivity|]. split; [vm_compute; reflexivity|].
  exact (C5_deduplicacion norm hoja headers st g resultados i r v Hg Hi Hv).
Defined.

Lemma C7_witness :
  let v := ScrapingPy in
  let resultados := [Ej.a3] in
  let fecha := "2024-08-15" in
  let mes := "August" in
  let st := Ej.agosto "A3" "Z" in
  let st1 := con_evento
               (con_evento
                  (con_evento
                     (con_evento (con_evento st EvConectar)
                        (EvWorksheet mes))
                     (EvRowValues mes 1))
                  (EvColValues mes 1))
               (EvColValues mes 4) in
  let headers := columnas_ordenadas in
  let u := 5 in
  let ids : gset string := {["A3"]} in
  resultados ≠ [] ∧
  mes_de_fecha fecha = Some mes ∧
  leer_estado (norm_de v) mes st = (Ok (headers, u, ids), st1) ∧
  Pd.filas (filtrar_duplicados (Pd.of_records resultados) ids) = [] ∧
  guardar_de v resultados fecha st = (Ok SinNuevas, st1) ∧
  ∃ g1, libro st1 !! mes = Some g1 ∧
        drop 1 g1 = drop 1 (default [] (libro st !! mes)).
Proof.
  intros v resultados fecha mes st st1 headers u ids.
  assert (resultados ≠ []) as Hne by discriminate.
  assert (mes_de_fecha fecha = Some mes) as Hmes by (vm_compute; reflexivity).
  assert (leer_estado (norm_de v) mes st = (Ok (headers, u, ids), st1))
    as Hleer by (vm_compute; reflexivity).
  assert (Pd.filas (filtrar_duplicados (Pd.of_records resultados) ids) = [])
    as Hvacio by (vm_compute; reflexivity).
  split; [exact Hne|]. split; [exact Hmes|]. split; [exact Hleer|].
  split; [exact Hvacio|].
  exact (C7_sin_nuevas v resultados fecha mes st st1 headers u ids
           Hne Hmes Hleer Hvacio).
Defined.

Lemma C8_witness :
  let resultados := [Ej.a1] in
  let st := Ej.vacio in
  resultados ≠ [] ∧
  (Sheets.guardar_en_hoja resultados "15/08/2024" st
     = (Raise (ValueError no_coincide), st) ∧
   Scraping.guardar_en_hoja resultados "15/08/2024" st
     = (Raise (ValueError no_coincide), st)) ∧
  (Sheets.guardar_en_hoja resultados "2023-02-29" st
     = (Raise (ValueError no_coincide), st) ∧
   Scraping.guardar_en_hoja resultados "2023-02-29" st
     = (Raise (ValueError no_coincide), st)) ∧
  (1 ≤ 8 ≤ 12 ∧
   mes_de_fecha "2024-08-15" = Some (nth (Z.to_nat 8 - 1) Fecha.meses "") ∧
   nth (Z.to_nat 8 - 1) Fecha.meses "" ∈ Fecha.meses) ∧
  Fecha.strptime "٢٠٢٤-08-15" = Some (2024, 8, 15) ∧
  (1 ≤ 8 ≤ 12 ∧
   mes_de_fecha "٢٠٢٤-08-15" = Some (nth (Z.to_nat 8 - 1) Fecha.meses "") ∧
   nth (Z.to_nat 8 - 1) Fecha.meses "" ∈ Fecha.meses) ∧
  (Scraping.guardar_en_hoja resultados "٢٠٢٤-08-15" st).1
  = Ok (Guardadas 1 "August").
Proof.
  intros resultados st.
  assert (resultados ≠ []) as Hne by discriminate.
  split; [exact Hne|].
  split; [exact (C8_fecha resultados "15/08/2024" st Hne)|].
  split; [exact (C8_fecha resultados "2023-02-29" st Hne)|].
  split; [exact (C8_fecha resultados "2024-08-15" st Hne)|].
  split; [vm_compute; reflexivity|].
  split; [exact (C8_fecha resultados "٢٠٢٤-08-15" st Hne)|].
  vm_compute; reflexivity.
Defined.

Lemma C3_witness :
  let v := SheetsPy in
  let resultados := [Ej.a1; Ej.a2; Ej.a3] in
  let fecha := "2024-08-15" in
  let mes := "August" in
  let mes' := "August" in
  let st := Ej.agosto "A3" "Z" in
  let st1 := (leer_estado (norm_de v) mes st).2 in
  let st2 := (guardar_de v resultados fecha st).2 in
  let headers := columnas_ordenadas in
  let u := 5 in
  let ids : gset string := {["A3"]} in
  let n := 2%nat in
  mes_de_fecha fecha = Some mes ∧
  leer_estado (norm_de v) mes st = (Ok (headers, u, ids), st1) ∧
  guardar_de v resultados fecha st = (Ok (Guardadas n mes'), st2) ∧
  (let df := filtrar_duplicados (Pd.of_records resultados) ids in
   n = length (Pd.filas df) ∧
   StronglySorted lt (etiquetas df) ∧
   (∀ l r, (l, r) ∈ Pd.filas df → resultados !! l = Some r) ∧
   ∃ g1 nuevas,
     libro st1 !! mes = Some g1 ∧
     libro st2 !! mes = Some (g1 ++ nuevas) ∧
     length nuevas = n ∧
     ∀ j lr, Pd.filas df !! j = Some lr →
             nuevas !! j
             = Some (pretty (u + 1 + Z.of_nat j)
                     :: (Gs.texto <$> campos df lr.2))).
Proof.
  intros v resultados fecha mes mes' st st1 st2 headers u ids n.
  assert (mes_de_fecha fecha = Some mes) as Hmes by (vm_compute; reflexivity).
  assert (leer_estado (norm_de v) mes st = (Ok (headers, u, ids), st1))
    as Hleer by (vm_compute; reflexivity).
  assert (guardar_de v resultados fecha st = (Ok (Guardadas n mes'), st2))
    as Hrun by (vm_compute; reflexivity).
  split; [exact Hmes|]. split; [exact Hleer|]. split; [exact Hrun|].
  exact (C3_numeros_consecutivos v resultados fecha mes mes' st st1 st2
           headers u ids n Hmes Hleer Hrun).
Defined.



Lemma C1_witness :
  let v := ScrapingPy in
  let resultados := [Ej.a1; Ej.a2] in
  let fecha := "2024-08-15" in
  let mes := "August" in
  let st := Ej.agosto "A1" "X" in
  let st' := (leer_estado (norm_de v) mes st).2 in
  let st1 := (guardar_de v resultados fecha st).2 in
  let headers := columnas_ordenadas in
  let u := 5 in
  let ids : gset string := {["A1"]} in
  let o1 := Guardadas 1 mes in
  mes_de_fecha fecha = Some mes ∧
  (∀ r, r ∈ resultados →
        ∃ s, r !! "id" = Some (VStr s) ∧ s ≠ "" ∧ Py.strip s = s) ∧
  leer_estado (norm_de v) mes st = (Ok (headers, u, ids), st') ∧
  _find_header_idx (norm_de v) headers alias_id = Some 3%nat ∧
  guardar_de v resultados fecha st = (Ok o1, st1) ∧
  libro st1 !! mes
  = Some [columnas_ordenadas; Ej.fila "5" "A1" "X"; Ej.fila "6" "A2" "Y"] ∧
  ∃ st2,
    guardar_de v resultados fecha st1 = (Ok SinNuevas, st2) ∧
    libro st2 = libro st1.
Proof.
  intros v resultados fecha mes st st' st1 headers u ids o1.
  assert (mes_de_fecha fecha = Some mes) as Hmes by (vm_compute; reflexivity).
  assert (∀ r, r ∈ resultados →
               ∃ s, r !! "id" = Some (VStr s) ∧ s ≠ "" ∧ Py.strip s = s)
    as Hrec.
  { intros r Hr. unfold resultados in Hr.
    apply elem_of_cons in Hr as [->|Hr];
      [exists "A1"; split; [vm_compute; reflexivity|split; [discriminate|reflexivity]]|].
    apply elem_of_cons in Hr as [->|Hr];
      [exists "A2"; split; [vm_compute; reflexivity|split; [discriminate|reflexivity]]|].
    by apply elem_of_nil in Hr. }
  assert (leer_estado (norm_de v) mes st = (Ok (headers, u, ids), st'))
    as Hleer by (vm_compute; reflexivity).
  assert (_find_header_idx (norm_de v) headers alias_id = Some 3%nat)
    as Hidx by (vm_compute; reflexivity).
  assert (guardar_de v resultados fecha st = (Ok o1, st1))
    as Hrun by (vm_compute; reflexivity).
  split; [exact Hmes|]. split; [exact Hrec|]. split; [exact Hleer|].
  split; [exact Hidx|]. split; [exact Hrun|].
  split; [vm_compute; reflexivity|].
  exact (C1_segunda_vez_sin_cambios v resultados fecha mes st st' st1
           headers u ids o1 Hmes Hrec Hleer Hidx Hrun).
Defined.

(** C1 as stated fails: records that carry no identifier are not filtered,
    so the second call appends them again. *)
Lemma C1_counterexample :
  let resultados := [Ej.sin_id] in
  let fecha := "2024-08-15" in
  let st1 := (Sheets.guardar_en_hoja resultados fecha Ej.vacio).2 in
  let st2 := (Sheets.guardar_en_hoja resultados fecha st1).2 in
  let t1 := (Scraping.guardar_en_hoja resultados fecha Ej.vacio).2 in
  let t2 := (Scraping.guardar_en_hoja resultados fecha t1).2 in
  (Sheets.guardar_en_hoja resultados fecha st1).1
    = Ok (Guardadas 1 "August") ∧
  libro st1 !! "August"
    = Some [columnas_ordenadas; Ej.fila "1" "" "X"] ∧
  libro st2 !! "August"
    = Some [columnas_ordenadas; Ej.fila "1" "" "X"; Ej.fila "2" "" "X"] ∧
  (Scraping.guardar_en_hoja resultados fecha t1).1
    = Ok (Guardadas 1 "August") ∧
  libro t1 !! "August"
    = Some [columnas_ordenadas; Ej.fila "1" "" "X"] ∧
  libro t2 !! "August"
    = Some [columnas_ordenadas; Ej.fila "1" "" "X"; Ej.fila "2" "" "X"].
Proof. vm_compute. repeat split; reflexivity. Qed.

(** C6 fails in [sheets.py].  The worksheet holds A1 at number 5 and the
    batch is A1, A2.  The filter leaves A2 with its label 1; the output
    frame of [sheets.py] is indexed from 0, so the aligned assignment finds
    no record for its only row and the row goes out with [NaN] under ID and
    Título, not with the fields of A2; the append then raises and nothing is
    stored.  [scraping.py], which adds the columns to the filtered frame
    itself, emits the row of A2 and stores it at number 6. *)
Theorem C6_sheets_desalineado :
  let st := Ej.agosto "A1" "X" in
  let resultados := [Ej.a1; Ej.a2] in
  let fecha := "2024-08-15" in
  let df := filtrar_duplicados (Pd.of_records resultados) {["A1"]} in
  Pd.filas df = [(1%nat, Ej.a2)] ∧
  (λ d, Pd.tolist d columnas_ordenadas) <$> Sheets.mapear df 5
  = Some [[VInt 6; VStr ""; VStr ""; VNaN; VNaN; VStr ""; VStr "";
           VStr ""; VStr ""; VStr ""; VStr ""; VStr ""; VStr ""]] ∧
  (λ d, Pd.tolist d columnas_ordenadas) <$> Scraping.mapear df 5
  = Some [[VInt 6; VStr ""; VStr ""; VStr "A2"; VStr "Y"; VStr ""; VStr "";
           VStr ""; VStr ""; VStr ""; VStr ""; VStr ""; VStr ""]] ∧
  (Sheets.guardar_en_hoja resultados fecha st).1 = Raise InvalidJSONError ∧
  libro (Sheets.guardar_en_hoja resultados fecha st).2 !! "August"
  = Some [columnas_ordenadas; Ej.fila "5" "A1" "X"] ∧
  (Scraping.guardar_en_hoja resultados fecha st).1
  = Ok (Guardadas 1 "August") ∧
  libro (Scraping.guardar_en_hoja resultados fecha st).2 !! "August"
  = Some [columnas_ordenadas; Ej.fila "5" "A1" "X"; Ej.fila "6" "A2" "Y"].
Proof. vm_compute. repeat split; reflexivity. Qed.

Lemma de_textos_campo resultados r f val :
  de_textos resultados = true →
  r ∈ resultados → r !! f = Some val → ∃ s, val = VStr s.
Proof.
  intros Ht Hr Hf. unfold de_textos in Ht.
  rewrite forallb_forall in Ht. apply list_elem_of_In, Ht in Hr.
  rewrite forallb_forall in Hr.
  apply elem_of_map_to_list, list_elem_of_In, Hr in Hf. cbn in Hf.
  destruct val; [by eexists|done..].
Qed.

(** The mapping of [scraping.py] on the frame that a run filters, for
    records whose fields all hold strings: it never fails, and the rows it
    emits are, for the survivors in their order, the next numbers each
    followed by the fields of its own record, with [""] under the columns
    whose field no incoming record has.  After the number every cell is a
    string, or [NaN] where the record lacks a field that another record of
    the batch has. *)
Theorem scraping_filas_emitidas
    (resultados : list (gmap string value)) (ids : gset string) (u : Z) :
  de_textos resultados = true →
  let df := filtrar_duplicados (Pd.of_records resultados) ids in
  ∃ d,
    Scraping.mapear df u = Some d ∧
    Pd.len d = Pd.len df ∧
    Pd.tolist d columnas_ordenadas
    = imap (λ j lr, VInt (u + 1 + Z.of_nat j) :: campos df lr.2) (Pd.filas df) ∧
    ∀ fila c,
      fila ∈ Pd.tolist d columnas_ordenadas →
      c ∈ drop 1 fila →
      c = VNaN ∨ ∃ s, c = VStr s.
Proof.
  intros Ht df.
  destruct (scraping_mapear_filas df u) as (d & Hd & Hlen & Hfilas).
  { apply crecientes_nodup, etiquetas_filtrar. }
  exists d. split; [done|]. split; [done|]. split; [done|].
  intros fila c Hfila Hc. rewrite Hfilas in Hfila.
  apply list_elem_of_lookup in Hfila as [j Hj].
  unfold filas_esperadas in Hj. rewrite list_lookup_imap in Hj.
  destruct (Pd.filas df !! j) as [[l r]|] eqn:El; [|done].
  change (Some (VInt (u + 1 + Z.of_nat j) :: campos df r) = Some fila) in Hj.
  simplify_eq. cbn [drop] in Hc.
  unfold campos in Hc. apply list_elem_of_fmap in Hc as (cc & -> & _).
  case_bool_decide; [|right; by eexists].
  unfold Pd.cell. destruct (r !! cc.2) as [val|] eqn:Ef; [|by left].
  right. cbn. eapply de_textos_campo; [done| |done].
  eapply list_elem_of_lookup_2, filas_filtrar_origen.
  by eapply list_elem_of_lookup_2.
Qed.

Lemma scraping_filas_emitidas_witness :
  let incompleto : gmap string value := {[ "id" := VStr "A3" ]} in
  let resultados := [Ej.a1; Ej.a2; incompleto] in
  let ids : gset string := {["A1"]} in
  let u := 5 in
  let df := filtrar_duplicados (Pd.of_records resultados) ids in
  de_textos resultados = true ∧
  ((λ d, Pd.tolist d columnas_ordenadas) <$> Scraping.mapear df u
   = Some [[VInt 6; VStr ""; VStr ""; VStr "A2"; VStr "Y"; VStr ""; VStr "";
            VStr ""; VStr ""; VStr ""; VStr ""; VStr ""; VStr ""];
           [VInt 7; VStr ""; VStr ""; VStr "A3"; VNaN; VStr ""; VStr "";
            VStr ""; VStr ""; VStr ""; VStr ""; VStr ""; VStr ""]]) ∧
  ∃ d,
    Scraping.mapear df u = Some d ∧
    Pd.len d = Pd.len df ∧
    Pd.tolist d columnas_ordenadas
    = imap (λ j lr, VInt (u + 1 + Z.of_nat j) :: campos df lr.2) (Pd.filas df) ∧
    ∀ fila c,
      fila ∈ Pd.tolist d columnas_ordenadas →
      c ∈ drop 1 fila →
      c = VNaN ∨ ∃ s, c = VStr s.
Proof.
  intros incompleto resultados ids u df.
  assert (de_textos resultados = true) as Ht by (vm_compute; reflexivity).
  split; [exact Ht|]. split; [vm_compute; reflexivity|].
  exact (scraping_filas_emitidas resultados ids u Ht).
Defined.

(** * Further properties of the code *)

(** ** The keyword list *)

Lemma filter_no_vacias_replicate k :
  filter (λ p, Py.strip p ≠ "") (replicate k "") = [].
Proof. induction k as [|k IH]; [done|]. cbn. done. Qed.

Lemma filter_rebanada_sin_vacias n k l :
  filter (λ p, Py.strip p ≠ "") (take n (drop k (Gs.sin_vacias_finales l)))
  = filter (λ p, Py.strip p ≠ "") (take n (drop k l)).
Proof.
  destruct (sin_vacias_finales_resto l) as [m Hm].
  rewrite Hm at 2. rewrite drop_app, drop_replicate, take_app, take_replicate.
  by rewrite filter_app, filter_no_vacias_replicate, app_nil_r.
Qed.

(** Loading the keywords never raises and never writes: a missing worksheet
    gives the empty list. *)
Theorem palabras_clave_sin_error (st : estado) :
  ∃ palabras st',
    cargar_palabras_clave st = (Ok palabras, st') ∧
    libro st' = libro st ∧
    (libro st !! hoja_palabras = None → palabras = []).
Proof.
  unfold cargar_palabras_clave, catch, bind at 1. rewrite worksheet_run.
  destruct (libro st !! hoja_palabras) as [g|] eqn:Eg.
  - unfold bind at 1. erewrite col_values_ok by (cbn; exact Eg).
    eexists _, _. split; [reflexivity|]. split; [done|]. done.
  - eexists _, _. split; [reflexivity|]. split; [done|]. done.
Qed.

(** The keywords are the cells of column F in rows 8 to 19 that are not
    blank, trimmed, in the order of the rows: at most twelve, none empty,
    none with a blank at either end. *)
Theorem palabras_clave_contenido (st : estado) (g : list (list string)) :
  libro st !! hoja_palabras = Some g →
  ∃ palabras st',
    cargar_palabras_clave st = (Ok palabras, st') ∧
    palabras
    = Py.strip
        <$> filter (λ p, Py.strip p ≠ "")
              ((λ fila, nth 5 fila "") <$> take 12 (drop 7 g)) ∧
    (length palabras ≤ 12)%nat ∧
    ∀ p, p ∈ palabras → p ≠ "" ∧ Py.strip p = p.
Proof.
  intros Hg. unfold cargar_palabras_clave, catch, bind at 1.
  rewrite worksheet_run, Hg. unfold bind at 1.
  erewrite col_values_ok by (cbn; exact Hg). unfold ret.
  eexists _, _. split; [reflexivity|].
  rewrite filter_rebanada_sin_vacias, fmap_take, fmap_drop.
  split; [done|]. split.
  - rewrite length_fmap.
    etrans; [apply length_filter|]. rewrite length_take. lia.
  - intros p (q & -> & [Hq _]%list_elem_of_filter)%list_elem_of_fmap.
    split; [done|apply strip_idemp].
Qed.

(** ** Looking a column up by its aliases *)

Lemma posicion_Some c H i k :
  posicion c H i = Some k →
  (i ≤ k)%nat ∧ H !! (k - i)%nat = Some c ∧
  ∀ j, (j < k - i)%nat → H !! j ≠ Some c.
Proof.
  revert i. induction H as [|h H IH]; intros i Hp; [done|]. cbn in Hp.
  case_bool_decide as Hh.
  - simplify_eq. rewrite Nat.sub_diag. split; [lia|]. split; [done|].
    intros j Hj. lia.
  - apply IH in Hp as (Hle & Hk & Hno).
    split; [lia|]. replace (k - i)%nat with (S (k - S i)) by lia.
    split; [done|]. intros [|j] Hj; cbn.
    + congruence.
    + apply Hno. lia.
Qed.

Lemma posicion_None c H i : posicion c H i = None ↔ c ∉ H.
Proof.
  revert i. induction H as [|h H IH]; intros i; cbn.
  - split; [intros _; apply not_elem_of_nil|done].
  - case_bool_decide as Hh.
    + split; [done|]. intros Hn. destruct Hn. subst. left.
    + rewrite IH, not_elem_of_cons.
      split; [intros ?; split; [congruence|done]|by intros [_ ?]].
Qed.

(** The lookup returns the position of a header whose normal form is that
    of a candidate: of the first candidate, in the order of the list, that
    any header matches, and for it the leftmost such header.  It returns
    nothing exactly when no header matches any candidate. *)
Theorem find_header_idx_spec
    (norm : string → string) (headers candidatos : list string) :
  match _find_header_idx norm headers candidatos with
  | Some i =>
      ∃ h antes cand despues,
        headers !! i = Some h ∧
        candidatos = antes ++ cand :: despues ∧
        norm h = norm cand ∧
        (∀ j h', (j < i)%nat → headers !! j = Some h' → norm h' ≠ norm cand) ∧
        (∀ c h', c ∈ antes → h' ∈ headers → norm h' ≠ norm c)
  | None => ∀ c h, c ∈ candidatos → h ∈ headers → norm h ≠ norm c
  end.
Proof.
  unfold _find_header_idx.
  induction candidatos as [|cand resto IH]; cbn.
  - intros c h Hc. by apply elem_of_nil in Hc.
  - destruct (posicion (norm cand) (norm <$> headers) 0) as [i|] eqn:Ep.
    + apply posicion_Some in Ep as (_ & Hi & Hno).
      rewrite Nat.sub_0_r in Hi, Hno.
      rewrite list_lookup_fmap in Hi.
      destruct (headers !! i) as [h|] eqn:Eh; [|done]. cbn in Hi.
      exists h, [], cand, resto. split; [done|]. split; [done|].
      split; [congruence|]. split.
      * intros j h' Hj Hh' Heq. apply (Hno j Hj).
        by rewrite list_lookup_fmap, Hh', <- Heq.
      * intros c h' Hc. by apply elem_of_nil in Hc.
    + apply posicion_None in Ep.
      assert (∀ h', h' ∈ headers → norm h' ≠ norm cand) as Hcand.
      { intros h' Hh' Heq. apply Ep. rewrite <- Heq.
        by apply list_elem_of_fmap_2. }
      destruct (buscar norm (norm <$> headers) resto) as [i|].
      * destruct IH as (h & antes & c' & despues & Hh & -> & Hn & Hizq & Hant).
        exists h, (cand :: antes), c', despues.
        split; [done|]. split; [done|]. split; [done|]. split; [done|].
        intros c h' [->|Hc]%elem_of_cons Hh'; [by apply Hcand|by apply Hant].
      * intros c h [->|Hc]%elem_of_cons Hh; [by apply Hcand|by apply IH].
Qed.

(** ** The columns of a reconciled header *)

Lemma asegurar_encabezados_completo hoja st headers st' :
  _asegurar_encabezados hoja columnas_ordenadas st = (Ok headers, st') →
  ∀ c, c ∈ columnas_ordenadas → c ∈ headers.
Proof.
  unfold _asegurar_encabezados, bind at 1.
  destruct (Gs.row_values hoja 1 st) as [[h|e] sta]; [|done].
  destruct h as [|h0 hs].
  - unfold bind. destruct (Gs.update_A1 _ _ _) as [[?|?] ?]; [|done].
    unfold ret. intros [= <- <-]. done.
  - destruct (faltantes_de (h0 :: hs) columnas_ordenadas) as [|f fs] eqn:Ef.
    + unfold ret. intros [= <- <-] c Hc.
      destruct (decide (c ∈ h0 :: hs)) as [|Hn]; [done|].
      assert (c ∈ faltantes_de (h0 :: hs) columnas_ordenadas) as Hin
        by by apply faltantes_de_spec.
      rewrite Ef in Hin. by apply elem_of_nil in Hin.
    + unfold bind. destruct (Gs.update_A1 _ _ _) as [[?|?] ?]; [|done].
      unfold ret. intros [= <- <-] c Hc. rewrite <- Ef.
      change (c ∈ (h0 :: hs) ++ faltantes_de (h0 :: hs) columnas_ordenadas).
      apply elem_of_app. destruct (decide (c ∈ h0 :: hs)); [by left|right].
      by apply faltantes_de_spec.
Qed.

Lemma find_primer_candidato norm headers cand resto :
  cand ∈ headers →
  ∃ i h, _find_header_idx norm headers (cand :: resto) = Some i ∧
         headers !! i = Some h ∧ norm h = norm cand ∧
         ∀ j h', (j < i)%nat → headers !! j = Some h' → norm h' ≠ norm cand.
Proof.
  intros Hin. unfold _find_header_idx. cbn.
  destruct (posicion (norm cand) (norm <$> headers) 0) as [i|] eqn:Ep.
  - apply posicion_Some in Ep as (_ & Hi & Hno).
    rewrite Nat.sub_0_r in Hi, Hno. rewrite list_lookup_fmap in Hi.
    destruct (headers !! i) as [h|] eqn:Eh; [|done]. cbn in Hi.
    exists i, h. split; [done|]. split; [done|]. split; [congruence|].
    intros j h' Hj Hh' Heq. apply (Hno j Hj).
    by rewrite list_lookup_fmap, Hh', <- Heq.
  - apply posicion_None in Ep. destruct Ep. by apply list_elem_of_fmap_2.
Qed.

(** The header that reconciliation returns has every expected name, so
    inside a run both scans always find their column: the sequence column is
    the leftmost header with the normal form of "Número" and the identifier
    column the leftmost one with the normal form of "ID".  The later
    aliases, and the branches for a column that is absent, play no part in a
    run. *)
Theorem columnas_de_un_encabezado_reconciliado
    (norm : string → string) (hoja : string) (st st' : estado)
    (headers : list string) :
  _asegurar_encabezados hoja columnas_ordenadas st = (Ok headers, st') →
  (∃ i h, _find_header_idx norm headers alias_numero = Some i ∧
          headers !! i = Some h ∧ norm h = norm "Número" ∧
          ∀ j h', (j < i)%nat → headers !! j = Some h' →
                  norm h' ≠ norm "Número") ∧
  (∃ i h, _find_header_idx norm headers alias_id = Some i ∧
          headers !! i = Some h ∧ norm h = norm "ID" ∧
          ∀ j h', (j < i)%nat → headers !! j = Some h' → norm h' ≠ norm "ID").
Proof.
  intros Hrun.
  pose proof (asegurar_encabezados_completo _ _ _ _ Hrun) as Hall.
  split.
  - apply find_primer_candidato, Hall. unfold columnas_ordenadas. left.
  - apply find_primer_candidato, Hall. unfold columnas_ordenadas.
    do 3 right. left.
Qed.

Lemma columnas_de_un_encabezado_reconciliado_witness :
  let norm := Sheets._norm in
  let hoja := "August" in
  let st := Ej.a_mano in
  let st' := (_asegurar_encabezados hoja columnas_ordenadas st).2 in
  let headers := ["N°"; "Id"; "Notas"] ++ columnas_ordenadas in
  _asegurar_encabezados hoja columnas_ordenadas st = (Ok headers, st') ∧
  (∃ i h, _find_header_idx norm headers alias_numero = Some i ∧
          headers !! i = Some h ∧ norm h = norm "Número" ∧
          ∀ j h', (j < i)%nat → headers !! j = Some h' →
                  norm h' ≠ norm "Número") ∧
  (∃ i h, _find_header_idx norm headers alias_id = Some i ∧
          headers !! i = Some h ∧ norm h = norm "ID" ∧
          ∀ j h', (j < i)%nat → headers !! j = Some h' → norm h' ≠ norm "ID").
Proof.
  intros norm hoja st st' headers.
  assert (_asegurar_encabezados hoja columnas_ordenadas st = (Ok headers, st'))
    as Hrun by (vm_compute; reflexivity).
  split; [exact Hrun|].
  exact (columnas_de_un_encabezado_reconciliado norm hoja st st' headers Hrun).
Defined.

(** ** What a run may change *)

(** The three ways in which a run with records and a date that parses ends. *)
Lemma guardar_clasificacion v resultados fecha mes st :
  resultados ≠ [] →
  mes_de_fecha fecha = Some mes →
  ∃ headers u ids st1 g1,
    leer_estado (norm_de v) mes st = (Ok (headers, u, ids), st1) ∧
    estado_leido (norm_de v) mes st headers ids st1 g1 ∧
    (guardar_de v resultados fecha st = (Ok SinNuevas, st1) ∨
     guardar_de v resultados fecha st = (Raise InvalidJSONError, st1) ∨
     ∃ st2,
       guardar_de v resultados fecha st
       = (Ok (Guardadas
                (Pd.len (filtrar_duplicados (Pd.of_records resultados) ids))
                mes), st2) ∧
       Pd.empty (filtrar_duplicados (Pd.of_records resultados) ids) = false ∧
       libro st2
       = <[mes := g1 ++ (Gs.texto_fila
                           <$> filas_esperadas
                                 (filtrar_duplicados
                                    (Pd.of_records resultados) ids) u)]>
           (libro st1)).
Proof.
  intros Hne Hmes.
  destruct (leer_estado_ok (norm_de v) mes st)
    as (h & u & ids & st1 & g1 & Hleer & Hest).
  exists h, u, ids, st1, g1. split; [done|]. split; [done|].
  destruct (Pd.empty (filtrar_duplicados (Pd.of_records resultados) ids))
    eqn:Hemp.
  - left. destruct v; cbn [guardar_de norm_de] in *;
      unfold Sheets.guardar_en_hoja, Scraping.guardar_en_hoja;
      rewrite (guardar_desglose _ _ _ _ _ _ _ _ _ _ _ Hne Hmes Hleer);
      cbv zeta; by rewrite Hemp.
  - destruct Hest as (Hg1 & _).
    destruct (guardar_resultado v _ _ _ _ _ _ _ _ g1 Hne Hmes Hleer Hg1 Hemp)
      as [(st2 & Hrun & _ & Hl)|Hrun]; [|by right; left].
    right; right. eauto.
Qed.

Lemma asegurar_encabezados_prefijo hoja esperados st g headers st' :
  libro st !! hoja = Some g →
  _asegurar_encabezados hoja esperados st = (Ok headers, st') →
  Gs.sin_vacias_finales (nth 0 g []) `prefix_of` headers.
Proof.
  intros Hg. unfold _asegurar_encabezados, bind at 1.
  rewrite (row_values_ok _ _ _ g Hg). cbn [Nat.sub].
  destruct (Gs.sin_vacias_finales (nth 0 g [])) as [|h0 hs] eqn:Eh.
  - intros _. apply prefix_nil.
  - destruct (faltantes_de (h0 :: hs) esperados) as [|f fs].
    + unfold ret. by intros [= <- <-].
    + unfold bind. destruct (Gs.update_A1 _ _ _) as [[?|?] ?]; [|done].
      unfold ret. intros [= <- <-]. by eexists.
Qed.

Lemma leer_estado_prefijo norm mes st g headers u ids st1 :
  libro st !! mes = Some g →
  leer_estado norm mes st = (Ok (headers, u, ids), st1) →
  Gs.sin_vacias_finales (nth 0 g []) `prefix_of` headers.
Proof.
  intros Hg. unfold leer_estado, bind at 1, Gs.conectar_google_sheets,
    Gs.registrar. unfold bind at 1, abrir_o_crear, catch.
  rewrite worksheet_run. cbn [libro con_evento]. rewrite Hg.
  unfold bind at 1.
  destruct (_asegurar_encabezados mes columnas_ordenadas _)
    as [[h|e] sta] eqn:Ea; [|done].
  apply asegurar_encabezados_prefijo with (g := g) in Ea; [|done].
  unfold bind.
  destruct (_ultimo_numero norm mes h sta) as [[?|?] ?]; [|done].
  destruct (_ids_existentes norm mes h _) as [[?|?] ?]; [|done].
  unfold ret. by intros [= <- <- <- <-].
Qed.

(** A run writes to the worksheet of the month of its date and to no other:
    every other worksheet is afterwards what it was, whatever the call
    reports or raises. *)
Theorem guardar_no_toca_otras_hojas
    (v : variante) (resultados : list (gmap string value)) (fecha : string)
    (st st2 : estado) (r : res salida) (t : string) :
  guardar_de v resultados fecha st = (r, st2) →
  mes_de_fecha fecha ≠ Some t →
  libro st2 !! t = libro st !! t.
Proof.
  intros Hrun Ht.
  destruct (decide (resultados = [])) as [->|Hne].
  { rewrite guardar_vacio in Hrun. by simplify_eq. }
  destruct (mes_de_fecha fecha) as [mes|] eqn:Hmes.
  - assert (t ≠ mes) as Htm by congruence.
    destruct (guardar_clasificacion v resultados fecha mes st Hne Hmes)
      as (h & u & ids & st1 & g1 & _ & Hest & Hcasos).
    destruct Hest as (_ & _ & _ & _ & _ & _ & _ & Hotras).
    destruct Hcasos as [Hr|[Hr|(st2' & Hr & _ & Hl)]];
      rewrite Hrun in Hr; simplify_eq; [by apply Hotras..|].
    rewrite Hl, lookup_insert_ne by done. by apply Hotras.
  - destruct v; cbn [guardar_de] in Hrun;
      unfold Sheets.guardar_en_hoja, Scraping.guardar_en_hoja,
        guardar_en_hoja_con in Hrun;
      rewrite bool_decide_eq_false_2, Hmes in Hrun by done;
      unfold raise in Hrun; by simplify_eq.
Qed.

Lemma guardar_no_toca_otras_hojas_witness :
  let v := ScrapingPy in
  let resultados := [Ej.a1; Ej.a2] in
  let fecha := "2024-09-02" in
  let st := Ej.agosto "A1" "X" in
  let r := Ok (Guardadas 2 "September") in
  let st2 := (guardar_de v resultados fecha st).2 in
  let t := "August" in
  guardar_de v resultados fecha st = (r, st2) ∧
  mes_de_fecha fecha ≠ Some t ∧
  libro st2 !! t = libro st !! t.
Proof.
  intros v resultados fecha st r st2 t.
  assert (guardar_de v resultados fecha st = (r, st2)) as Hrun
    by (vm_compute; reflexivity).
  assert (mes_de_fecha fecha ≠ Some t) as Ht by (vm_compute; discriminate).
  split; [exact Hrun|]. split; [exact Ht|].
  exact (guardar_no_toca_otras_hojas v resultados fecha st st2 r t Hrun Ht).
Defined.

(** A call that returns only adds to the worksheet of the month: the rows
    below the header stay, in their places, with the new rows after them,
    and the header that was there is the beginning of the header afterwards.
    The number of new rows is the number that the call reports as saved, and
    none when it reports that there was nothing to save. *)
Theorem guardar_solo_agrega
    (v : variante) (resultados : list (gmap string value))
    (fecha mes : string) (st st2 : estado) (o : salida)
    (g : list (list string)) :
  guardar_de v resultados fecha st = (Ok o, st2) →
  mes_de_fecha fecha = Some mes →
  libro st !! mes = Some g →
  ∃ g2 nuevas,
    libro st2 !! mes = Some g2 ∧
    drop 1 g2 = drop 1 g ++ nuevas ∧
    Gs.sin_vacias_finales (nth 0 g [])
      `prefix_of` Gs.sin_vacias_finales (nth 0 g2 []) ∧
    length nuevas = match o with Guardadas n _ => n | _ => 0%nat end.
Proof.
  intros Hrun Hmes Hg.
  destruct (decide (resultados = [])) as [->|Hne].
  { rewrite guardar_vacio in Hrun. simplify_eq.
    exists g, []. by rewrite app_nil_r. }
  destruct (guardar_clasificacion v resultados fecha mes st Hne Hmes)
    as (h & u & ids & st1 & g1 & Hleer & Hest & Hcasos).
  pose proof (leer_estado_prefijo _ _ _ _ _ _ _ _ Hg Hleer) as Hpre.
  destruct Hest as (Hg1 & Hg1ne & Hh & _ & _ & _ & Hd & _).
  rewrite Hg in Hd. cbn in Hd.
  destruct Hcasos as [Hr|[Hr|(st2' & Hr & _ & Hl)]];
    rewrite Hrun in Hr; simplify_eq.
  - exists g1, []. by rewrite app_nil_r, Hd.
  - eexists _, _. rewrite Hl, lookup_insert_eq. split; [done|].
    split; [|split].
    + destruct g1; [done|]. cbn. rewrite drop_0. cbn in Hd.
      rewrite drop_0 in Hd. by rewrite Hd.
    + by destruct g1.
    + unfold filas_esperadas. by rewrite length_fmap, length_imap.
Qed.

Lemma guardar_solo_agrega_witness :
  let v := SheetsPy in
  let resultados := [Ej.a1; Ej.a2] in
  let fecha := "2024-08-15" in
  let mes := "August" in
  let st := Ej.a_mano in
  let o := Guardadas 2 "August" in
  let st2 := (guardar_de v resultados fecha st).2 in
  let g := [["N°"; "Id"; "Notas"];
            ["3 (pending)"; " B1 "; ""];
            [""; ""; "x"];
            ["-1"; "B2"; ""];
            ["7"; ""; ""]] in
  guardar_de v resultados fecha st = (Ok o, st2) ∧
  mes_de_fecha fecha = Some mes ∧
  libro st !! mes = Some g ∧
  ∃ g2 nuevas,
    libro st2 !! mes = Some g2 ∧
    drop 1 g2 = drop 1 g ++ nuevas ∧
    Gs.sin_vacias_finales (nth 0 g [])
      `prefix_of` Gs.sin_vacias_finales (nth 0 g2 []) ∧
    length nuevas = match o with Guardadas n _ => n | _ => 0%nat end.
Proof.
  intros v resultados fecha mes st o st2 g.
  assert (guardar_de v resultados fecha st = (Ok o, st2)) as Hrun
    by (vm_compute; reflexivity).
  assert (mes_de_fecha fecha = Some mes) as Hmes by (vm_compute; reflexivity).
  assert (libro st !! mes = Some g) as Hg by (vm_compute; reflexivity).
  split; [exact Hrun|]. split; [exact Hmes|]. split; [exact Hg|].
  exact (guardar_solo_agrega v resultados fecha mes st st2 o g Hrun Hmes Hg).
Defined.

(** ** Reconciling twice *)

(** Reconciling the header of a worksheet a second time reads row 1, finds
    nothing missing, writes nothing and returns the same header. *)
Theorem asegurar_encabezados_idempotente
    (hoja : string) (st st1 : estado) (g : list (list string))
    (headers : list string) :
  libro st !! hoja = Some g →
  _asegurar_encabezados hoja columnas_ordenadas st = (Ok headers, st1) →
  _asegurar_encabezados hoja columnas_ordenadas st1
  = (Ok headers, con_evento st1 (EvRowValues hoja 1)).
Proof.
  intros Hg Hrun.
  destruct (asegurar_encabezados_ok hoja st g Hg)
    as (h & st' & g' & Hrun' & Hg' & _ & Hh & Hne & Hf & _).
  rewrite Hrun in Hrun'. simplify_eq.
  unfold _asegurar_encabezados, bind at 1.
  rewrite (row_values_ok _ _ _ g' Hg'). cbn [Nat.sub].
  destruct (Gs.sin_vacias_finales (nth 0 g' [])) as [|h0 hs]; [done|].
  by rewrite Hf.
Qed.

Lemma asegurar_encabezados_idempotente_witness :
  let hoja := "August" in
  let st := Ej.a_mano in
  let st1 := (_asegurar_encabezados hoja columnas_ordenadas st).2 in
  let g := [["N°"; "Id"; "Notas"];
            ["3 (pending)"; " B1 "; ""];
            [""; ""; "x"];
            ["-1"; "B2"; ""];
            ["7"; ""; ""]] in
  let headers := ["N°"; "Id"; "Notas"] ++ columnas_ordenadas in
  libro st !! hoja = Some g ∧
  _asegurar_encabezados hoja columnas_ordenadas st = (Ok headers, st1) ∧
  _asegurar_encabezados hoja columnas_ordenadas st1
  = (Ok headers, con_evento st1 (EvRowValues hoja 1)).
Proof.
  intros hoja st st1 g headers.
  assert (libro st !! hoja = Some g) as Hg by (vm_compute; reflexivity).
  assert (_asegurar_encabezados hoja columnas_ordenadas st = (Ok headers, st1))
    as Hrun by (vm_compute; reflexivity).
  split; [exact Hg|]. split; [exact Hrun|].
  exact (asegurar_encabezados_idempotente hoja st st1 g headers Hg Hrun).
Defined.

(** ** The first run of a month *)

Lemma filtrar_duplicados_vacio df : filtrar_duplicados df ∅ = df.
Proof.
  unfold filtrar_duplicados. case_bool_decide; [|done].
  unfold Pd.drop_isin. destruct df as [cols filas]. cbn. f_equal.
  induction filas as [|lr filas IH]; [done|].
  rewrite filter_cons_True; [by rewrite IH|].
  destruct (Pd.cell lr.2 "id"); cbn; try done.
Qed.

Lemma drop1_sin_vacias_unitaria x : drop 1 (Gs.sin_vacias_finales [x]) = [].
Proof. cbn. by case_bool_decide. Qed.

Lemma leer_estado_nueva norm mes st :
  libro st !! mes = None →
  ∃ st1,
    leer_estado norm mes st = (Ok (columnas_ordenadas, 0, ∅), st1) ∧
    libro st1 = <[mes := [columnas_ordenadas]]> (libro st).
Proof.
  intros Hno.
  unfold leer_estado, bind at 1, Gs.conectar_google_sheets, Gs.registrar.
  unfold bind at 1, abrir_o_crear, catch. rewrite worksheet_run.
  cbn [libro con_evento]. rewrite Hno.
  unfold bind at 1. rewrite add_worksheet_run.
  erewrite update_A1_ok by (cbn; apply lookup_insert_eq).
  cbn [libro traza con_encabezado]. rewrite insert_insert_eq.
  set (sta := {| libro := _; traza := _ |}).
  assert (libro sta !! mes = Some [columnas_ordenadas]) as Hg
    by apply lookup_insert_eq.
  unfold bind at 1, _asegurar_encabezados, bind at 1.
  rewrite (row_values_ok _ _ _ _ Hg).
  change (Gs.sin_vacias_finales (nth (1 - 1) [columnas_ordenadas] []))
    with columnas_ordenadas.
  change (faltantes_de columnas_ordenadas columnas_ordenadas)
    with (@nil string).
  unfold columnas_ordenadas at 1. unfold ret at 1.
  fold columnas_ordenadas.
  set (stb := con_evento sta _).
  assert (libro stb !! mes = Some [columnas_ordenadas]) as Hgb by exact Hg.
  unfold bind at 1, _ultimo_numero.
  destruct (_find_header_idx norm columnas_ordenadas alias_numero) as [i|].
  - unfold bind at 1. rewrite (col_values_ok _ _ _ _ Hgb).
    cbn [fmap list_fmap]. rewrite drop1_sin_vacias_unitaria.
    unfold ret at 1. cbn [foldl max_o_cero].
    set (stc := con_evento stb _).
    assert (libro stc !! mes = Some [columnas_ordenadas]) as Hgc by exact Hg.
    unfold bind at 1, _ids_existentes.
    destruct (_find_header_idx norm columnas_ordenadas alias_id) as [k|].
    + unfold bind at 1. rewrite (col_values_ok _ _ _ _ Hgc).
      cbn [fmap list_fmap]. rewrite drop1_sin_vacias_unitaria.
      eexists. split; [reflexivity|done].
    + eexists. split; [reflexivity|done].
  - unfold ret at 1. unfold bind at 1, _ids_existentes.
    destruct (_find_header_idx norm columnas_ordenadas alias_id) as [k|].
    + unfold bind at 1. rewrite (col_values_ok _ _ _ _ Hgb).
      cbn [fmap list_fmap]. rewrite drop1_sin_vacias_unitaria.
      eexists. split; [reflexivity|done].
    + eexists. split; [reflexivity|done].
Qed.

(** The first run of a month, when the workbook has no worksheet for it:
    the worksheet exists afterwards with the expected header as its first
    row, however the call ends.  No record is filtered, and a call that
    reports saved rows has stored all of them, numbered from 1 in the order
    of the incoming list. *)
Theorem guardar_hoja_nueva
    (v : variante) (resultados : list (gmap string value))
    (fecha mes : string) (st : estado) :
  resultados ≠ [] →
  mes_de_fecha fecha = Some mes →
  libro st !! mes = None →
  ∃ r st2 nuevas,
    guardar_de v resultados fecha st = (r, st2) ∧
    libro st2 !! mes = Some (columnas_ordenadas :: nuevas) ∧
    match r with
    | Ok (Guardadas n _) =>
        n = length resultados ∧
        length nuevas = n ∧
        ∀ j reg, resultados !! j = Some reg →
                 nuevas !! j
                 = Some (pretty (1 + Z.of_nat j)
                         :: (Gs.texto <$> campos (Pd.of_records resultados) reg))
    | _ => nuevas = []
    end.
Proof.
  intros Hne Hmes Hno.
  destruct (leer_estado_nueva (norm_de v) mes st Hno) as (st1 & Hleer & Hl1).
  assert (libro st1 !! mes = Some [columnas_ordenadas]) as Hg1
    by (rewrite Hl1; apply lookup_insert_eq).
  destruct (guardar_clasificacion v resultados fecha mes st Hne Hmes)
    as (h & u & ids & st1' & g1 & Hleer' & Hest & Hcasos).
  rewrite Hleer in Hleer'. simplify_eq.
  destruct Hest as (Hg1' & _). rewrite Hg1 in Hg1'. simplify_eq.
  rewrite filtrar_duplicados_vacio in Hcasos.
  destruct Hcasos as [Hr|[Hr|(st2 & Hr & _ & Hl)]].
  - exists (Ok SinNuevas), st1', []. done.
  - exists (Raise InvalidJSONError), st1', []. done.
  - eexists _, st2, _. split; [exact Hr|].
    rewrite Hl, lookup_insert_eq. split; [done|].
    unfold Pd.len. cbn [Pd.of_records Pd.filas].
    split; [by rewrite length_imap|]. split.
    + unfold filas_esperadas. cbn [Pd.of_records Pd.filas].
      by rewrite length_fmap, !length_imap.
    + intros j reg Hj.
      rewrite (lookup_filas_esperadas _ _ j (j, reg)); [done|].
      cbn [Pd.of_records Pd.filas]. by rewrite list_lookup_imap, Hj.
Qed.

Lemma guardar_hoja_nueva_witness :
  let v := SheetsPy in
  let resultados := [Ej.a1; Ej.a2] in
  let fecha := "2024-08-15" in
  let mes := "August" in
  let st := Ej.vacio in
  resultados ≠ [] ∧
  mes_de_fecha fecha = Some mes ∧
  libro st !! mes = None ∧
  guardar_de v resultados fecha st
  = (Ok (Guardadas 2 mes), (guardar_de v resultados fecha st).2) ∧
  ∃ r st2 nuevas,
    guardar_de v resultados fecha st = (r, st2) ∧
    libro st2 !! mes = Some (columnas_ordenadas :: nuevas) ∧
    match r with
    | Ok (Guardadas n _) =>
        n = length resultados ∧
        length nuevas = n ∧
        ∀ j reg, resultados !! j = Some reg →
                 nuevas !! j
                 = Some (pretty (1 + Z.of_nat j)
                         :: (Gs.texto <$> campos (Pd.of_records resultados) reg))
    | _ => nuevas = []
    end.
Proof.
  intros v resultados fecha mes st.
  assert (resultados ≠ []) as Hne by discriminate.
  assert (mes_de_fecha fecha = Some mes) as Hmes by (vm_compute; reflexivity).
  assert (libro st !! mes = None) as Hno by (vm_compute; reflexivity).
  split; [exact Hne|]. split; [exact Hmes|]. split; [exact Hno|].
  split; [vm_compute; reflexivity|].
  exact (guardar_hoja_nueva v resultados fecha mes st Hne Hmes Hno).
Defined.

(** ** Runs that raise at the append *)

Lemma columns_filtrar df ids :
  Pd.columns (filtrar_duplicados df ids) = Pd.columns df.
Proof. unfold filtrar_duplicados. by case_bool_decide. Qed.

(** A surviving record that lacks a field which another incoming record
    has, among the fields that go to the sheet, stops the run: its cell is
    [NaN], the append raises and no row is stored.  A field that no record
    has is written as [""]; a field that only some have is not. *)
Theorem guardar_campo_faltante_falla
    (v : variante) (resultados : list (gmap string value))
    (fecha mes : string) (st st1 : estado)
    (headers : list string) (u : Z) (ids : gset string)
    (l : nat) (reg otro : gmap string value) (c f : string) :
  mes_de_fecha fecha = Some mes →
  leer_estado (norm_de v) mes st = (Ok (headers, u, ids), st1) →
  (l, reg) ∈ Pd.filas (filtrar_duplicados (Pd.of_records resultados) ids) →
  (c, f) ∈ traduccion →
  otro ∈ resultados →
  is_Some (otro !! f) →
  reg !! f = None →
  guardar_de v resultados fecha st = (Raise InvalidJSONError, st1).
Proof.
  intros Hmes Hleer Hsurv Hcf Hotro Hf Hreg.
  set (df := filtrar_duplicados (Pd.of_records resultados) ids) in *.
  assert (resultados ≠ []) as Hne.
  { intros ->. by apply elem_of_nil in Hotro. }
  assert (f ∈ Pd.columns df) as Hcol.
  { unfold df. rewrite columns_filtrar. apply columns_of_records. eauto. }
  assert (Pd.empty df = false) as Hemp.
  { unfold Pd.empty. apply orb_false_iff. split; apply bool_decide_eq_false_2.
    - intros Hc. rewrite Hc in Hcol. by apply not_elem_of_empty in Hcol.
    - intros Hfil. rewrite Hfil in Hsurv. by apply elem_of_nil in Hsurv. }
  destruct (leer_estado_ok (norm_de v) mes st)
    as (h' & u' & ids' & st1' & g1 & Hleer' & Hg1 & _).
  rewrite Hleer in Hleer'. simplify_eq.
  destruct (guardar_resultado v _ _ _ _ _ _ _ _ g1 Hne Hmes Hleer Hg1 Hemp)
    as [(st2 & _ & Hnan & _)|Hrun]; [|done].
  exfalso. apply serializable_sin_nan in Hnan.
  rewrite sin_nan_spec in Hnan. fold df in Hnan.
  apply list_elem_of_lookup in Hsurv as [p Hp].
  apply (Hnan (VInt (u' + 1 + Z.of_nat p) :: campos df reg) VNaN); [| |done].
  - unfold filas_esperadas. apply list_elem_of_lookup. exists p.
    by rewrite list_lookup_imap, Hp.
  - right. unfold campos. apply list_elem_of_fmap. exists (c, f).
    split; [|done]. cbn [snd]. rewrite bool_decide_eq_true_2 by done.
    unfold Pd.cell. by rewrite Hreg.
Qed.

Lemma guardar_campo_faltante_falla_witness :
  let v := ScrapingPy in
  let resultados := [Ej.a1; {[ "id" := VStr "A2" ]}] in
  let fecha := "2024-08-15" in
  let mes := "August" in
  let st := Ej.vacio in
  let st1 := (leer_estado (norm_de v) mes st).2 in
  let headers := columnas_ordenadas in
  let u := 0 in
  let ids : gset string := ∅ in
  let l := 1%nat in
  let reg : gmap string value := {[ "id" := VStr "A2" ]} in
  let otro := Ej.a1 in
  let c := "Título" in
  let f := "titulo" in
  mes_de_fecha fecha = Some mes ∧
  leer_estado (norm_de v) mes st = (Ok (headers, u, ids), st1) ∧
  (l, reg) ∈ Pd.filas (filtrar_duplicados (Pd.of_records resultados) ids) ∧
  (c, f) ∈ traduccion ∧
  otro ∈ resultados ∧
  is_Some (otro !! f) ∧
  reg !! f = None ∧
  guardar_de v resultados fecha st = (Raise InvalidJSONError, st1).
Proof.
  intros v resultados fecha mes st st1 headers u ids l reg otro c f.
  assert (mes_de_fecha fecha = Some mes) as Hmes by (vm_compute; reflexivity).
  assert (leer_estado (norm_de v) mes st = (Ok (headers, u, ids), st1))
    as Hleer by (vm_compute; reflexivity).
  assert ((l, reg) ∈ Pd.filas (filtrar_duplicados (Pd.of_records resultados) ids))
    as Hsurv.
  { rewrite filtrar_duplicados_vacio. apply filas_of_records. reflexivity. }
  assert ((c, f) ∈ traduccion) as Hcf.
  { unfold traduccion. do 3 right. left. }
  assert (otro ∈ resultados) as Hotro by left.
  assert (is_Some (otro !! f)) as Hf by (exists (VStr "X"); vm_compute; reflexivity).
  assert (reg !! f = None) as Hreg by (vm_compute; reflexivity).
  split; [exact Hmes|]. split; [exact Hleer|]. split; [exact Hsurv|].
  split; [exact Hcf|]. split; [exact Hotro|]. split; [exact Hf|].
  split; [exact Hreg|].
  exact (guardar_campo_faltante_falla v resultados fecha mes st st1 headers
           u ids l reg otro c f Hmes Hleer Hsurv Hcf Hotro Hf Hreg).
Defined.

Lemma alineadas_sin_nan_etiquetas df u f c :
  StronglySorted lt (etiquetas df) →
  (c, f) ∈ traduccion →
  f ∈ Pd.columns df →
  sin_nan (filas_alineadas df u) →
  etiquetas df = seq 0 (Pd.len df).
Proof.
  intros Hs Hcf Hf Hnan. rewrite sin_nan_spec in Hnan.
  assert (Pd.len df = length (etiquetas df)) as ->
    by (unfold Pd.len, etiquetas; by rewrite length_fmap).
  apply crecientes_completas; [done|lia|]. intros i Hi.
  apply (celda_alineada_presente df i f Hf).
  apply (Hnan (VInt (u + 1 + Z.of_nat i)
               :: ((λ cc, celda_alineada df i cc.2) <$> traduccion))).
  - unfold filas_alineadas. apply list_elem_of_fmap. exists i.
    split; [done|]. apply elem_of_seq. unfold Pd.len, etiquetas in *.
    rewrite length_fmap in Hi. lia.
  - right. apply list_elem_of_fmap. by exists (c, f).
Qed.

(** In [sheets.py], a batch in which a record that the filter drops comes
    before one that it keeps never gets stored: the output frame is indexed
    from 0 while the kept records keep their own labels, some row finds no
    record under its label and gets [NaN], and the append raises.  So
    [sheets.py] stores a batch only when the records it drops are the last
    ones of the list. *)
Theorem sheets_descartado_antes_de_nuevo_falla
    (resultados : list (gmap string value))
    (fecha mes : string) (st st1 : estado)
    (headers : list string) (u : Z) (ids : gset string)
    (i j : nat) (ri rj : gmap string value) :
  mes_de_fecha fecha = Some mes →
  leer_estado Sheets._norm mes st = (Ok (headers, u, ids), st1) →
  (i < j)%nat →
  resultados !! i = Some ri →
  (i, ri) ∉ Pd.filas (filtrar_duplicados (Pd.of_records resultados) ids) →
  (j, rj) ∈ Pd.filas (filtrar_duplicados (Pd.of_records resultados) ids) →
  Sheets.guardar_en_hoja resultados fecha st = (Raise InvalidJSONError, st1).
Proof.
  intros Hmes Hleer Hij Hi Hdrop Hkeep.
  set (df := filtrar_duplicados (Pd.of_records resultados) ids) in *.
  assert (resultados ≠ []) as Hne by (by intros ->).
  assert ("id" ∈ Pd.columns df) as Hid.
  { unfold df in *. rewrite columns_filtrar.
    unfold filtrar_duplicados in Hdrop. case_bool_decide; [done|].
    destruct Hdrop. by apply filas_of_records. }
  assert (Pd.empty df = false) as Hemp.
  { unfold Pd.empty. apply orb_false_iff. split; apply bool_decide_eq_false_2.
    - intros Hc. rewrite Hc in Hid. by apply not_elem_of_empty in Hid.
    - intros Hfil. rewrite Hfil in Hkeep. by apply elem_of_nil in Hkeep. }
  unfold Sheets.guardar_en_hoja.
  rewrite (guardar_desglose _ _ _ _ _ _ _ _ _ _ _ Hne Hmes Hleer).
  cbv zeta. fold df. rewrite Hemp.
  destruct (sheets_mapear_filas df u) as (d & -> & Hlen & Hfilas).
  rewrite Hfilas. unfold bind at 1.
  rewrite append_rows_nan; [done|]. intros Hnan.
  pose proof (etiquetas_filtrar resultados ids) as Hs. fold df in Hs.
  assert (etiquetas df = seq 0 (Pd.len df)) as Hseq.
  { eapply (alineadas_sin_nan_etiquetas df u "id" "ID"); [done| |done|done].
    unfold traduccion. do 2 right. left. }
  assert (j ∈ etiquetas df) as Hj.
  { unfold etiquetas. apply list_elem_of_fmap. by exists (j, rj). }
  rewrite Hseq in Hj. apply elem_of_seq in Hj.
  assert (i ∈ etiquetas df) as Hin by (rewrite Hseq; apply elem_of_seq; lia).
  unfold etiquetas in Hin.
  apply list_elem_of_fmap in Hin as ([i' r] & -> & Hin). cbn in *.
  pose proof (filas_filtrar_origen _ _ _ _ Hin) as Hr.
  rewrite Hi in Hr. by simplify_eq.
Qed.

Lemma sheets_descartado_antes_de_nuevo_falla_witness :
  let resultados := [Ej.a1; Ej.a2; Ej.a3] in
  let fecha := "2024-08-15" in
  let mes := "August" in
  let st := Ej.agosto "A2" "Y" in
  let st1 := (leer_estado Sheets._norm mes st).2 in
  let headers := columnas_ordenadas in
  let u := 5 in
  let ids : gset string := {["A2"]} in
  let i := 1%nat in
  let j := 2%nat in
  let ri := Ej.a2 in
  let rj := Ej.a3 in
  mes_de_fecha fecha = Some mes ∧
  leer_estado Sheets._norm mes st = (Ok (headers, u, ids), st1) ∧
  (i < j)%nat ∧
  resultados !! i = Some ri ∧
  ((i, ri) ∉ Pd.filas (filtrar_duplicados (Pd.of_records resultados) ids)) ∧
  (j, rj) ∈ Pd.filas (filtrar_duplicados (Pd.of_records resultados) ids) ∧
  Sheets.guardar_en_hoja resultados fecha st = (Raise InvalidJSONError, st1) ∧
  (Scraping.guardar_en_hoja resultados fecha st).1
  = Ok (Guardadas 2 "August").
Proof.
  intros resultados fecha mes st st1 headers u ids i j ri rj.
  assert (mes_de_fecha fecha = Some mes) as Hmes by (vm_compute; reflexivity).
  assert (leer_estado Sheets._norm mes st = (Ok (headers, u, ids), st1))
    as Hleer by (vm_compute; reflexivity).
  assert (i < j)%nat as Hij by (unfold i, j; lia).
  assert (resultados !! i = Some ri) as Hi by reflexivity.
  assert ((i, ri) ∉ Pd.filas (filtrar_duplicados (Pd.of_records resultados) ids))
    as Hdrop.
  { apply (bool_decide_unpack _). vm_compute. exact I. }
  assert ((j, rj) ∈ Pd.filas (filtrar_duplicados (Pd.of_records resultados) ids))
    as Hkeep.
  { apply (bool_decide_unpack _). vm_compute. exact I. }
  split; [exact Hmes|]. split; [exact Hleer|]. split; [exact Hij|].
  split; [exact Hi|]. split; [exact Hdrop|]. split; [exact Hkeep|].
  split; [|vm_compute; reflexivity].
  exact (sheets_descartado_antes_de_nuevo_falla resultados fecha mes st st1
           headers u ids i j ri rj Hmes Hleer Hij Hi Hdrop Hkeep).
Defined.

(** ** Numbers that are written are read back *)

Lemma ultimo_numero_valor norm mes headers st g :
  libro st !! mes = Some g →
  ∃ st', _ultimo_numero norm mes headers st
         = (Ok (ultimo_de norm headers g), st') ∧
         libro st' = libro st.
Proof.
  intros Hg. unfold _ultimo_numero, ultimo_de.
  destruct (_find_header_idx norm headers alias_numero) as [idx|].
  - unfold bind. rewrite (col_values_ok _ _ _ g Hg). unfold ret.
    replace (idx + 1 - 1)%nat with idx by lia.
    rewrite foldl_anotar_numero, app_nil_l, omap_valor_celda_drop1.
    by eexists.
  - by eexists.
Qed.

Lemma leer_estado_ok_ultimo norm mes st :
  ∃ headers ids st1 g1,
    leer_estado norm mes st
    = (Ok (headers, ultimo_de norm headers g1, ids), st1) ∧
    estado_leido norm mes st headers ids st1 g1.
Proof.
  destruct (leer_estado_ok norm mes st)
    as (h & u & ids & st1 & g1 & Hleer & Hest).
  exists h, ids, st1, g1. split; [|done]. rewrite Hleer. do 3 f_equal.
  revert Hleer.
  unfold leer_estado, bind at 1, Gs.conectar_google_sheets, Gs.registrar.
  unfold bind at 1.
  destruct (abrir_o_crear_ok mes (con_evento st EvConectar))
    as (sta & ga & -> & Hga & _).
  unfold bind at 1.
  destruct (asegurar_encabezados_ok mes sta ga Hga)
    as (h' & stb & gb & -> & Hgb & _).
  unfold bind at 1.
  destruct (ultimo_numero_valor norm mes h' stb gb Hgb) as (stc & -> & Hlc).
  unfold bind at 1.
  assert (libro stc !! mes = Some gb) as Hgc by by rewrite Hlc.
  destruct (ids_existentes_ok norm mes h' stc gb Hgc)
    as (ids' & std & -> & Hld & _).
  unfold ret. intros [= <- <- <- <-].
  destruct Hest as (Hg1 & _). rewrite Hld, Hlc, Hgb in Hg1. by simplify_eq.
Qed.

Lemma leer_estado_estable_ultimo norm mes st g h :
  libro st !! mes = Some g →
  Gs.sin_vacias_finales (nth 0 g []) = h →
  h ≠ [] →
  faltantes_de h columnas_ordenadas = [] →
  ∃ ids st2,
    leer_estado norm mes st = (Ok (h, ultimo_de norm h g, ids), st2) ∧
    libro st2 = libro st.
Proof.
  intros Hg Hh Hne Hf.
  unfold leer_estado, bind at 1, Gs.conectar_google_sheets, Gs.registrar.
  unfold bind at 1, abrir_o_crear, catch. rewrite worksheet_run.
  cbn [libro con_evento]. rewrite Hg.
  unfold bind at 1, _asegurar_encabezados, bind at 1.
  rewrite (row_values_ok _ _ _ g) by done. cbn [Nat.sub]. rewrite Hh.
  destruct h as [|h0 hs]; [done|]. rewrite Hf. unfold ret at 1.
  unfold bind at 1.
  edestruct (ultimo_numero_valor norm mes (h0 :: hs)) as (stc & -> & Hlc);
    [cbn; exact Hg|].
  unfold bind at 1.
  edestruct (ids_existentes_ok norm mes (h0 :: hs) stc g)
    as (ids & std & -> & Hld & Hids); [by rewrite Hlc|].
  exists ids, std. split; [done|]. by rewrite Hld, Hlc.
Qed.

Lemma max_o_cero_no_negativo nums :
  (∀ x, x ∈ nums → 0 < x) → 0 ≤ max_o_cero nums.
Proof.
  intros Hpos. destruct (max_o_cero_spec nums) as [_ [[_ ->]|Hin]]; [done|].
  specialize (Hpos _ Hin). lia.
Qed.

Lemma max_o_cero_app_rango nums (n : nat) :
  (∀ x, x ∈ nums → 0 < x) →
  max_o_cero (nums ++ ((λ j : nat, max_o_cero nums + 1 + Z.of_nat j)
                         <$> seq 0 n))
  = max_o_cero nums + Z.of_nat n.
Proof.
  intros Hpos. destruct n as [|n].
  { cbn. rewrite app_nil_r. lia. }
  set (u := max_o_cero nums).
  set (B := (λ j : nat, u + 1 + Z.of_nat j) <$> seq 0 (S n)).
  destruct (max_o_cero_spec nums) as [Hub _]. fold u in Hub.
  destruct (max_o_cero_spec (nums ++ B)) as [Hub2 Hat].
  assert (u + Z.of_nat (S n) ∈ B) as Hult.
  { unfold B. apply list_elem_of_fmap. exists n.
    split; [lia|]. apply elem_of_seq. lia. }
  assert (u + Z.of_nat (S n) ≤ max_o_cero (nums ++ B)) as Hge.
  { apply Hub2, elem_of_app. by right. }
  destruct Hat as [[Hnil _]|Hin].
  { apply app_eq_nil in Hnil as [_ Hnil]. rewrite Hnil in Hult.
    by apply elem_of_nil in Hult. }
  apply elem_of_app in Hin as [Hin|Hin].
  - specialize (Hub _ Hin). lia.
  - unfold B in Hin. apply list_elem_of_fmap in Hin as (j & Hj & Hjn).
    apply elem_of_seq in Hjn. fold B in Hj. lia.
Qed.

Lemma omap_fmap_total {A B C} (f : B → option C) (g : A → B) (h : A → C)
    (l : list A) :
  (∀ x, x ∈ l → f (g x) = Some (h x)) → omap f (g <$> l) = h <$> l.
Proof.
  induction l as [|x l IH]; intros Hall; [done|]. cbn.
  rewrite (Hall x) by left. cbn. f_equal. apply IH.
  intros y Hy. apply Hall. by right.
Qed.

Lemma serializable_numeros df u (j : nat) :
  serializable (filas_esperadas df u) →
  (j < length (Pd.filas df))%nat →
  (String.length (pretty (Z.abs (u + 1 + Z.of_nat j))) ≤ Py.max_str_digits)%nat.
Proof.
  rewrite serializable_spec. intros Hser Hj.
  destruct (lookup_lt_is_Some_2 (Pd.filas df) j Hj) as [lr Hlr].
  specialize (Hser (VInt (u + 1 + Z.of_nat j) :: campos df lr.2)
                (VInt (u + 1 + Z.of_nat j))).
  cbn [Gs.no_json] in Hser. apply Nat.ltb_ge, Hser; [|left].
  apply list_elem_of_lookup. exists j. unfold filas_esperadas.
  by rewrite list_lookup_imap, Hlr.
Qed.

(** After a call that reports [n] saved rows, on a worksheet whose sequence
    column is the first one, the next run recovers the last number of the
    first run plus [n]: the numbers that were written are the ones read
    back, so numbering goes on where it stopped. *)
Theorem numeracion_continua
    (v : variante) (resultados : list (gmap string value))
    (fecha mes mes' : string) (st st' st1 : estado)
    (headers : list string) (u : Z) (ids : gset string) (n : nat) :
  mes_de_fecha fecha = Some mes →
  leer_estado (norm_de v) mes st = (Ok (headers, u, ids), st') →
  _find_header_idx (norm_de v) headers alias_numero = Some 0%nat →
  guardar_de v resultados fecha st = (Ok (Guardadas n mes'), st1) →
  ∃ ids2 st2,
    leer_estado (norm_de v) mes st1
    = (Ok (headers, u + Z.of_nat n, ids2), st2).
Proof.
  intros Hmes Hleer Hidx Hrun.
  destruct (guardar_guardadas _ _ _ _ _ _ _ _ _ _ _ _ Hmes Hleer Hrun)
    as (-> & -> & Hser & g1 & Hg1 & Hg1ne & Hl1).
  destruct (leer_estado_ok_ultimo (norm_de v) mes st)
    as (h' & ids' & st'' & g1' & Hleer' & Hest).
  rewrite Hleer in Hleer'. simplify_eq.
  destruct Hest as (Hg1' & _ & Hh & Hhne & Hf & _).
  rewrite Hg1 in Hg1'. simplify_eq.
  set (df := filtrar_duplicados (Pd.of_records resultados) ids') in *.
  set (X := Gs.texto_fila <$> filas_esperadas df (ultimo_de (norm_de v) _ g1'))
    in *.
  destruct (leer_estado_estable_ultimo (norm_de v) mes st1 (g1' ++ X)
              (Gs.sin_vacias_finales (nth 0 g1' [])))
    as (ids2 & st2 & Hleer2 & _); [|by destruct g1'|done|done|].
  { rewrite Hl1. apply lookup_insert_eq. }
  exists ids2, st2. rewrite Hleer2. do 3 f_equal.
  unfold ultimo_de. rewrite Hidx.
  set (A := omap valor_celda (drop 1 ((λ fila, nth 0 fila "") <$> g1'))).
  assert (∀ x, x ∈ A → 0 < x) as Hpos.
  { intros x (c & _ & Hc)%list_elem_of_omap. by eapply valor_celda_pos. }
  rewrite <- (max_o_cero_app_rango A (Pd.len df) Hpos). f_equal.
  rewrite fmap_app.
  assert (drop 1 (((λ fila, nth 0 fila "") <$> g1')
                  ++ ((λ fila, nth 0 fila "") <$> X))
          = drop 1 ((λ fila, nth 0 fila "") <$> g1')
            ++ ((λ fila, nth 0 fila "") <$> X)) as ->.
  { destruct g1'; [done|]. cbn. by rewrite !drop_0. }
  rewrite omap_app. fold A. f_equal.
  unfold X, filas_esperadas, Pd.len.
  rewrite <- list_fmap_compose, fmap_imap.
  rewrite (imap_ext _ (λ (j : nat) _,
                         pretty (ultimo_de (norm_de v)
                                   (Gs.sin_vacias_finales (nth 0 g1' [])) g1'
                                 + 1 + Z.of_nat j))) by done.
  rewrite imap_seq_0. f_equal. apply omap_fmap_total.
  intros j Hj%elem_of_seq.
  pose proof (serializable_numeros df _ j Hser) as Hlen.
  unfold ultimo_de in *. rewrite Hidx in *. fold A in Hlen |- *.
  pose proof (max_o_cero_no_negativo A Hpos).
  rewrite Z.abs_eq in Hlen by lia.
  apply valor_celda_pretty; [lia|]. apply Hlen. lia.
Qed.

Lemma numeracion_continua_witness :
  let v := ScrapingPy in
  let resultados := [Ej.a1; Ej.a2] in
  let fecha := "2024-08-15" in
  let mes := "August" in
  let st := Ej.agosto "A3" "Z" in
  let st' := (leer_estado (norm_de v) mes st).2 in
  let st1 := (guardar_de v resultados fecha st).2 in
  let headers := columnas_ordenadas in
  let u := 5 in
  let ids : gset string := {["A3"]} in
  let n := 2%nat in
  mes_de_fecha fecha = Some mes ∧
  leer_estado (norm_de v) mes st = (Ok (headers, u, ids), st') ∧
  _find_header_idx (norm_de v) headers alias_numero = Some 0%nat ∧
  guardar_de v resultados fecha st = (Ok (Guardadas n mes), st1) ∧
  ∃ ids2 st2,
    leer_estado (norm_de v) mes st1
    = (Ok (headers, u + Z.of_nat n, ids2), st2).
Proof.
  intros v resultados fecha mes st st' st1 headers u ids n.
  assert (mes_de_fecha fecha = Some mes) as Hmes by (vm_compute; reflexivity).
  assert (leer_estado (norm_de v) mes st = (Ok (headers, u, ids), st'))
    as Hleer by (vm_compute; reflexivity).
  assert (_find_header_idx (norm_de v) headers alias_numero = Some 0%nat)
    as Hidx by (vm_compute; reflexivity).
  assert (guardar_de v resultados fecha st = (Ok (Guardadas n mes), st1))
    as Hrun by (vm_compute; reflexivity).
  split; [exact Hmes|]. split; [exact Hleer|]. split; [exact Hidx|].
  split; [exact Hrun|].
  exact (numeracion_continua v resultados fecha mes mes st st' st1
           headers u ids n Hmes Hleer Hidx Hrun).
Defined.

Lemma palabras_clave_contenido_witness :
  let blanca := [""; ""; ""; ""; ""; ""] in
  let con := λ p : string, [""; ""; ""; ""; ""; p] in
  let g := replicate 6 blanca
           ++ [con "Palabras"; con " agua potable "; con "  "; con "riego";
               blanca; con "topografía "; con (Py.chr 160);
               con (Py.chr 8195 +:+ "aseo" +:+ Py.chr 12288)]
           ++ replicate 6 blanca ++ [con "fuera de rango"] in
  let st := mkEstado {[ hoja_palabras := g ]} [] in
  libro st !! hoja_palabras = Some g ∧
  (cargar_palabras_clave st).1
  = Ok ["agua potable"; "riego"; "topografía"; "aseo"] ∧
  ∃ palabras st',
    cargar_palabras_clave st = (Ok palabras, st') ∧
    palabras
    = Py.strip
        <$> filter (λ p, Py.strip p ≠ "")
              ((λ fila, nth 5 fila "") <$> take 12 (drop 7 g)) ∧
    (length palabras ≤ 12)%nat ∧
    ∀ p, p ∈ palabras → p ≠ "" ∧ Py.strip p = p.
Proof.
  intros blanca con g st.
  assert (libro st !! hoja_palabras = Some g) as Hg by (vm_compute; reflexivity).
  split; [exact Hg|]. split; [vm_compute; reflexivity|].
  exact (palabras_clave_contenido st g Hg).
Defined.

(** ** The calls of a run after its reads *)

Lemma para_cada_traza {A} (f : A → M unit) (ev : A → list evento)
    (l : list A) (L : gmap string (list (list string))) (t : list evento) :
  (∀ x t', x ∈ l → f x (mkEstado L t') = (Ok tt, mkEstado L (t' ++ ev x))) →
  para_cada f l (mkEstado L t) = (Ok tt, mkEstado L (t ++ (l ≫= ev))).
Proof.
  revert t. induction l as [|x l IH]; intros t Hf.
  - cbn. unfold ret. by rewrite app_nil_r.
  - cbn [para_cada]. unfold bind. rewrite Hf by left.
    rewrite IH by (intros y t' Hy; apply Hf; by right).
    by rewrite bind_cons, (assoc_L (++)).
Qed.

Lemma colorear_columna mes (c : nat) (rs : list Z) L t g :
  L !! mes = Some g →
  para_cada
    (λ r, do val <- Gs.acell mes r c;
          Gs.format mes r c
            (if negb (bool_decide (Py.strip val = ""))
                && negb (bool_decide (Py.strip val = "NF"))
             then Verde else Rojo))
    rs (mkEstado L t)
  = (Ok tt,
     mkEstado L
       (t ++ (rs ≫= λ r,
                [EvAcell mes r c;
                 EvFormat mes r c
                   (color_de (nth (c - 1)%nat
                                (nth (Z.to_nat r - 1)%nat g []) ""))]))).
Proof.
  intros Hg. apply para_cada_traza. intros r t' _.
  unfold bind, Gs.acell, bind, Gs.registrar, Gs.leer_hoja, con_evento.
  cbn [libro traza]. rewrite Hg.
  unfold ret, Gs.format, Gs.registrar, con_evento.
  cbn [libro traza]. unfold color_de. by rewrite <- (assoc_L (++)).
Qed.

Lemma get_all_values_run mes L t g :
  L !! mes = Some g →
  Gs.get_all_values mes (mkEstado L t)
  = (Ok (Gs.sin_filas_vacias_finales g),
     mkEstado L (t ++ [EvGetAllValues mes])).
Proof.
  intros Hg.
  unfold Gs.get_all_values, bind, Gs.registrar, Gs.leer_hoja, con_evento.
  cbn [libro traza]. by rewrite Hg.
Qed.

(** The formatting pass of [scraping.py] on a grid [g]: one read of all the
    values, then for each of the four columns and each of the last [n] rows
    that hold a value a read of the cell and its colour.  The workbook is
    as before. *)
Lemma formatear_traza mes (n : nat) L t g :
  L !! mes = Some g →
  Scraping.formatear mes n (mkEstado L t)
  = (Ok tt,
     mkEstado L
       (t ++ EvGetAllValues mes ::
          ([8; 9; 11; 12]%nat ≫= λ c,
             seqZ (Z.of_nat (length (Gs.sin_filas_vacias_finales g))
                   - Z.of_nat n + 1) (Z.of_nat n) ≫= λ r,
               [EvAcell mes r c;
                EvFormat mes r c
                  (color_de (nth (c - 1)%nat
                               (nth (Z.to_nat r - 1)%nat g []) ""))]))).
Proof.
  intros Hg. unfold Scraping.formatear, bind at 1.
  rewrite (get_all_values_run _ _ _ g Hg). cbv zeta.
  set (e := Z.of_nat (length (Gs.sin_filas_vacias_finales g))).
  replace (e + 1 - (e - Z.of_nat n + 1)) with (Z.of_nat n) by lia.
  unfold Scraping.cols_format. cbn [para_cada].
  assert (posicion "Monto" columnas_ordenadas 0 = Some 7%nat) as ->
    by (vm_compute; reflexivity).
  assert (posicion "Tipo Monto" columnas_ordenadas 0 = Some 8%nat) as ->
    by (vm_compute; reflexivity).
  assert (posicion "FyH TERRENO" columnas_ordenadas 0 = Some 10%nat) as ->
    by (vm_compute; reflexivity).
  assert (posicion "OBLIG?" columnas_ordenadas 0 = Some 11%nat) as ->
    by (vm_compute; reflexivity).
  cbn [Nat.add].
  unfold bind at 1. rewrite (colorear_columna _ _ _ _ _ g Hg).
  unfold bind at 1. rewrite (colorear_columna _ _ _ _ _ g Hg).
  unfold bind at 1. rewrite (colorear_columna _ _ _ _ _ g Hg).
  unfold bind at 1. rewrite (colorear_columna _ _ _ _ _ g Hg).
  unfold ret. do 2 f_equal.
  rewrite !bind_cons. cbn [mbind list_bind]. rewrite app_nil_r.
  rewrite <- !(assoc_L (++)). done.
Qed.

Lemma sin_vacias_finales_cabeza x l :
  x ≠ "" → Gs.sin_vacias_finales (x :: l) ≠ [].
Proof.
  intros Hx. cbn. destruct (Gs.sin_vacias_finales l); [|done].
  by rewrite bool_decide_eq_false_2.
Qed.

Lemma sin_filas_vacias_finales_ultima g f :
  Gs.sin_vacias_finales f ≠ [] →
  Gs.sin_filas_vacias_finales (g ++ [f]) = g ++ [f].
Proof.
  intros Hf. induction g as [|f' g IH]; cbn.
  - by destruct (Gs.sin_vacias_finales f).
  - rewrite IH. by destruct g.
Qed.

Lemma sin_filas_vacias_finales_app g X :
  X ≠ [] →
  (∀ f, f ∈ X → Gs.sin_vacias_finales f ≠ []) →
  Gs.sin_filas_vacias_finales (g ++ X) = g ++ X.
Proof.
  intros Hne HX. destruct X as [|f X _] using rev_ind; [done|].
  rewrite (assoc_L (++)). apply sin_filas_vacias_finales_ultima.
  apply HX, elem_of_app. right. left.
Qed.

Lemma pretty_positivo_no_vacio (k : Z) : 0 < k → pretty k ≠ "".
Proof.
  intros Hk. by destruct (pretty_positivo k Hk) as (_ & ? & _).
Qed.

Lemma ultimo_de_no_negativo norm headers g : 0 ≤ ultimo_de norm headers g.
Proof.
  unfold ultimo_de. destruct (_find_header_idx norm headers alias_numero);
    [|done].
  apply max_o_cero_no_negativo.
  intros x (c & _ & Hc)%list_elem_of_omap. by eapply valor_celda_pos.
Qed.

Lemma filas_esperadas_con_valor df u f :
  0 ≤ u →
  f ∈ Gs.texto_fila <$> filas_esperadas df u →
  Gs.sin_vacias_finales f ≠ [].
Proof.
  intros Hu (j & Hj)%list_elem_of_lookup.
  rewrite list_lookup_fmap in Hj. unfold filas_esperadas in Hj.
  rewrite list_lookup_imap in Hj.
  destruct (Pd.filas df !! j) as [lr|]; [|done]. cbn in Hj. simplify_eq.
  apply sin_vacias_finales_cabeza, pretty_positivo_no_vacio. lia.
Qed.

Lemma length_eventos_formato mes nuevas base :
  length (eventos_formato mes nuevas base) = (8 * length nuevas)%nat.
Proof.
  unfold eventos_formato.
  assert (∀ (k : nat → list evento) (l : list nat),
            (∀ j, length (k j) = 2%nat) →
            length (l ≫= k) = (2 * length l)%nat) as Hdos.
  { intros k l Hk. induction l as [|j l IH]; [done|].
    rewrite bind_cons, length_app, Hk, IH. cbn [length]. lia. }
  rewrite !bind_cons. cbn [mbind list_bind]. rewrite app_nil_r.
  rewrite !length_app, !Hdos by done. rewrite length_seq. lia.
Qed.

Lemma eventos_formato_agregadas mes (g1 nuevas : list (list string)) :
  ([8; 9; 11; 12]%nat ≫= λ c,
     seqZ (Z.of_nat (length (g1 ++ nuevas)) - Z.of_nat (length nuevas) + 1)
          (Z.of_nat (length nuevas)) ≫= λ r,
       [EvAcell mes r c;
        EvFormat mes r c
          (color_de (nth (c - 1)%nat
                       (nth (Z.to_nat r - 1)%nat (g1 ++ nuevas) []) ""))])
  = eventos_formato mes nuevas (length g1).
Proof.
  unfold eventos_formato. apply list_bind_ext; [|done]. intros c.
  unfold seqZ. rewrite Nat2Z.id, list_fmap_bind.
  apply Forall_bind_ext, Forall_forall. intros j Hj%elem_of_seq.
  unfold compose. rewrite length_app.
  replace (Z.of_nat j
           + (Z.of_nat (length g1 + length nuevas)
              - Z.of_nat (length nuevas) + 1))
    with (Z.of_nat (length g1 + j + 1)) by lia.
  rewrite Nat2Z.id.
  replace (length g1 + j + 1 - 1)%nat with (length g1 + j)%nat by lia.
  by rewrite app_nth2_plus.
Qed.

(** The calls of a run that reports saved rows, after its reads: [sheets.py]
    makes one call, the append; [scraping.py] goes on to read all the values
    and then, for each of the columns "Monto", "Tipo Monto", "FyH TERRENO"
    and "OBLIG?" and each appended row, reads the cell and colours it green
    when its trimmed text is neither empty nor "NF" and red otherwise: two
    calls and eight more for each row that was saved.  The cells that are
    coloured are those of the appended rows and no other. *)
Theorem llamadas_tras_las_lecturas
    (v : variante) (resultados : list (gmap string value))
    (fecha mes mes' : string) (st st1 st2 : estado)
    (headers : list string) (u : Z) (ids : gset string) (n : nat) :
  mes_de_fecha fecha = Some mes →
  leer_estado (norm_de v) mes st = (Ok (headers, u, ids), st1) →
  guardar_de v resultados fecha st = (Ok (Guardadas n mes'), st2) →
  ∃ g1 nuevas,
    libro st1 !! mes = Some g1 ∧
    libro st2 !! mes = Some (g1 ++ nuevas) ∧
    length nuevas = n ∧
    traza st2
    = traza st1
      ++ EvAppendRows mes nuevas
         :: match v with
            | SheetsPy => []
            | ScrapingPy =>
                EvGetAllValues mes :: eventos_formato mes nuevas (length g1)
            end ∧
    length (traza st2)
    = (length (traza st1)
       + match v with SheetsPy => 1 | ScrapingPy => 2 + 8 * n end)%nat.
Proof.
  intros Hmes Hleer Hrun.
  assert (resultados ≠ []) as Hne.
  { intros ->. by destruct v. }
  destruct (leer_estado_ok_ultimo (norm_de v) mes st)
    as (h' & ids' & st1' & g1 & Hleer' & Hg1 & _).
  rewrite Hleer in Hleer'. simplify_eq.
  set (u := ultimo_de (norm_de v) h' g1) in *.
  assert (0 ≤ u) as Hu by apply ultimo_de_no_negativo.
  set (df := filtrar_duplicados (Pd.of_records resultados) ids') in *.
  set (X := Gs.texto_fila <$> filas_esperadas df u).
  assert (length X = Pd.len df) as HlenX.
  { unfold X, filas_esperadas, Pd.len. by rewrite length_fmap, length_imap. }
  exists g1, X. split; [done|].
  destruct (Pd.empty df) eqn:Hemp.
  { exfalso. destruct v; cbn [guardar_de norm_de] in *;
      unfold Sheets.guardar_en_hoja, Scraping.guardar_en_hoja in Hrun;
      rewrite (guardar_desglose _ _ _ _ _ _ _ _ _ _ _ Hne Hmes Hleer) in Hrun;
      cbv zeta in Hrun; fold df in Hrun; rewrite Hemp in Hrun;
      discriminate Hrun. }
  assert (X ≠ []) as HXne.
  { intros HX. rewrite HX in HlenX. cbn in HlenX. symmetry in HlenX.
    apply nil_length_inv in HlenX. unfold Pd.empty in Hemp.
    rewrite HlenX in Hemp. by rewrite orb_true_r in Hemp. }
  pose proof (etiquetas_filtrar resultados ids') as Hs. fold df in Hs.
  destruct v; cbn [guardar_de norm_de] in *.
  - unfold Sheets.guardar_en_hoja in Hrun.
    rewrite (guardar_desglose _ _ _ _ _ _ _ _ _ _ _ Hne Hmes Hleer) in Hrun.
    cbv zeta in Hrun. fold df in Hrun. rewrite Hemp in Hrun.
    destruct (sheets_mapear_filas df u) as (d & Hd & Hlen & Hfilas).
    rewrite Hd, Hfilas, Hlen in Hrun.
    destruct (existsb (existsb Gs.no_json) (filas_alineadas df u)) eqn:En.
    { unfold bind at 1 in Hrun.
      rewrite append_rows_no in Hrun; [done|].
      unfold serializable. congruence. }
    unfold bind at 1 in Hrun.
    rewrite (append_rows_ok _ _ _ g1) in Hrun by done.
    rewrite alineadas_esperadas in Hrun
      by (try done; by apply serializable_sin_nan).
    unfold bind, ret in Hrun. simplify_eq. cbn [libro traza]. fold X.
    split; [apply lookup_insert_eq|]. split; [done|]. split; [done|].
    rewrite length_app. done.
  - unfold Scraping.guardar_en_hoja in Hrun.
    rewrite (guardar_desglose _ _ _ _ _ _ _ _ _ _ _ Hne Hmes Hleer) in Hrun.
    cbv zeta in Hrun. fold df in Hrun. rewrite Hemp in Hrun.
    destruct (scraping_mapear_filas df u) as (d & Hd & Hlen & Hfilas);
      [by apply crecientes_nodup|].
    rewrite Hd, Hfilas, Hlen in Hrun.
    destruct (existsb (existsb Gs.no_json) (filas_esperadas df u)) eqn:En.
    { unfold bind at 1 in Hrun.
      rewrite append_rows_no in Hrun; [done|].
      unfold serializable. congruence. }
    unfold bind at 1 in Hrun.
    rewrite (append_rows_ok _ _ _ g1) in Hrun by done.
    unfold bind at 1 in Hrun. fold X in Hrun.
    rewrite (formatear_traza _ _ _ _ (g1 ++ X)) in Hrun
      by apply lookup_insert_eq.
    unfold ret in Hrun. simplify_eq. cbn [libro traza].
    rewrite sin_filas_vacias_finales_app;
      [|done|intros f Hf; by eapply filas_esperadas_con_valor].
    rewrite <- HlenX, eventos_formato_agregadas.
    split; [apply lookup_insert_eq|]. split; [done|].
    rewrite <- (assoc_L (++)). split; [done|].
    rewrite !length_app. cbn [length]. rewrite length_eventos_formato. lia.
Qed.

Lemma llamadas_tras_las_lecturas_witness :
  let v := ScrapingPy in
  let resultados :=
    [Ej.registro "A1" "X";
     <["tipo_monto" := VStr ("NF" +:+ Py.chr 160)]>
       (<["monto" := VStr (Py.chr 160)]> (Ej.registro "A2" "Y"));
     <["tipo_monto" := VStr "NF"]>
       (<["monto" := VStr " 1.500 "]> (Ej.registro "A4" "W"))] in
  let fecha := "2024-08-15" in
  let mes := "August" in
  let st := Ej.agosto "A1" "X" in
  let st1 := (leer_estado (norm_de v) mes st).2 in
  let st2 := (guardar_de v resultados fecha st).2 in
  let headers := columnas_ordenadas in
  let u := 5 in
  let ids : gset string := {["A1"]} in
  let n := 2%nat in
  mes_de_fecha fecha = Some mes ∧
  leer_estado (norm_de v) mes st = (Ok (headers, u, ids), st1) ∧
  guardar_de v resultados fecha st = (Ok (Guardadas n mes), st2) ∧
  omap (λ e, match e with
             | EvFormat _ r c k => Some (r, c, k)
             | _ => None
             end) (traza st2)
  = [(3, 8%nat, Rojo); (4, 8%nat, Verde); (3, 9%nat, Rojo); (4, 9%nat, Rojo);
     (3, 11%nat, Rojo); (4, 11%nat, Rojo); (3, 12%nat, Rojo);
     (4, 12%nat, Rojo)] ∧
  ∃ g1 nuevas,
    libro st1 !! mes = Some g1 ∧
    libro st2 !! mes = Some (g1 ++ nuevas) ∧
    length nuevas = n ∧
    traza st2
    = traza st1
      ++ EvAppendRows mes nuevas
         :: match v with
            | SheetsPy => []
            | ScrapingPy =>
                EvGetAllValues mes :: eventos_formato mes nuevas (length g1)
            end ∧
    length (traza st2)
    = (length (traza st1)
       + match v with SheetsPy => 1 | ScrapingPy => 2 + 8 * n end)%nat.
Proof.
  intros v resultados fecha mes st st1 st2 headers u ids n.
  assert (mes_de_fecha fecha = Some mes) as Hmes by (vm_compute; reflexivity).
  assert (leer_estado (norm_de v) mes st = (Ok (headers, u, ids), st1))
    as Hleer by (vm_compute; reflexivity).
  assert (guardar_de v resultados fecha st = (Ok (Guardadas n mes), st2))
    as Hrun by (vm_compute; reflexivity).
  split; [exact Hmes|]. split; [exact Hleer|]. split; [exact Hrun|].
  split; [vm_compute; reflexivity|].
  exact (llamadas_tras_las_lecturas v resultados fecha mes mes st st1 st2
           headers u ids n Hmes Hleer Hrun).
Defined.

(** ** How a call can end *)

Lemma len_filtrar_duplicados resultados ids :
  (Pd.len (filtrar_duplicados (Pd.of_records resultados) ids)
   ≤ length resultados)%nat.
Proof.
  assert (length (Pd.filas (Pd.of_records resultados)) = length resultados)
    as Hlen by (cbn [Pd.of_records Pd.filas]; apply length_imap).
  unfold filtrar_duplicados, Pd.len. case_bool_decide; [|lia].
  unfold Pd.drop_isin. cbn [Pd.filas]. rewrite <- Hlen. apply length_filter.
Qed.

(** How a call of [guardar_en_hoja] ends, in either file.  With no records
    it reports that and touches nothing.  With records and a date that does
    not parse it raises the [ValueError] of [strptime] before it reaches the
    service.  When it returns, it reports no records only if there were
    none; it reports nothing new after making its reads and nothing else;
    and the number of saved rows it reports is at least one and at most the
    number of records, under the month of the date.  The [WorksheetNotFound]
    of a missing worksheet is caught and never leaves the call. *)
Theorem guardar_desenlaces
    (v : variante) (resultados : list (gmap string value)) (fecha : string)
    (st : estado) :
  (resultados = [] →
   guardar_de v resultados fecha st = (Ok SinResultados, st)) ∧
  (resultados ≠ [] → mes_de_fecha fecha = None →
   guardar_de v resultados fecha st = (Raise (ValueError no_coincide), st)) ∧
  (∀ o st2,
     guardar_de v resultados fecha st = (Ok o, st2) →
     match o with
     | SinResultados => resultados = [] ∧ st2 = st
     | SinNuevas =>
         resultados ≠ [] ∧
         ∃ mes, mes_de_fecha fecha = Some mes ∧
                st2 = (leer_estado (norm_de v) mes st).2
     | Guardadas n mes =>
         resultados ≠ [] ∧ mes_de_fecha fecha = Some mes ∧
         (0 < n ≤ length resultados)%nat
     end) ∧
  ∀ st2, guardar_de v resultados fecha st ≠ (Raise WorksheetNotFound, st2).
Proof.
  assert (resultados ≠ [] → mes_de_fecha fecha = None →
          guardar_de v resultados fecha st
          = (Raise (ValueError no_coincide), st)) as Hfecha.
  { intros Hne Hmes.
    destruct v; cbn [guardar_de];
      unfold Sheets.guardar_en_hoja, Scraping.guardar_en_hoja,
        guardar_en_hoja_con;
      by rewrite Hmes, bool_decide_eq_false_2. }
  split; [intros ->; by destruct v|]. split; [done|].
  destruct (decide (resultados = [])) as [->|Hne].
  { assert (guardar_de v [] fecha st = (Ok SinResultados, st)) as ->
      by by destruct v.
    split; [|done]. intros o st2 [= <- <-]. done. }
  destruct (mes_de_fecha fecha) as [mes|] eqn:Hmes.
  - destruct (guardar_clasificacion v resultados fecha mes st Hne Hmes)
      as (h & u & ids & st1 & g1 & Hleer & Hest
          & [H|[H|(st2 & H & Hemp & Hl)]]); rewrite H.
    + split; [|done]. intros o st2 [= <- <-].
      split; [done|]. exists mes. by rewrite Hleer.
    + split; [|done]. intros o st2 [=].
    + split; [|done]. intros o st2' [= <- <-].
      split; [done|]. split; [done|]. split; [|apply len_filtrar_duplicados].
      unfold Pd.empty, Pd.len in *.
      destruct (Pd.filas (filtrar_duplicados (Pd.of_records resultados) ids));
        cbn; [|lia].
      by rewrite orb_true_r in Hemp.
  - rewrite Hfecha by done. split; [|done]. intros o st2 [=].
Qed.

Lemma guardar_desenlaces_witness :
  let v := ScrapingPy in
  let resultados := [Ej.a1; Ej.a2] in
  let fecha := "2024-08-15" in
  let st := Ej.agosto "A1" "X" in
  guardar_de v resultados fecha st
  = (Ok (Guardadas 1 "August"), (guardar_de v resultados fecha st).2) ∧
  guardar_de v resultados "15-08-2024" st
  = (Raise (ValueError no_coincide), st) ∧
  guardar_de v [Ej.a1] fecha st
  = (Ok SinNuevas, (leer_estado (norm_de v) "August" st).2) ∧
  (resultados = [] →
   guardar_de v resultados fecha st = (Ok SinResultados, st)) ∧
  (resultados ≠ [] → mes_de_fecha fecha = None →
   guardar_de v resultados fecha st = (Raise (ValueError no_coincide), st)) ∧
  (∀ o st2,
     guardar_de v resultados fecha st = (Ok o, st2) →
     match o with
     | SinResultados => resultados = [] ∧ st2 = st
     | SinNuevas =>
         resultados ≠ [] ∧
         ∃ mes, mes_de_fecha fecha = Some mes ∧
                st2 = (leer_estado (norm_de v) mes st).2
     | Guardadas n mes =>
         resultados ≠ [] ∧ mes_de_fecha fecha = Some mes ∧
         (0 < n ≤ length resultados)%nat
     end) ∧
  ∀ st2, guardar_de v resultados fecha st ≠ (Raise WorksheetNotFound, st2).
Proof.
  intros v resultados fecha st.
  split; [vm_compute; reflexivity|]. split; [vm_compute; reflexivity|].
  split; [vm_compute; reflexivity|].
  exact (guardar_desenlaces v resultados fecha st).
Defined.

(** ** Identifiers that the filter never recognises *)

(** The identifiers recovered from the sheet are trimmed and not empty, and
    the filter compares them with the identifiers of the records as they
    come.  So a record whose identifier is empty, or has a blank at either
    end, or is not a string, is never taken for a stored one: it stays in
    the frame whatever the sheet holds. *)
Theorem id_con_blancos_no_se_filtra
    (norm : string → string) (mes : string) (st st1 : estado)
    (headers : list string) (u : Z) (ids : gset string)
    (resultados : list (gmap string value)) :
  leer_estado norm mes st = (Ok (headers, u, ids), st1) →
  (∀ s, s ∈ ids → s ≠ "" ∧ Py.strip s = s) ∧
  ∀ i r val,
    resultados !! i = Some r →
    r !! "id" = Some val →
    (∀ s, val = VStr s → s = "" ∨ Py.strip s ≠ s) →
    (i, r) ∈ Pd.filas (filtrar_duplicados (Pd.of_records resultados) ids).
Proof.
  intros Hleer.
  destruct (leer_estado_ok norm mes st)
    as (h' & u' & ids' & st1' & g1 & Hleer' & _ & _ & _ & _ & _ & Hids & _).
  rewrite Hleer in Hleer'. simplify_eq.
  assert (∀ s, s ∈ ids' → s ≠ "" ∧ Py.strip s = s) as Hrec.
  { intros s [Hs (idx & fila & _ & _ & <-)]%Hids.
    split; [done|apply strip_idemp]. }
  split; [done|]. intros i r val Hi Hval Hs.
  apply (filtrar_duplicados_spec _ _ _ _ _ Hi Hval).
  intros (s & -> & Hin). destruct (Hrec s Hin) as [Hne Hst].
  destruct (Hs s eq_refl); done.
Qed.

Lemma id_con_blancos_no_se_filtra_witness :
  let norm := Sheets._norm in
  let mes := "August" in
  let st := Ej.a_mano in
  let st1 := (leer_estado norm mes st).2 in
  let headers := ["N°"; "Id"; "Notas"] ++ columnas_ordenadas in
  let u := 0 in
  let ids : gset string := {["B1"; "B2"]} in
  let resultados := [Ej.registro "B1" "X"; Ej.registro " B1 " "X"] in
  leer_estado norm mes st = (Ok (headers, u, ids), st1) ∧
  (∀ s, s ∈ ids → s ≠ "" ∧ Py.strip s = s) ∧
  ∀ i r val,
    resultados !! i = Some r →
    r !! "id" = Some val →
    (∀ s, val = VStr s → s = "" ∨ Py.strip s ≠ s) →
    (i, r) ∈ Pd.filas (filtrar_duplicados (Pd.of_records resultados) ids).
Proof.
  intros norm mes st st1 headers u ids resultados.
  assert (leer_estado norm mes st = (Ok (headers, u, ids), st1))
    as Hleer by (vm_compute; reflexivity).
  split; [exact Hleer|].
  exact (id_con_blancos_no_se_filtra norm mes st st1 headers u ids resultados
           Hleer).
Defined.
